(** * SmartRunner: a PTY supervisor with an input gate

    Shallow embedding of [scripts/runner.py] (class [SmartRunner]) and the
    properties of its watchdog, pause/resume handshake, status record,
    input gate and directory setup.

    Conventions of the embedding.
    - A Python [str] is a list of Unicode code points, [bytes] is a list of
      [byte].
    - Timestamps ([time.time()]) are integers counting milliseconds; only
      their order and differences are used by the program.
    - The program talks to its environment (the PTY, the clock, the external
      agent that edits the status record, the writers of the named pipe).
      What the environment does is given to each function as a script of
      events, one per loop iteration; a loop that has consumed its script
      and is still waiting is reported as such.
    - Once [setup_dirs] has completed, file writes inside the runner
      directory succeed (nobody removes the directory during the run), and
      [os.write] to the PTY master writes the whole buffer.  The calls that
      can fail before that, and the spawn, are events of the environment
      of [run]. *)

From Stdlib Require Import ZArith List Bool Lia.
From Stdlib.Strings Require Import String Ascii Byte.
From Stdlib Require Import DecimalString.
Import ListNotations.
Open Scope Z_scope.

(** ** Python values *)

Definition codepoint := Z.
Definition str := list codepoint.

(** An ASCII literal as a Python string. *)
Definition py (s : string) : str :=
  map (fun a => Z.of_N (N_of_ascii a)) (list_ascii_of_string s).

Fixpoint str_eqb (a b : str) : bool :=
  match a, b with
  | [], [] => true
  | x :: a', y :: b' => (x =? y) && str_eqb a' b'
  | _, _ => false
  end.

(** Truth value of a string: [if s:] holds for a non-empty one. *)
Definition truthy (s : str) : bool :=
  match s with [] => false | _ :: _ => true end.

Definition LF : codepoint := 10.
Definition CR : codepoint := 13.

(** [s.endswith('\n')] *)
Fixpoint endswith_newline (s : str) : bool :=
  match s with
  | [] => false
  | [c] => c =? LF
  | _ :: r => endswith_newline r
  end.

(** ** The UTF-8 codec of the Python runtime

    [bytes.decode('utf-8', errors=...)] and [str.encode('utf-8')].  The decoder
    follows the runtime's scanner: an invalid start byte or an invalid
    continuation ends the faulty sequence before the offending byte, a
    truncated sequence at the end of the data is one faulty sequence.  With
    [Strict] a faulty sequence raises, with [Replace] it becomes U+FFFD and
    decoding resumes after it. *)
Module Utf8.

Definition Zb (b : byte) : Z := Z.of_N (Byte.to_N b).

Definition byte_of (z : Z) : byte :=
  match Byte.of_N (Z.to_N z) with Some b => b | None => x00 end.

Inductive Handler := Strict | Replace.

Definition REPLACEMENT : codepoint := 0xFFFD.

Definition on_error (h : Handler) (k : option str) : option str :=
  match h with
  | Strict => None
  | Replace => option_map (cons REPLACEMENT) k
  end.

Definition emit (c : codepoint) (k : option str) : option str :=
  option_map (cons c) k.

Definition is_cont (c : Z) : bool := (0x80 <=? c) && (c <? 0xC0).

(** Second byte of a three-byte sequence: a continuation, not an overlong
    form (lead E0) and not a surrogate (lead ED). *)
Definition second_of_3 (c1 c2 : Z) : bool :=
  is_cont c2 && negb (if c2 <? 0xA0 then c1 =? 0xE0 else c1 =? 0xED).

(** Second byte of a four-byte sequence: a continuation, not an overlong
    form (lead F0) and not above U+10FFFF (lead F4). *)
Definition second_of_4 (c1 c2 : Z) : bool :=
  is_cont c2 && negb (if c2 <? 0x90 then c1 =? 0xF0 else c1 =? 0xF4).

Fixpoint decode (h : Handler) (bs : list byte) : option str :=
  match bs with
  | [] => Some []
  | b1 :: r1 =>
    let c1 := Zb b1 in
    if c1 <? 0x80 then emit c1 (decode h r1)
    else if c1 <? 0xC2 then on_error h (decode h r1)
    else if c1 <? 0xE0 then
      match r1 with
      | [] => on_error h (Some [])
      | b2 :: r2 =>
        let c2 := Zb b2 in
        if is_cont c2
        then emit ((c1 - 0xC0) * 64 + (c2 - 0x80)) (decode h r2)
        else on_error h (decode h r1)
      end
    else if c1 <? 0xF0 then
      match r1 with
      | [] => on_error h (Some [])
      | b2 :: r2 =>
        let c2 := Zb b2 in
        if second_of_3 c1 c2 then
          match r2 with
          | [] => on_error h (Some [])
          | b3 :: r3 =>
            let c3 := Zb b3 in
            if is_cont c3
            then emit ((c1 - 0xE0) * 4096 + (c2 - 0x80) * 64 + (c3 - 0x80))
                      (decode h r3)
            else on_error h (decode h r2)
          end
        else on_error h (decode h r1)
      end
    else if c1 <? 0xF5 then
      match r1 with
      | [] => on_error h (Some [])
      | b2 :: r2 =>
        let c2 := Zb b2 in
        if second_of_4 c1 c2 then
          match r2 with
          | [] => on_error h (Some [])
          | b3 :: r3 =>
            let c3 := Zb b3 in
            if is_cont c3 then
              match r3 with
              | [] => on_error h (Some [])
              | b4 :: r4 =>
                let c4 := Zb b4 in
                if is_cont c4
                then emit ((c1 - 0xF0) * 262144 + (c2 - 0x80) * 4096
                           + (c3 - 0x80) * 64 + (c4 - 0x80))
                          (decode h r4)
                else on_error h (decode h r3)
              end
            else on_error h (decode h r2)
          end
        else on_error h (decode h r1)
      end
    else on_error h (decode h r1)
  end.

(** UTF-8 form of one code point; surrogates and values outside the Unicode
    range cannot be encoded ([UnicodeEncodeError]). *)
Definition encode_cp (c : codepoint) : option (list byte) :=
  if c <? 0 then None
  else if c <? 0x80 then Some [byte_of c]
  else if c <? 0x800 then
    Some [byte_of (0xC0 + c / 64); byte_of (0x80 + c mod 64)]
  else if c <? 0x10000 then
    if (0xD800 <=? c) && (c <? 0xE000) then None
    else Some [byte_of (0xE0 + c / 4096); byte_of (0x80 + (c / 64) mod 64);
               byte_of (0x80 + c mod 64)]
  else if c <? 0x110000 then
    Some [byte_of (0xF0 + c / 262144); byte_of (0x80 + (c / 4096) mod 64);
          byte_of (0x80 + (c / 64) mod 64); byte_of (0x80 + c mod 64)]
  else None.

Fixpoint encode (s : str) : option (list byte) :=
  match s with
  | [] => Some []
  | c :: r =>
    match encode_cp c, encode r with
    | Some a, Some b => Some (a ++ b)
    | _, _ => None
    end
  end.

End Utf8.

(** ** JSON values and the status record *)

#[local] Set Warnings "-register-all".
Inductive Json :=
| JNull
| JBool (b : bool)
| JNum (z : Z)
| JStr (s : str)
| JArr (l : list Json)
| JObj (kv : list (str * Json)).

(** Keys of a parsed object are distinct; the first binding is the value. *)
Fixpoint lookup (k : str) (kv : list (str * Json)) : option Json :=
  match kv with
  | [] => None
  | (k', v) :: r => if str_eqb k k' then Some v else lookup k r
  end.

(** [data.get(k)]: [None] stands for the [AttributeError] raised when the
    parsed document is not an object; a missing key gives Python's [None]. *)
Definition dict_get (k : str) (data : Json) : option Json :=
  match data with
  | JObj kv => Some (match lookup k kv with Some v => v | None => JNull end)
  | _ => None
  end.

(** [v == lit] for a string literal. *)
Definition eq_str (v : Json) (lit : str) : bool :=
  match v with JStr s => str_eqb s lit | _ => false end.

(** What is found at the path of the status record: nothing, text that is
    not a JSON document (an empty file is one), or a JSON document. *)
Inductive FileContent :=
| Absent
| Malformed (raw : str)
| Holds (v : Json).

(** [with open(path, 'r') as f: json.load(f)]; [None] stands for the
    exception ([FileNotFoundError], [JSONDecodeError]). *)
Definition json_load (c : FileContent) : option Json :=
  match c with Holds v => Some v | _ => None end.

(** ** The session ([self]) *)

Inductive State := MONITORING | WAITING_FOR_AI.

Definition state_name (st : State) : str :=
  match st with
  | MONITORING => py "MONITORING"
  | WAITING_FOR_AI => py "WAITING_FOR_AI"
  end.

Definition AI_DONE : str := py "AI_DONE".
Definition IO_WAIT : str := py "IO_WAIT".
Definition STALL : str := py "STALL".

Record Session := mkSession {
  cmd : str;
  cron_name : str;
  cron_payload : str;
  working_dir : str;
  cron_id : option str;
  process : option Z;          (* pid of the child, once spawned *)
  master_fd : option Z;
  running : bool;
  last_activity_time : Z;
  last_log_chunk : str;
  state : State
}.

Definition STALL_TIMEOUT : Z := 30000.
Definition IO_WAIT_TIMEOUT : Z := 2000.
(** Timeout of [select] and length of the short sleeps, in milliseconds. *)
Definition POLL_INTERVAL : Z := 500.

Definition set_state (st : State) (s : Session) : Session :=
  mkSession (cmd s) (cron_name s) (cron_payload s) (working_dir s) (cron_id s)
    (process s) (master_fd s) (running s) (last_activity_time s)
    (last_log_chunk s) st.

Definition set_last_activity_time (t : Z) (s : Session) : Session :=
  mkSession (cmd s) (cron_name s) (cron_payload s) (working_dir s) (cron_id s)
    (process s) (master_fd s) (running s) t (last_log_chunk s) (state s).

Definition set_last_log_chunk (c : str) (s : Session) : Session :=
  mkSession (cmd s) (cron_name s) (cron_payload s) (working_dir s) (cron_id s)
    (process s) (master_fd s) (running s) (last_activity_time s) c (state s).

(** [os.path.join(a, b)] on POSIX. *)
Definition SEP : codepoint := 47.

Fixpoint endswith_sep (p : str) : bool :=
  match p with
  | [] => false
  | [c] => c =? SEP
  | _ :: r => endswith_sep r
  end.

Definition path_join (a b : str) : str :=
  match b with
  | c :: _ =>
    if c =? SEP then b
    else if negb (truthy a) || endswith_sep a then a ++ b
    else a ++ SEP :: b
  | [] => if negb (truthy a) || endswith_sep a then a else a ++ [SEP]
  end.

Definition runner_dir (s : Session) : str := path_join (working_dir s) (py ".runner").
Definition status_file (s : Session) : str := path_join (runner_dir s) (py "status.json").
Definition log_file (s : Session) : str := path_join (runner_dir s) (py "output.log").
Definition pid_file (s : Session) : str := path_join (runner_dir s) (py "runner.pid").
Definition input_pipe (s : Session) : str := path_join (runner_dir s) (py "input.pipe").

(** [SmartRunner.__init__]; [now] is the reading of the clock. *)
Definition init (cmd0 name payload wd : str) (now : Z) : Session :=
  mkSession cmd0 name payload wd None None None true now [] MONITORING.

(** ** The world outside the session *)

(** The runner directory: its four artifacts and whatever else lies there. *)
Record RunnerDir := mkDir {
  status_json : FileContent;
  output_log : option str;          (* [None]: no log file yet *)
  runner_pid : option Z;            (* the number written in the pid file *)
  pipe_mode : option Z;             (* permission bits of the FIFO *)
  other_entries : list (str * str)
}.

(** Lines printed by the runner itself. *)
Inductive Msg :=
| MsgTriggering (reason : str)
| MsgNoCronId
| MsgWaiting
| MsgAIFinished
| MsgCmdError (e : str)
| MsgListening (pipe : str)
| MsgInjected (data : str)
| MsgGateError (e : str).

Inductive ConsoleWrite :=
| Echo (text : str)     (* [sys.stdout.write(text)]: output of the child *)
| Say (m : Msg).        (* [print("[Runner] ...")] *)

Record World := mkWorld {
  w_pid : Z;                            (* [os.getpid()] *)
  w_dir : RunnerDir;
  w_status_hist : list FileContent;     (* every content the runner's own
                                           file operations gave the status
                                           record, oldest first *)
  w_console : list ConsoleWrite;
  w_cron_calls : list (list str);       (* argument lists of the CLI calls *)
  w_master_in : list byte;              (* bytes written to the PTY master *)
  w_sleeps : list Z                     (* [time.sleep] calls, milliseconds *)
}.

Definition set_dir (d : RunnerDir) (w : World) : World :=
  mkWorld (w_pid w) d (w_status_hist w) (w_console w) (w_cron_calls w)
    (w_master_in w) (w_sleeps w).

Definition set_status_json (c : FileContent) (d : RunnerDir) : RunnerDir :=
  mkDir c (output_log d) (runner_pid d) (pipe_mode d) (other_entries d).

Definition set_output_log (l : option str) (d : RunnerDir) : RunnerDir :=
  mkDir (status_json d) l (runner_pid d) (pipe_mode d) (other_entries d).

Definition say (m : Msg) (w : World) : World :=
  mkWorld (w_pid w) (w_dir w) (w_status_hist w) (w_console w ++ [Say m])
    (w_cron_calls w) (w_master_in w) (w_sleeps w).

Definition echo (text : str) (w : World) : World :=
  mkWorld (w_pid w) (w_dir w) (w_status_hist w) (w_console w ++ [Echo text])
    (w_cron_calls w) (w_master_in w) (w_sleeps w).

Definition sleep (ms : Z) (w : World) : World :=
  mkWorld (w_pid w) (w_dir w) (w_status_hist w) (w_console w)
    (w_cron_calls w) (w_master_in w) (w_sleeps w ++ [ms]).

Definition os_write (bs : list byte) (w : World) : World :=
  mkWorld (w_pid w) (w_dir w) (w_status_hist w) (w_console w)
    (w_cron_calls w) (w_master_in w ++ bs) (w_sleeps w).

(** The runner gives the status record a new content. *)
Definition put_status (c : FileContent) (w : World) : World :=
  mkWorld (w_pid w) (set_status_json c (w_dir w)) (w_status_hist w ++ [c])
    (w_console w) (w_cron_calls w) (w_master_in w) (w_sleeps w).

(** Somebody else (the intervention agent) replaces the status record. *)
Definition agent_writes (a : option FileContent) (w : World) : World :=
  match a with
  | Some c => set_dir (set_status_json c (w_dir w)) w
  | None => w
  end.

(** ** [update_status], [log_output], [run_openclaw_cmd] *)

Definition optional_field (k : string) (v : option str) : list (str * Json) :=
  match v with
  | Some x => if truthy x then [(py k, JStr x)] else []
  | None => []
  end.

(** The dictionary [data] built by [update_status]. *)
Definition status_record (s : Session) (st : State) (reason info : option str)
    (now pid : Z) : Json :=
  JObj ([ (py "state", JStr (state_name st));
          (py "updated_at", JNum now);
          (py "runner_pid", JNum pid);
          (py "child_pid", match process s with Some c => JNum c | None => JNull end);
          (py "cmd", JStr (cmd s));
          (py "input_pipe", JStr (input_pipe s)) ]
        ++ optional_field "reason" reason
        ++ optional_field "info" info).

(** [open(self.status_file, 'w')] creates the file or cuts the existing one
    down to nothing, in place. *)
Definition open_truncate (w : World) : World := put_status (Malformed []) w.

(** [json.dump(data, f)] followed by the close of the [with] block: the
    document is in the file. *)
Definition json_dump (data : Json) (w : World) : World := put_status (Holds data) w.

Definition update_status (st : State) (reason info : option str) (now : Z)
    (s : Session) (w : World) : Session * World :=
  let s' := set_state st s in
  let data := status_record s' st reason info now (w_pid w) in
  (s', json_dump data (open_truncate w)).

(** [open(self.log_file, 'a')] creates the log when it is missing. *)
Definition log_output (text : str) (w : World) : World :=
  let d := w_dir w in
  let old := match output_log d with Some t => t | None => [] end in
  set_dir (set_output_log (Some (old ++ text)) d) w.

(** [run_openclaw_cmd(args)]: the call is made; [err] is the message of the
    exception when [subprocess.run] raises one.  The output is not used by
    the callers modelled here. *)
Definition run_openclaw_cmd (args : list str) (err : option str) (w : World) : World :=
  let w' := mkWorld (w_pid w) (w_dir w) (w_status_hist w) (w_console w)
              (w_cron_calls w ++ [args]) (w_master_in w) (w_sleeps w) in
  match err with
  | Some e => say (MsgCmdError e) w'
  | None => w'
  end.

(** ** The PTY as the supervisor sees it *)

(** Result of [os.read(master_fd, 10240)]. *)
Inductive ReadOutcome :=
| Data (data : list byte)     (* possibly empty *)
| OSError.

(** Result of [select.select([master_fd], [], [], 0.5)]: nothing to read
    within the timeout, or the descriptor is readable and the read that
    follows gives [r]. *)
Inductive Ready :=
| NotReadable
| Readable (r : ReadOutcome).

(** [data.decode('utf-8', errors='replace')] *)
Definition decode_replace (data : list byte) : str :=
  match Utf8.decode Utf8.Replace data with Some t => t | None => [] end.

Definition nonempty {A} (l : list A) : bool :=
  match l with [] => false | _ :: _ => true end.

(** ** [trigger_ai]: the pause/resume protocol *)

(** One iteration of the wait loop, as the environment drives it. *)
Record PauseEv := mkPauseEv {
  pe_ready : Ready;                   (* the drain attempt *)
  pe_agent : option FileContent;      (* what the agent wrote to the status
                                         record before it is read, if anything *)
  pe_t_status : Z;                    (* clock, inside [update_status] *)
  pe_now : Z                          (* clock, at the reset of the activity clock *)
}.

Record TriggerEnv := mkTriggerEnv {
  te_now : Z;                         (* clock, inside [update_status] *)
  te_cmd_err : option str;            (* failure of the force-run call *)
  te_pause : list PauseEv
}.

(** How a call that may wait for the agent stands when the script ends. *)
Inductive Waited :=
| Returned (s : Session) (w : World)
| StillWaiting (s : Session) (w : World).

(** "Keep draining output" *)
Definition drain_paused (r : Ready) (s : Session) (w : World) : World :=
  match master_fd s with
  | Some _ =>
    match r with
    | Readable (Data data) =>
      if nonempty data then
        let text := decode_replace data in
        log_output text (echo text w)
      else w
    | Readable OSError => w
    | NotReadable => w
    end
  | None => sleep POLL_INTERVAL w
  end.

(** "Check if AI responded": [Some true] when the record says AI_DONE,
    [Some false] when it says something else, [None] when reading it raised. *)
Definition ai_responded (w : World) : option bool :=
  match json_load (status_json (w_dir w)) with
  | Some data =>
    match dict_get (py "state") data with
    | Some v => Some (eq_str v AI_DONE)
    | None => None
    end
  | None => None
  end.

Definition RESUMED : str := py "Resumed after AI intervention".

Fixpoint wait_for_ai (evs : list PauseEv) (s : Session) (w : World) : Waited :=
  if negb (running s) then Returned s w
  else
    match evs with
    | [] => StillWaiting s w
    | ev :: rest =>
      let w1 := drain_paused (pe_ready ev) s w in
      let w2 := agent_writes (pe_agent ev) w1 in
      match ai_responded w2 with
      | Some true =>
        let w3 := say MsgAIFinished w2 in
        let (s1, w4) := update_status MONITORING None (Some RESUMED)
                          (pe_t_status ev) s w3 in
        let s2 := set_last_activity_time (pe_now ev) s1 in
        Returned (set_last_log_chunk [] s2) w4
      | _ => wait_for_ai rest s w2
      end
    end.

Definition force_run (id : str) : list str :=
  [py "cron"; py "run"; py "--force"; id].

Definition trigger_ai (reason : str) (env : TriggerEnv) (s : Session) (w : World)
    : Waited :=
  match state s with
  | WAITING_FOR_AI => Returned s w
  | MONITORING =>
    let w1 := say (MsgTriggering reason) w in
    let (s1, w2) := update_status WAITING_FOR_AI (Some reason) None (te_now env) s w1 in
    let w3 :=
      match cron_id s1 with
      | Some id =>
        if truthy id then run_openclaw_cmd (force_run id) (te_cmd_err env) w2
        else say MsgNoCronId w2
      | None => say MsgNoCronId w2
      end in
    let w4 := say MsgWaiting w3 in
    wait_for_ai (te_pause env) s1 w4
  end.

(** ** The control loop of [run] *)

Record MainEv := mkMainEv {
  me_alive : bool;          (* [self.process.poll() is None] *)
  me_ready : Ready;         (* the drain attempt *)
  me_t_activity : Z;        (* clock, when a chunk has been logged *)
  me_now : Z;               (* clock, "Check timers" *)
  me_trigger : TriggerEnv;  (* what happens during [trigger_ai], if called *)
  me_t_after : Z            (* clock, after [trigger_ai("STALL")] *)
}.

(** The drain attempt of one iteration; [None] is the [break] on [OSError]. *)
Definition drain (r : Ready) (t_activity : Z) (s : Session) (w : World)
    : option (Session * World) :=
  match r with
  | NotReadable => Some (s, w)
  | Readable OSError => None
  | Readable (Data data) =>
    if nonempty data then
      let text := decode_replace data in
      let w' := log_output text (echo text w) in
      Some (set_last_log_chunk text (set_last_activity_time t_activity s), w')
    else Some (s, w)
  end.

Inductive Iter :=
| Continue (s : Session) (w : World)     (* on to the next iteration *)
| Broke (s : Session) (w : World)        (* left the loop by [break] *)
| Blocked (s : Session) (w : World).     (* still inside [trigger_ai] *)

Definition io_wait_due (now : Z) (s : Session) : bool :=
  (IO_WAIT_TIMEOUT <? now - last_activity_time s)
  && truthy (last_log_chunk s)
  && negb (endswith_newline (last_log_chunk s)).

Definition stall_due (now : Z) (s : Session) : bool :=
  STALL_TIMEOUT <? now - last_activity_time s.

(** "Check timers" *)
Definition check_timers (now : Z) (env : TriggerEnv) (t_after : Z)
    (s : Session) (w : World) : Iter :=
  if io_wait_due now s then
    match trigger_ai IO_WAIT env s w with
    | Returned s' w' => Continue (set_last_log_chunk [] s') w'
    | StillWaiting s' w' => Blocked s' w'
    end
  else if stall_due now s then
    match trigger_ai STALL env s w with
    | Returned s' w' => Continue (set_last_activity_time t_after s') w'
    | StillWaiting s' w' => Blocked s' w'
    end
  else Continue s w.

Definition main_iter (ev : MainEv) (s : Session) (w : World) : Iter :=
  match drain (me_ready ev) (me_t_activity ev) s w with
  | None => Broke s w
  | Some (s1, w1) => check_timers (me_now ev) (me_trigger ev) (me_t_after ev) s1 w1
  end.

(** How the loop stands when the script ends. *)
Inductive LoopEnd :=
| ChildExited (s : Session) (w : World)   (* the loop condition failed *)
| ReadFailed (s : Session) (w : World)    (* [break] *)
| Paused (s : Session) (w : World)        (* inside [trigger_ai] *)
| Looping (s : Session) (w : World).      (* script consumed, loop goes on *)

Fixpoint main_loop (evs : list MainEv) (s : Session) (w : World) : LoopEnd :=
  match evs with
  | [] => Looping s w
  | ev :: rest =>
    if me_alive ev then
      match main_iter ev s w with
      | Continue s' w' => main_loop rest s' w'
      | Broke s' w' => ReadFailed s' w'
      | Blocked s' w' => Paused s' w'
      end
    else ChildExited s w
  end.

(** ** [input_gate_thread]

    The pipe is opened in text mode, [open(self.input_pipe, 'r')]: the
    runtime decodes the writer's bytes (strictly, as UTF-8 under a UTF-8
    locale) and applies universal newlines before [pipe.read(1024)] hands
    out the text, at most 1024 characters at a time. *)

(** Universal newlines on input: CR LF and a lone CR both become LF. *)
Fixpoint translate_newlines (t : str) : str :=
  match t with
  | [] => []
  | c :: r =>
    if c =? CR then
      LF :: match r with
            | c' :: r' => if c' =? LF then translate_newlines r'
                          else translate_newlines r
            | [] => []
            end
    else c :: translate_newlines r
  end.

Fixpoint chunks_fuel (fuel n : nat) (t : str) : list str :=
  match fuel with
  | O => []
  | S fuel' =>
    match t with
    | [] => []
    | _ :: _ => firstn n t :: chunks_fuel fuel' n (skipn n t)
    end
  end.

(** [t] cut into pieces of [n] characters, the last one possibly shorter. *)
Definition chunks (n : nat) (t : str) : list str :=
  chunks_fuel (List.length t) n t.

Definition READ_SIZE : nat := 1024.

(** Result of one [pipe.read(1024)]: text (the empty string at end of
    input) or an exception. *)
Inductive ReadRes :=
| Got (data : str)
| Failed (e : str).

(** What the successive reads return when a writer opens the pipe, writes
    [bs] and closes it.  For bytes that are not UTF-8 the reads before the
    failing one are left out: the script starts at the read that raises. *)
Definition pipe_reads (bs : list byte) : list ReadRes :=
  match Utf8.decode Utf8.Strict bs with
  | Some t => map Got (chunks READ_SIZE (translate_newlines t)) ++ [Got []]
  | None => [Failed (py "UnicodeDecodeError")]
  end.

(** One pass of the outer loop: the [open] returns once a writer has
    connected, or raises. *)
Inductive Connection :=
| Opened (reads : list ReadRes)
| OpenFailed (e : str).

Inductive Served :=
| Closed (w : World)              (* end of input: leave the [with] block *)
| Raised (e : str) (w : World)    (* an exception left the [with] block *)
| Reading (w : World).            (* waiting inside [pipe.read] *)

Fixpoint serve (reads : list ReadRes) (s : Session) (w : World) : Served :=
  if negb (running s) then Closed w
  else
    match reads with
    | [] => Reading w
    | Got data :: rest =>
      if truthy data then
        match master_fd s with
        | Some _ =>
          match Utf8.encode data with
          | Some bs => serve rest s (say (MsgInjected data) (os_write bs w))
          | None => Raised (py "UnicodeEncodeError") w
          end
        | None => serve rest s w
        end
      else Closed w
    | Failed e :: _ => Raised e w
    end.

(** The handler [except Exception as e] *)
Definition gate_error (e : str) (s : Session) (w : World) : World :=
  if running s then sleep POLL_INTERVAL (say (MsgGateError e) w) else w.

Inductive GateEnd :=
| Stopped (w : World)             (* [self.running] is false *)
| AwaitingWriter (w : World)      (* inside [open], ready for the next writer *)
| AwaitingData (w : World).       (* inside [pipe.read] *)

Fixpoint input_gate_loop (conns : list Connection) (s : Session) (w : World)
    : GateEnd :=
  if negb (running s) then Stopped w
  else
    match conns with
    | [] => AwaitingWriter w
    | OpenFailed e :: rest => input_gate_loop rest s (gate_error e s w)
    | Opened reads :: rest =>
      match serve reads s w with
      | Closed w' => input_gate_loop rest s w'
      | Raised e w' => input_gate_loop rest s (gate_error e s w')
      | Reading w' => AwaitingData w'
      end
    end.

Definition input_gate_thread (conns : list Connection) (s : Session) (w : World)
    : GateEnd :=
  input_gate_loop conns s (say (MsgListening (input_pipe s)) w).

Definition gate_world (g : GateEnd) : World :=
  match g with Stopped w | AwaitingWriter w | AwaitingData w => w end.

(** ** [setup_dirs] *)

(** What lies at the path of the runner directory before the start. *)
Inductive Disk :=
| NoEntry
| NotADirectory
| Directory (d : RunnerDir).

Definition S_IRUSR : Z := 256.   (* 0o400 *)
Definition S_IWUSR : Z := 128.   (* 0o200 *)
Definition S_IRGRP : Z := 32.    (* 0o040 *)
Definition S_IWGRP : Z := 16.    (* 0o020 *)

Definition empty_dir : RunnerDir := mkDir Absent None None None [].

(** [if os.path.exists(d): shutil.rmtree(d)]; [None] is the exception of
    [rmtree] on something that is not a directory. *)
Definition remove_existing (disk : Disk) : option Disk :=
  match disk with
  | NoEntry => Some NoEntry
  | Directory _ => Some NoEntry
  | NotADirectory => None
  end.

(** [os.makedirs(d)] on a free path. *)
Definition makedirs (disk : Disk) : option RunnerDir :=
  match disk with
  | NoEntry => Some empty_dir
  | _ => None
  end.

(** [os.mkfifo(path)]: mode 0o666 less the umask. *)
Definition mkfifo (umask : Z) (d : RunnerDir) : RunnerDir :=
  mkDir (status_json d) (output_log d) (runner_pid d)
    (Some (Z.land 438 (Z.lnot umask))) (other_entries d).

Definition chmod_pipe (mode : Z) (d : RunnerDir) : RunnerDir :=
  mkDir (status_json d) (output_log d) (runner_pid d)
    (match pipe_mode d with Some _ => Some mode | None => None end)
    (other_entries d).

Definition write_pid (pid : Z) (d : RunnerDir) : RunnerDir :=
  mkDir (status_json d) (output_log d) (Some pid) (pipe_mode d) (other_entries d).

Definition STARTING : str := py "Starting up".

(** [setup_dirs] is the first thing [run] does: nothing has been printed,
    called or written yet.  [None] stands for an exception. *)
Definition setup_dirs (pid now umask : Z) (disk : Disk) (s : Session)
    : option (Session * World) :=
  match remove_existing disk with
  | None => None
  | Some disk1 =>
    match makedirs disk1 with
    | None => None
    | Some d0 =>
      let d1 := mkfifo umask d0 in
      let d2 := chmod_pipe
                  (Z.lor (Z.lor (Z.lor S_IRUSR S_IWUSR) S_IRGRP) S_IWGRP) d1 in
      let d3 := write_pid pid d2 in
      Some (update_status MONITORING None (Some STARTING) now s
              (mkWorld pid d3 [] [] [] [] []))
    end
  end.

(** ** Observations used in the statements *)

(** The session right after the protocol has seen AI_DONE at time [t]. *)
Definition resumed (t : Z) (s : Session) : Session :=
  set_last_log_chunk [] (set_last_activity_time t (set_state MONITORING s)).

Definition waited_session (r : Waited) : Session :=
  match r with Returned s _ | StillWaiting s _ => s end.

Definition waited_world (r : Waited) : World :=
  match r with Returned _ w | StillWaiting _ w => w end.

Definition iter_session (i : Iter) : Session :=
  match i with Continue s _ | Broke s _ | Blocked s _ => s end.

Definition iter_world (i : Iter) : World :=
  match i with Continue _ w | Broke _ w | Blocked _ w => w end.

(** Text of the log file, empty while the file does not exist. *)
Definition log_text (w : World) : str :=
  match output_log (w_dir w) with Some t => t | None => [] end.

(** Output of the child shown on the console, in order. *)
Fixpoint echoed (c : list ConsoleWrite) : str :=
  match c with
  | [] => []
  | Echo t :: r => t ++ echoed r
  | Say _ :: r => echoed r
  end.

(** Lines of the runner shown on the console, in order. *)
Fixpoint said (c : list ConsoleWrite) : list Msg :=
  match c with
  | [] => []
  | Echo _ :: r => said r
  | Say m :: r => m :: said r
  end.

(** Text that a drain attempt takes out of the PTY. *)
Definition drained (r : Ready) : str :=
  match r with
  | Readable (Data data) => if nonempty data then decode_replace data else []
  | _ => []
  end.

(** Contents the status record went through between two worlds. *)
Definition written_since (w w' : World) : list FileContent :=
  skipn (List.length (w_status_hist w)) (w_status_hist w').

(** The status record as [wait_for_ai] reads it in an iteration: what the
    agent has just written, or else what was there. *)
Definition status_seen (ev : PauseEv) (w : World) : FileContent :=
  match pe_agent ev with
  | Some c => c
  | None => status_json (w_dir w)
  end.

(** The [state] and [reason] fields of a content of the status record. *)
Definition field_of (k : string) (c : FileContent) : option Json :=
  match c with
  | Holds v => dict_get (py k) v
  | _ => None
  end.

(** The content announces state [st] with reason [reason]. *)
Definition announces (c : FileContent) (st : State) (reason : str) : Prop :=
  field_of "state" c = Some (JStr (state_name st)) /\
  field_of "reason" c = Some (JStr reason).

(** Bytes that are UTF-8 text without a carriage return. *)
Definition plain_utf8 (bs : list byte) : Prop :=
  Utf8.decode Utf8.Strict bs <> None /\ ~ In x0d bs.

(** A writer connects, writes [bs] and disconnects. *)
Definition writer (bs : list byte) : Connection := Opened (pipe_reads bs).

(** ** Properties that the program is checked against *)

(** An atomic replacement of the status record: whoever reads the file
    while [update_status] runs finds the record that was there before or
    the new one, in full. *)
Definition replaces_atomically : Prop :=
  forall st reason info now s w,
    let w' := snd (update_status st reason info now s w) in
    Forall (fun c => c = status_json (w_dir w) \/ c = status_json (w_dir w'))
      (written_since w w').

(** Verbatim forwarding: the bytes a writer puts into the pipe are the
    bytes the gate writes to the PTY master. *)
Definition forwards_verbatim : Prop :=
  forall bs s w fd,
    running s = true -> master_fd s = Some fd ->
    w_master_in (gate_world (input_gate_thread [writer bs] s w))
    = w_master_in w ++ bs.

(** A read of the status record that raises: no file, no JSON document, or
    a document that is not an object. *)
Definition read_fails (c : FileContent) : Prop :=
  match c with
  | Holds (JObj _) => False
  | _ => True
  end.

(** Every transient error is logged and retried after a delay, and none
    ends the loop in which it occurs. *)
Definition transient_errors_retried : Prop :=
  (forall ev rest s w,
     running s = true -> read_fails (status_seen ev w) ->
     exists w2, wait_for_ai (ev :: rest) s w = wait_for_ai rest s w2 /\
       said (w_console w2) <> said (w_console w)) /\
  (forall e rest s w,
     running s = true ->
     exists w2, input_gate_loop (OpenFailed e :: rest) s w = input_gate_loop rest s w2 /\
       said (w_console w2) = said (w_console w) ++ [MsgGateError e] /\
       w_sleeps w2 = w_sleeps w ++ [POLL_INTERVAL]) /\
  (forall ev rest s w,
     me_alive ev = true -> me_ready ev = Readable OSError ->
     exists s' w', main_loop (ev :: rest) s w = main_loop rest s' w').

(** ** Sample data *)

Definition sample_session : Session :=
  mkSession (py "sleep 40") (py "job") (py "task") (py "/home/u")
    (Some (py "j1")) (Some 4242) (Some 5) true 0 [] MONITORING.

Definition sample_dir : RunnerDir :=
  mkDir (Holds (status_record sample_session MONITORING None (Some STARTING) 0 100))
    (Some (py "old log")) (Some 100) (Some 432) [(py "stale.txt", py "x")].

Definition sample_world : World := mkWorld 100 sample_dir [] [] [] [] [].

(** A prompt without a newline, then silence. *)
Definition sample_prompt : list byte := [x79; x2f; x6e; x3f].   (* y/n? *)

Definition sample_trigger : TriggerEnv := mkTriggerEnv 4001 None [].

Definition sample_ai_done : FileContent :=
  Holds (JObj [(py "state", JStr AI_DONE)]).

(** The PTY read fails while the child is still alive. *)
Definition sample_read_error : MainEv :=
  mkMainEv true (Readable OSError) 0 1000 sample_trigger 0.

(** The child prints the prompt at time 1000; the timers are checked at
    time 4000; nothing happens while the runner waits for the agent. *)
Definition sample_prompt_ev : MainEv :=
  mkMainEv true (Readable (Data sample_prompt)) 1000 4000 sample_trigger 0.

(** No output at all, the timers are checked at time 31000. *)
Definition sample_silence_ev : MainEv :=
  mkMainEv true NotReadable 0 31000 sample_trigger 31500.

(** The session with an unanswered prompt as its last chunk. *)
Definition sample_prompted : Session :=
  set_last_log_chunk (decode_replace sample_prompt) sample_session.

Definition sample_paused : Session := set_state WAITING_FOR_AI sample_session.

(** The agent writes AI_DONE; the clock reads 5000 and 5001. *)
Definition sample_resume_ev : PauseEv :=
  mkPauseEv NotReadable (Some sample_ai_done) 5000 5001.

(** The agent is caught in the middle of its write: the file is empty. *)
Definition sample_partial_ev : PauseEv :=
  mkPauseEv (Readable (Data sample_prompt)) (Some (Malformed [])) 5000 5001.

(** The child prints in the very iteration in which the answer is read. *)
Definition sample_answer_ev : PauseEv :=
  mkPauseEv (Readable (Data sample_prompt)) (Some sample_ai_done) 6000 6001.

(** ** The rest of the runner: [cleanup], [setup_cron], [run]

    These functions print lines of their own and send a signal.  The lines
    are kept in a list beside the world (their place among the other console
    writes is not recorded), the signals in another. *)

Definition set_running (b : bool) (s : Session) : Session :=
  mkSession (cmd s) (cron_name s) (cron_payload s) (working_dir s) (cron_id s)
    (process s) (master_fd s) b (last_activity_time s) (last_log_chunk s)
    (state s).

Definition set_master_fd (fd : option Z) (s : Session) : Session :=
  mkSession (cmd s) (cron_name s) (cron_payload s) (working_dir s) (cron_id s)
    (process s) fd (running s) (last_activity_time s) (last_log_chunk s)
    (state s).

Definition set_process (p : option Z) (s : Session) : Session :=
  mkSession (cmd s) (cron_name s) (cron_payload s) (working_dir s) (cron_id s)
    p (master_fd s) (running s) (last_activity_time s) (last_log_chunk s)
    (state s).

Definition set_cron_id (c : option str) (s : Session) : Session :=
  mkSession (cmd s) (cron_name s) (cron_payload s) (working_dir s) c
    (process s) (master_fd s) (running s) (last_activity_time s)
    (last_log_chunk s) (state s).

(** Lines printed by [setup_cron], [run] and [cleanup]. *)
Inductive Note :=
| NoteSettingUp (name : str)
| NoteRemovingOld (job_id : Json)
| NoteCleanupError
| NoteCronCreated (id : Json)
| NoteParseFailed
| NoteCronWarning
| NoteStarting (command : str)
| NoteMonitoring (child : Z)
| NoteKilling
| NoteRemovingCron (id : str)
| NoteInterrupted
| NoteDone.

Record Host := mkHost {
  h_world : World;
  h_notes : list Note;
  h_sigterm : list Z        (* children whose process group got SIGTERM *)
}.

Definition note (n : Note) (h : Host) : Host :=
  mkHost (h_world h) (h_notes h ++ [n]) (h_sigterm h).

Definition on_world (f : World -> World) (h : Host) : Host :=
  mkHost (f (h_world h)) (h_notes h) (h_sigterm h).

Definition set_world (w : World) (h : Host) : Host :=
  mkHost w (h_notes h) (h_sigterm h).

Definition killpg (child : Z) (h : Host) : Host :=
  mkHost (h_world h) (h_notes h) (h_sigterm h ++ [child]).

(** What [cleanup] meets. *)
Record CleanupEnv := mkCleanupEnv {
  ce_alive : bool;              (* [self.process.poll() is None] *)
  ce_kill_raises : bool;        (* [os.getpgid] or [os.killpg] raises *)
  ce_rm_err : option str;       (* failure of the CLI call *)
  ce_unlink_raises : bool       (* [os.unlink] raises *)
}.

Definition unlink_pipe (d : RunnerDir) : RunnerDir :=
  mkDir (status_json d) (output_log d) (runner_pid d) None (other_entries d).

Definition cron_rm (id : str) : list str := [py "cron"; py "rm"; id].

Definition cleanup (env : CleanupEnv) (s : Session) (h : Host) : Session * Host :=
  let s1 := set_running false s in
  let h1 :=
    match process s1 with
    | Some child =>
      if ce_alive env then
        let h' := note NoteKilling h in
        if ce_kill_raises env then h' else killpg child h'
      else h
    | None => h
    end in
  let h2 :=
    match cron_id s1 with
    | Some id =>
      if truthy id then
        on_world (run_openclaw_cmd (cron_rm id) (ce_rm_err env))
          (note (NoteRemovingCron id) h1)
      else h1
    | None => h1
    end in
  let h3 :=
    match pipe_mode (w_dir (h_world h2)) with
    | Some _ =>
      if ce_unlink_raises env then h2
      else on_world (fun w => set_dir (unlink_pipe (w_dir w)) w) h2
    | None => h2
    end in
  (s1, note NoteDone h3).

(** *** [setup_cron] *)

(** Standard output of a CLI call after [strip()]: nothing, text that is
    not JSON, or a JSON document. *)
Inductive Stdout :=
| OutNothing
| OutGarbage (raw : str)
| OutJson (v : Json).

(** A CLI call raises, or completes with some output. *)
Inductive CliOutcome :=
| CliRaised (e : str)
| CliDone (out : Stdout).

Definition cli_err (o : CliOutcome) : option str :=
  match o with CliRaised e => Some e | CliDone _ => None end.

(** Value returned by [run_openclaw_cmd], [None] after an exception. *)
Definition cli_output (o : CliOutcome) : option Stdout :=
  match o with CliRaised _ => None | CliDone out => Some out end.

(** [if output:] *)
Definition out_truthy (o : Stdout) : bool :=
  match o with
  | OutNothing => false
  | OutGarbage raw => truthy raw
  | OutJson _ => true
  end.

(** [json.loads(output)], [None] for the exception. *)
Definition json_loads (o : Stdout) : option Json :=
  match o with OutJson v => Some v | _ => None end.

(** Truth value of a parsed JSON value. *)
Definition json_truthy (v : Json) : bool :=
  match v with
  | JNull => false
  | JBool b => b
  | JNum z => negb (z =? 0)
  | JStr s => truthy s
  | JArr l => nonempty l
  | JObj kv => nonempty kv
  end.

(** [a or b] *)
Definition py_or (a b : Json) : Json := if json_truthy a then a else b.

(** [jobs_data if isinstance(jobs_data, list) else jobs_data.get("jobs", [])] *)
Definition jobs_of (jobs_data : Json) : option Json :=
  match jobs_data with
  | JArr _ => Some jobs_data
  | JObj kv => Some (match lookup (py "jobs") kv with Some v => v | None => JArr [] end)
  | _ => None
  end.

(** The values [for job in jobs] goes through: the elements of a list, the
    keys of an object, the characters of a string; [None] for the
    [TypeError] on anything else. *)
Definition iterate (jobs : Json) : option (list Json) :=
  match jobs with
  | JArr l => Some l
  | JObj kv => Some (map (fun p => JStr (fst p)) kv)
  | JStr s => Some (map (fun c => JStr [c]) s)
  | _ => None
  end.

(** [job.get("id") or job.get("jobId")] on an object. *)
Definition id_of (kv : list (str * Json)) : Json :=
  py_or (match lookup (py "id") kv with Some v => v | None => JNull end)
        (match lookup (py "jobId") kv with Some v => v | None => JNull end).

Definition TYPE_ERROR : str := py "expected str, bytes or os.PathLike object".

(** [self.run_openclaw_cmd(["cron", "rm", job_id])]: an id that is not text
    makes [subprocess.run] raise before anything is run. *)
Definition remove_job (rm_err : str -> option str) (job_id : Json) (w : World)
    : World :=
  match job_id with
  | JStr id => run_openclaw_cmd (cron_rm id) (rm_err id) w
  | _ => say (MsgCmdError TYPE_ERROR) w
  end.

(** The loop over the listed jobs; the flag tells that an exception ended it. *)
Fixpoint remove_old (name : str) (rm_err : str -> option str)
    (jobs : list Json) (h : Host) : bool * Host :=
  match jobs with
  | [] => (false, h)
  | job :: rest =>
    match job with
    | JObj kv =>
      let nm := match lookup (py "name") kv with Some v => v | None => JNull end in
      if eq_str nm name then
        let job_id := id_of kv in
        let h1 := note (NoteRemovingOld job_id) h in
        remove_old name rm_err rest (on_world (remove_job rm_err job_id) h1)
      else remove_old name rm_err rest h
    | _ => (true, h)
    end
  end.

Record CronEnv := mkCronEnv {
  sc_list : CliOutcome;               (* [cron list --json] *)
  sc_rm_err : str -> option str;      (* failure of [cron rm <id>] *)
  sc_add : CliOutcome                 (* [cron add ...] *)
}.

Definition cron_list : list str := [py "cron"; py "list"; py "--json"].

(** "Cleanup existing job by name" *)
Definition cron_cleanup (env : CronEnv) (s : Session) (h : Host) : Host :=
  let h1 := on_world (run_openclaw_cmd cron_list (cli_err (sc_list env))) h in
  match cli_output (sc_list env) with
  | Some out =>
    if out_truthy out then
      match json_loads out with
      | Some jobs_data =>
        match jobs_of jobs_data with
        | Some jobs =>
          match iterate jobs with
          | Some l =>
            let (raised, h2) := remove_old (cron_name s) (sc_rm_err env) l h1 in
            if raised then note NoteCleanupError h2 else h2
          | None => note NoteCleanupError h1
          end
        | None => note NoteCleanupError h1
        end
      | None => note NoteCleanupError h1
      end
    else h1
  | None => h1
  end.

Definition QUOTE : codepoint := 34.

Definition quoted (t : str) : str := QUOTE :: t ++ [QUOTE].

(** [str(n)] for an integer. *)
Definition decimal (n : Z) : str := py (NilZero.string_of_int (Z.to_int n)).

(** Lines joined by newlines. *)
Fixpoint join_lines (ls : list str) : str :=
  match ls with
  | [] => []
  | [l] => l
  | l :: r => l ++ LF :: join_lines r
  end.

Definition process_info (s : Session) (child pid : Z) : str :=
  LF :: join_lines
    [ py "---";
      py "[Process Info]";
      py "- Child PID: " ++ decimal child;
      py "- Runner PID: " ++ decimal pid;
      py "- Working Dir: " ++ working_dir s;
      py "- Runner Dir: " ++ runner_dir s;
      py "- Input Pipe: " ++ input_pipe s ].

Definition system_instructions (s : Session) (child : Z) : str :=
  LF :: join_lines
    [ py "---";
      py "[SmartRunner Instructions]";
      py "1. CHECK STATUS: Read " ++ status_file s;
      py "   - " ++ quoted (py "MONITORING")
        ++ py ": Heartbeat only. Report progress if needed.";
      py "   - " ++ quoted (py "WAITING_FOR_AI") ++ py ": " ++ [128680]
        ++ py " ACTION REQUIRED!";
      [];
      py "2. ANALYZE: Read " ++ log_file s ++ py " (last ~30 lines)";
      [];
      py "3. INTERVENE (If needed):";
      py "   - To send input: exec 'echo " ++ quoted (py "your input")
        ++ py " > " ++ input_pipe s ++ py "'";
      py "   - To send special keys: exec 'printf " ++ quoted (py "\n")
        ++ py " > " ++ input_pipe s ++ py "' (newline)";
      py "   - To send Ctrl+C: exec 'printf " ++ quoted (py "\x03")
        ++ py " > " ++ input_pipe s ++ py "'";
      py "   - To kill process: exec 'kill " ++ decimal child ++ py "'";
      [];
      py "4. RESUME (CRITICAL):";
      py "   Write {" ++ quoted (py "state") ++ py ": " ++ quoted (py "AI_DONE")
        ++ py "} to " ++ status_file s ++ py " after handling.";
      py "   Without this, the runner stays paused!";
      [] ].

Definition add_cmd (s : Session) (full_payload : str) : list str :=
  [ py "cron"; py "add";
    py "--name"; cron_name s;
    py "--every"; py "5m";
    py "--session"; py "main";
    py "--system-event"; full_payload;
    py "--json" ].

(** What [self.cron_id] is after [setup_cron]: a value just assigned, or
    the one it had. *)
Inductive CronId :=
| Assigned (v : Json)
| Kept.

(** [not self.cron_id] *)
Definition no_cron_id (s : Session) (c : CronId) : bool :=
  match c with
  | Assigned v => negb (json_truthy v)
  | Kept => match cron_id s with Some id => negb (truthy id) | None => true end
  end.

Inductive CronEnd :=
| CronDone (c : CronId) (h : Host)
| CronCrashed (h : Host).      (* [self.process] is [None]: [AttributeError] *)

Definition setup_cron (env : CronEnv) (s : Session) (h : Host) : CronEnd :=
  let h1 := cron_cleanup env s (note (NoteSettingUp (cron_name s)) h) in
  match process s with
  | None => CronCrashed h1
  | Some child =>
    let full_payload :=
      cron_payload s ++ process_info s child (w_pid (h_world h1))
                     ++ system_instructions s child in
    let h2 := on_world (run_openclaw_cmd (add_cmd s full_payload)
                          (cli_err (sc_add env))) h1 in
    let (c, h3) :=
      match cli_output (sc_add env) with
      | Some out =>
        if out_truthy out then
          match json_loads out with
          | Some (JObj kv) =>
            let v := id_of kv in (Assigned v, note (NoteCronCreated v) h2)
          | _ => (Kept, note NoteParseFailed h2)
          end
        else (Kept, h2)
      | None => (Kept, h2)
      end in
    CronDone c (if no_cron_id s c then note NoteCronWarning h3 else h3)
  end.

(** The session once the registration thread has stored its result.  A
    stored value that is true and not text has no counterpart in [Session]
    (every later CLI call with it raises [TypeError]): [None]. *)
Definition store_cron_id (c : CronId) (s : Session) : option Session :=
  match c with
  | Kept => Some s
  | Assigned (JStr id) => Some (set_cron_id (Some id) s)
  | Assigned v => if json_truthy v then None else Some (set_cron_id None s)
  end.

(** *** [run] *)

Definition STARTED : str := py "Process started".

(** The calls that [run] makes before its [try] and that the operating
    system can refuse.  An exception of any of them leaves [run] at once:
    the loop is not reached and, the [try] not being entered, [cleanup]
    does not run. *)
Inductive StartStep :=
| InSetupDirs     (* line 242: rmtree, makedirs, mkfifo, chmod, a file write *)
| InOpenpty       (* line 245: [pty.openpty()] *)
| InPopen.        (* line 248: [subprocess.Popen], the spawn *)

Record RunEnv := mkRunEnv {
  re_pid : Z;                   (* [os.getpid()] *)
  re_umask : Z;
  re_disk : Disk;               (* what lies at the runner path *)
  re_raises : option StartStep; (* the call that raises before the loop *)
  re_t_setup : Z;               (* clock, in [setup_dirs] *)
  re_master : Z;                (* the descriptor from [pty.openpty()] *)
  re_child : Z;                 (* pid of the spawned child *)
  re_t_started : Z;             (* clock, in the second [update_status] *)
  re_t_loop : Z;                (* clock, before the loop *)
  re_events : list MainEv;      (* the iterations of the loop *)
  re_interrupt : bool;          (* Ctrl-C where the script ends in the loop *)
  re_cleanup : CleanupEnv
}.

(** [run] up to its [try]. *)
Inductive Start :=
| Entered (s : Session) (h : Host)
    (* the loop is reached *)
| Aborted (at_step : StartStep) (behind : option (Session * Host)).
    (* an exception leaves [run]; [behind] is what it leaves, [None] when it
       was raised inside [setup_dirs] (how far that got is not recorded) *)

(** Lines 242 to 271.  [setup_dirs] raises when the environment says so or
    when something that is not a directory lies at the runner path. *)
Definition startup (env : RunEnv) (s : Session) : Start :=
  match re_raises env with
  | Some InSetupDirs => Aborted InSetupDirs None
  | raises =>
    match setup_dirs (re_pid env) (re_t_setup env) (re_umask env) (re_disk env) s with
    | None => Aborted InSetupDirs None
    | Some (s1, w1) =>
      let h0 := mkHost w1 [] [] in
      match raises with
      | Some InOpenpty => Aborted InOpenpty (Some (s1, h0))
      | _ =>
        let s2 := set_master_fd (Some (re_master env)) s1 in
        let h1 := note (NoteStarting (cmd s2)) h0 in
        match raises with
        | Some InPopen => Aborted InPopen (Some (s2, h1))
        | _ =>
          let s3 := set_process (Some (re_child env)) s2 in
          let (s4, w2) := update_status MONITORING None (Some STARTED)
                            (re_t_started env) s3 (h_world h1) in
          let h2 := note (NoteMonitoring (re_child env)) (set_world w2 h1) in
          Entered (set_last_activity_time (re_t_loop env) s4) h2
        end
      end
    end
  end.

Inductive RunEnd :=
| RunFailed (at_step : StartStep) (behind : option (Session * Host))
    (* an exception before the [try]: no [cleanup] *)
| RunOver (s : Session) (h : Host)        (* loop left, [cleanup] done *)
| RunGoing (l : LoopEnd) (h : Host).      (* script over inside the loop *)

(** [run], without the effects of the two threads it starts (they are
    [setup_cron] and [input_gate_thread]); the session's [cron_id] stands
    for what the registration has stored.  The loop is left when the child
    has exited, when a read of the PTY fails (the [break] of line 281), or
    by a [KeyboardInterrupt] (lines 306-307); [cleanup] runs in all three
    cases (lines 308-309).  The interrupt is taken where the script of the
    loop ends, that is in the [select] of the main loop or, when the
    session is paused, in the [select] of the wait loop of [trigger_ai],
    which does not catch it; the session and the world are then those of
    that moment.  (An interrupt that lands inside the [try] of lines 206 to
    216 is caught by its bare [except] and has no effect.) *)
Definition run (env : RunEnv) (s : Session) : RunEnd :=
  match startup env s with
  | Aborted at_step behind => RunFailed at_step behind
  | Entered s0 h0 =>
    match main_loop (re_events env) s0 (h_world h0) with
    | ChildExited s1 w1 | ReadFailed s1 w1 =>
      let (s2, h2) := cleanup (re_cleanup env) s1 (set_world w1 h0) in
      RunOver s2 h2
    | (Paused s1 w1 | Looping s1 w1) as l =>
      if re_interrupt env then
        let (s2, h2) := cleanup (re_cleanup env) s1
                          (note NoteInterrupted (set_world w1 h0)) in
        RunOver s2 h2
      else RunGoing l h0
    end
  end.

(** ** Further observations *)

Definition loop_session (l : LoopEnd) : Session :=
  match l with
  | ChildExited s _ | ReadFailed s _ | Paused s _ | Looping s _ => s
  end.

Definition loop_world (l : LoopEnd) : World :=
  match l with
  | ChildExited _ w | ReadFailed _ w | Paused _ w | Looping _ w => w
  end.

(** The content makes the wait loop resume: a JSON object whose [state] is
    the string AI_DONE. *)
Definition says_done (c : FileContent) : bool :=
  match json_load c with
  | Some data =>
    match dict_get (py "state") data with
    | Some v => eq_str v AI_DONE
    | None => false
    end
  | None => false
  end.

(** How many iterations of its script the loop of [wait_for_ai] runs while
    [running] holds, told from the script alone: [status] is the content of
    the status record before the iteration, the agent's write of the
    iteration replaces it, and the iteration whose read says AI_DONE is the
    last one (the [break] of line 214). *)
Fixpoint iterations_run (evs : list PauseEv) (status : FileContent) : nat :=
  match evs with
  | [] => O
  | ev :: rest =>
    let seen := match pe_agent ev with
                | Some c => c
                | None => status
                end in
    if says_done seen then 1%nat else S (iterations_run rest seen)
  end.

(** The agent never writes AI_DONE in these iterations. *)
Definition no_answer (evs : list PauseEv) : Prop :=
  Forall (fun ev => match pe_agent ev with
                    | Some c => says_done c = false
                    | None => True
                    end) evs.

(** The state named by the last content the runner gave the status record. *)
Definition announced_state (w : World) : option Json :=
  field_of "state" (last (w_status_hist w) Absent).

Definition in_sync (s : Session) (w : World) : Prop :=
  announced_state w = Some (JStr (state_name (state s))).

(** The force-run call that a trigger makes for the session. *)
Definition force_run_calls (s : Session) : list (list str) :=
  match cron_id s with
  | Some id => if truthy id then [force_run id] else []
  | None => []
  end.

(** No output comes out of the PTY in these iterations. *)
Definition silent (evs : list MainEv) : Prop :=
  Forall (fun ev => drained (me_ready ev) = []) evs.

(** A session that has just started and a world after its first status write. *)
Definition sample_started : World :=
  snd (update_status MONITORING None (Some STARTED) 10 sample_session sample_world).

(** What the gate writes to the PTY master for a writer who sends [bs]:
    the bytes decoded, passed through universal newlines, and encoded
    again; nothing when they are not UTF-8. *)
Definition forwarded (bs : list byte) : list byte :=
  match Utf8.decode Utf8.Strict bs with
  | Some t =>
    match Utf8.encode (translate_newlines t) with
    | Some out => out
    | None => []
    end
  | None => []
  end.

(** The line is an error report of the gate. *)
Definition is_gate_error (m : Msg) : Prop := exists e, m = MsgGateError e.

(** The list of jobs that [setup_cron] goes through after [cron list]:
    empty when the call failed or its output cannot be iterated. *)
Definition listed (o : CliOutcome) : list Json :=
  match o with
  | CliDone (OutJson jobs_data) =>
    match jobs_of jobs_data with
    | Some jobs => match iterate jobs with Some l => l | None => [] end
    | None => []
    end
  | _ => []
  end.

(** Ids of the [cron rm] calls made for a list of jobs: the text ids of the
    objects named [name], up to the first element that is not an object. *)
Fixpoint stale_ids (name : str) (jobs : list Json) : list str :=
  match jobs with
  | [] => []
  | JObj kv :: rest =>
    let nm := match lookup (py "name") kv with Some v => v | None => JNull end in
    if eq_str nm name then
      match id_of kv with
      | JStr id => id :: stale_ids name rest
      | _ => stale_ids name rest
      end
    else stale_ids name rest
  | _ :: _ => []
  end.

(** A job as the scheduler lists it: an object with a non-empty text [id]
    and a text [name], whatever else it holds. *)
Record Job := mkJob { job_id : str; job_name : str }.

Definition lists_job (v : Json) (j : Job) : Prop :=
  exists kv,
    v = JObj kv /\
    lookup (py "id") kv = Some (JStr (job_id j)) /\
    lookup (py "name") kv = Some (JStr (job_name j)) /\
    job_id j <> [].

(** The payload of the registration. *)
Definition full_payload (s : Session) (child pid : Z) : str :=
  cron_payload s ++ process_info s child pid ++ system_instructions s child.

(** The [cron rm] call that [cleanup] makes for the session. *)
Definition deregister_calls (s : Session) : list (list str) :=
  match cron_id s with
  | Some id => if truthy id then [cron_rm id] else []
  | None => []
  end.

(** The output of [cron add] gives no usable id. *)
Definition no_id_in (o : CliOutcome) : Prop :=
  match o with
  | CliDone (OutJson (JObj kv)) => json_truthy (id_of kv) = false
  | _ => True
  end.

(** The world at the end of [run], when there is one. *)
Definition run_world (r : RunEnd) : option World :=
  match r with
  | RunFailed _ _ => None
  | RunOver _ h => Some (h_world h)
  | RunGoing l _ => Some (loop_world l)
  end.

Definition run_session (r : RunEnd) : option Session :=
  match r with
  | RunFailed _ _ => None
  | RunOver s _ => Some s
  | RunGoing l _ => Some (loop_session l)
  end.

(** Two worlds with the same process id, pid file, pipe and other entries
    of the runner directory. *)
Definition same_fixtures (w w' : World) : Prop :=
  w_pid w' = w_pid w /\
  runner_pid (w_dir w') = runner_pid (w_dir w) /\
  pipe_mode (w_dir w') = pipe_mode (w_dir w) /\
  other_entries (w_dir w') = other_entries (w_dir w).

(** The session as [run] enters its loop. *)
Definition started (env : RunEnv) (s : Session) : Session :=
  set_last_activity_time (re_t_loop env)
    (set_state MONITORING
       (set_process (Some (re_child env))
          (set_master_fd (Some (re_master env)) s))).

(** The world that [setup_dirs] leaves on a path that is free or holds a
    directory. *)
Definition set_up (env : RunEnv) (s : Session) : World :=
  mkWorld (re_pid env)
    (mkDir (Holds (status_record s MONITORING None (Some STARTING)
                     (re_t_setup env) (re_pid env)))
           None (Some (re_pid env)) (Some 432) [])
    [Malformed [];
     Holds (status_record s MONITORING None (Some STARTING)
              (re_t_setup env) (re_pid env))]
    [] [] [] [].

(** A run on a free path: the child never prints and is gone at the second
    check. *)
Definition sample_run : RunEnv :=
  mkRunEnv 100 18 NoEntry None 0 5 4242 1 2
    [mkMainEv true NotReadable 0 500 sample_trigger 0;
     mkMainEv false NotReadable 0 1000 sample_trigger 0]
    false (mkCleanupEnv false false None false).

(** A run that is interrupted while it waits for the agent: the child
    prints a prompt, the agent never answers, then Ctrl-C. *)
Definition sample_interrupted : RunEnv :=
  mkRunEnv 100 18 NoEntry None 0 5 4242 1 2
    [sample_prompt_ev] true (mkCleanupEnv true false None false).

(** A listing with one job of the session's name and one of another. *)
Definition sample_listing : Json :=
  JObj [(py "jobs",
         JArr [JObj [(py "id", JStr (py "old1")); (py "name", JStr (py "job"))];
               JObj [(py "name", JStr (py "other")); (py "id", JStr (py "x9"))]])].

Definition sample_cron : CronEnv :=
  mkCronEnv (CliDone (OutJson sample_listing)) (fun _ => None)
    (CliDone (OutJson (JObj [(py "jobId", JStr (py "j2"))]))).

Definition sample_host : Host := mkHost sample_world [] [].

(** Nothing to read, half a second after the last activity. *)
Definition sample_quiet_ev : MainEv :=
  mkMainEv true NotReadable 0 500 sample_trigger 0.

(** The sample session before the PTY exists, and before the registration. *)
Definition sample_no_pty : Session := set_master_fd None sample_session.

Definition sample_unregistered : Session := set_cron_id None sample_session.

(** The CLI is not there: the listing raises, the registration prints nothing. *)
Definition sample_cron_broken : CronEnv :=
  mkCronEnv (CliRaised (py "ENOENT")) (fun _ => None) (CliDone OutNothing).

Definition sample_jobs : list Job :=
  [mkJob (py "old1") (py "job"); mkJob (py "x9") (py "other")].

(** * Properties *)

(** ** The codec *)

Module Utf8Facts.
Import Utf8.

Lemma Zb_range (b : byte) : 0 <= Zb b < 256.
Proof.
  unfold Zb. pose proof (Byte.to_N_bounded b) as H. lia.
Qed.

Lemma byte_of_Zb (b : byte) : byte_of (Zb b) = b.
Proof.
  unfold byte_of, Zb. rewrite N2Z.id, Byte.of_to_N. reflexivity.
Qed.

Lemma Zb_byte_of (z : Z) : 0 <= z < 256 -> Zb (byte_of z) = z.
Proof.
  intros H. unfold byte_of, Zb.
  destruct (Byte.of_N (Z.to_N z)) as [b|] eqn:E.
  - apply Byte.to_of_N in E. rewrite E. lia.
  - apply Byte.of_N_None_iff in E. lia.
Qed.

Lemma split64 (q r : Z) :
  0 <= r < 64 -> (q * 64 + r) / 64 = q /\ (q * 64 + r) mod 64 = r.
Proof.
  intros H. split.
  - rewrite Z.add_comm, Z.div_add by lia. rewrite Z.div_small by lia. lia.
  - rewrite Z.add_comm, Z.mod_add by lia. apply Z.mod_small. lia.
Qed.


Ltac bool_to_Z :=
  repeat match goal with
  | H : (_ && _)%bool = true |- _ => apply andb_prop in H; destruct H
  | H : negb _ = true |- _ => apply negb_true_iff in H
  | H : (_ <? _) = true |- _ => apply Z.ltb_lt in H
  | H : (_ <? _) = false |- _ => apply Z.ltb_ge in H
  | H : (_ <=? _) = true |- _ => apply Z.leb_le in H
  | H : (_ <=? _) = false |- _ => apply Z.leb_gt in H
  | H : (_ =? _) = true |- _ => apply Z.eqb_eq in H
  | H : (_ =? _) = false |- _ => apply Z.eqb_neq in H
  end.

Ltac pick_branch :=
  repeat match goal with
  | |- context [?a <? ?b] =>
      first [ replace (a <? b) with true by (symmetry; apply Z.ltb_lt; lia)
            | replace (a <? b) with false by (symmetry; apply Z.ltb_ge; lia) ]
  | |- context [?a <=? ?b] =>
      first [ replace (a <=? b) with true by (symmetry; apply Z.leb_le; lia)
            | replace (a <=? b) with false by (symmetry; apply Z.leb_gt; lia) ]
  end.

Lemma encode_cp_1 (b1 : byte) :
  Zb b1 < 0x80 -> encode_cp (Zb b1) = Some [b1].
Proof.
  intros H. pose proof (Zb_range b1). unfold encode_cp.
  pick_branch. now rewrite byte_of_Zb.
Qed.

Lemma encode_cp_2 (b1 b2 : byte) :
  0xC2 <= Zb b1 < 0xE0 -> is_cont (Zb b2) = true ->
  encode_cp ((Zb b1 - 0xC0) * 64 + (Zb b2 - 0x80)) = Some [b1; b2].
Proof.
  intros H1 H2. unfold is_cont in H2. bool_to_Z.
  destruct (split64 (Zb b1 - 0xC0) (Zb b2 - 0x80)) as [Hq Hr]; [lia|].
  unfold encode_cp. pick_branch. cbn match. rewrite Hq, Hr.
  replace (0xC0 + (Zb b1 - 0xC0)) with (Zb b1) by lia.
  replace (0x80 + (Zb b2 - 0x80)) with (Zb b2) by lia.
  now rewrite !byte_of_Zb.
Qed.


Lemma encode_cp_3 (b1 b2 b3 : byte) :
  0xE0 <= Zb b1 < 0xF0 -> second_of_3 (Zb b1) (Zb b2) = true ->
  is_cont (Zb b3) = true ->
  encode_cp ((Zb b1 - 0xE0) * 4096 + (Zb b2 - 0x80) * 64 + (Zb b3 - 0x80))
  = Some [b1; b2; b3].
Proof.
  intros H1 H2 H3. unfold second_of_3, is_cont in *. bool_to_Z.
  set (c := (Zb b1 - 0xE0) * 4096 + (Zb b2 - 0x80) * 64 + (Zb b3 - 0x80)).
  assert (Hrange : 0x800 <= c < 0x10000 /\ ~ (0xD800 <= c < 0xE000)).
  { subst c. destruct (Zb b2 <? 0xA0) eqn:E; bool_to_Z; lia. }
  assert (Hq : c / 4096 = Zb b1 - 0xE0)
    by (subst c; Z.div_mod_to_equations; lia).
  assert (Hm : (c / 64) mod 64 = Zb b2 - 0x80)
    by (subst c; Z.div_mod_to_equations; lia).
  assert (Hr : c mod 64 = Zb b3 - 0x80)
    by (subst c; Z.div_mod_to_equations; lia).
  unfold encode_cp. pick_branch. cbn match.
  replace ((0xD800 <=? c) && (c <? 0xE000))%bool with false.
  2:{ symmetry. apply andb_false_iff.
      destruct (Z.leb_spec 0xD800 c); [right; apply Z.ltb_ge; lia | now left]. }
  rewrite Hq, Hm, Hr.
  replace (0xE0 + (Zb b1 - 0xE0)) with (Zb b1) by lia.
  replace (0x80 + (Zb b2 - 0x80)) with (Zb b2) by lia.
  replace (0x80 + (Zb b3 - 0x80)) with (Zb b3) by lia.
  now rewrite !byte_of_Zb.
Qed.

Lemma encode_cp_4 (b1 b2 b3 b4 : byte) :
  0xF0 <= Zb b1 < 0xF5 -> second_of_4 (Zb b1) (Zb b2) = true ->
  is_cont (Zb b3) = true -> is_cont (Zb b4) = true ->
  encode_cp ((Zb b1 - 0xF0) * 262144 + (Zb b2 - 0x80) * 4096
             + (Zb b3 - 0x80) * 64 + (Zb b4 - 0x80))
  = Some [b1; b2; b3; b4].
Proof.
  intros H1 H2 H3 H4. unfold second_of_4, is_cont in *. bool_to_Z.
  set (c := (Zb b1 - 0xF0) * 262144 + (Zb b2 - 0x80) * 4096
            + (Zb b3 - 0x80) * 64 + (Zb b4 - 0x80)).
  assert (Hrange : 0x10000 <= c < 0x110000).
  { subst c. destruct (Zb b2 <? 0x90) eqn:E; bool_to_Z; lia. }
  assert (Hq : c / 262144 = Zb b1 - 0xF0)
    by (subst c; Z.div_mod_to_equations; lia).
  assert (Hm1 : (c / 4096) mod 64 = Zb b2 - 0x80)
    by (subst c; Z.div_mod_to_equations; lia).
  assert (Hm2 : (c / 64) mod 64 = Zb b3 - 0x80)
    by (subst c; Z.div_mod_to_equations; lia).
  assert (Hr : c mod 64 = Zb b4 - 0x80)
    by (subst c; Z.div_mod_to_equations; lia).
  unfold encode_cp. pick_branch. cbn match.
  rewrite Hq, Hm1, Hm2, Hr.
  replace (0xF0 + (Zb b1 - 0xF0)) with (Zb b1) by lia.
  replace (0x80 + (Zb b2 - 0x80)) with (Zb b2) by lia.
  replace (0x80 + (Zb b3 - 0x80)) with (Zb b3) by lia.
  replace (0x80 + (Zb b4 - 0x80)) with (Zb b4) by lia.
  now rewrite !byte_of_Zb.
Qed.


Ltac emitted H tl :=
  unfold emit in H;
  match type of H with
  | option_map _ (decode Strict ?r) = Some _ =>
      let D := fresh "D" in
      destruct (decode Strict r) as [tl|] eqn:D; [|discriminate H];
      cbn [option_map] in H; injection H as <-
  end.

(** One step of the strict decoder, read backwards: the first code point
    of the result comes from a prefix of the input that is its UTF-8
    form, and the rest of the result from the rest of the input. *)
Lemma decode_strict_inv (b1 : byte) (r1 : list byte) (t : str) :
  decode Strict (b1 :: r1) = Some t ->
  exists c k rest t',
    t = c :: t' /\ b1 :: r1 = k ++ rest /\ decode Strict rest = Some t' /\
    encode_cp c = Some k /\ k <> [] /\ (c = CR -> k = [x0d]).
Proof.
  intros H. cbn [decode] in H. cbv zeta in H. cbn [on_error] in H.
  pose proof (Zb_range b1) as R1.
  destruct (Zb b1 <? 0x80) eqn:E1; bool_to_Z.
  { emitted H t0. exists (Zb b1), [b1], r1, t0.
    repeat split; auto using encode_cp_1; [discriminate|].
    intros Hc. rewrite <- (byte_of_Zb b1), Hc. reflexivity. }
  destruct (Zb b1 <? 0xC2) eqn:E2; [discriminate|]; bool_to_Z.
  destruct (Zb b1 <? 0xE0) eqn:E3; bool_to_Z.
  { destruct r1 as [|b2 r2]; [discriminate|].
    destruct (is_cont (Zb b2)) eqn:C2; [|discriminate].
    emitted H t0. eexists _, [b1; b2], r2, t0.
    repeat split; auto; [apply encode_cp_2; auto; lia|discriminate|].
    unfold is_cont, CR in *. bool_to_Z. lia. }
  destruct (Zb b1 <? 0xF0) eqn:E4; bool_to_Z.
  { destruct r1 as [|b2 r2]; [discriminate|].
    destruct (second_of_3 (Zb b1) (Zb b2)) eqn:C2; [|discriminate].
    destruct r2 as [|b3 r3]; [discriminate|].
    destruct (is_cont (Zb b3)) eqn:C3; [|discriminate].
    emitted H t0. eexists _, [b1; b2; b3], r3, t0.
    repeat split; auto; [apply encode_cp_3; auto; lia|discriminate|].
    unfold second_of_3, is_cont, CR in *. bool_to_Z.
    destruct (Zb b2 <? 0xA0) eqn:E; bool_to_Z; lia. }
  destruct (Zb b1 <? 0xF5) eqn:E5; [|discriminate]; bool_to_Z.
  destruct r1 as [|b2 r2]; [discriminate|].
  destruct (second_of_4 (Zb b1) (Zb b2)) eqn:C2; [|discriminate].
  destruct r2 as [|b3 r3]; [discriminate|].
  destruct (is_cont (Zb b3)) eqn:C3; [|discriminate].
  destruct r3 as [|b4 r4]; [discriminate|].
  destruct (is_cont (Zb b4)) eqn:C4; [|discriminate].
  emitted H t0. eexists _, [b1; b2; b3; b4], r4, t0.
  repeat split; auto; [apply encode_cp_4; auto; lia|discriminate|].
  unfold second_of_4, is_cont, CR in *. bool_to_Z.
  destruct (Zb b2 <? 0x90) eqn:E; bool_to_Z; lia.
Qed.

Lemma decode_strict_bounded (n : nat) :
  forall bs t, (List.length bs <= n)%nat ->
    decode Strict bs = Some t ->
    encode t = Some bs /\ (In CR t -> In x0d bs).
Proof.
  induction n as [|n IH]; intros bs t Hlen H.
  - destruct bs; [|cbn in Hlen; lia]. cbn in H. injection H as <-.
    split; [reflexivity | intros []].
  - destruct bs as [|b1 r1].
    { cbn in H. injection H as <-. split; [reflexivity | intros []]. }
    destruct (decode_strict_inv _ _ _ H)
      as (c & k & rest & t' & -> & Hsplit & Hrest & Hk & Hne & Hcr).
    assert (Hshort : (List.length rest <= n)%nat).
    { apply (f_equal (@List.length byte)) in Hsplit.
      rewrite length_app in Hsplit. cbn [List.length] in *.
      destruct k; [contradiction|]. cbn [List.length] in *. lia. }
    destruct (IH rest t' Hshort Hrest) as [Henc Hin].
    rewrite Hsplit. split.
    + cbn [encode]. now rewrite Hk, Henc.
    + intros [Hc | Ht]; apply in_or_app.
      * left. rewrite (Hcr Hc). now left.
      * right. auto.
Qed.

(** Whatever the strict decoder accepts, the encoder maps back to the very
    same bytes. *)
Lemma decode_encode (bs : list byte) (t : str) :
  decode Strict bs = Some t -> encode t = Some bs.
Proof. intros H. now apply (decode_strict_bounded (List.length bs)). Qed.

(** A carriage return in the decoded text comes from a byte 0x0D. *)
Lemma decode_no_cr (bs : list byte) (t : str) :
  decode Strict bs = Some t -> ~ In x0d bs -> ~ In CR t.
Proof.
  intros H Hno Hin.
  now apply Hno, (decode_strict_bounded (List.length bs) bs t).
Qed.

Lemma encode_app (a b : str) (x y : list byte) :
  encode a = Some x -> encode b = Some y -> encode (a ++ b) = Some (x ++ y).
Proof.
  revert x. induction a as [|c a IH]; intros x Ha Hb.
  - cbn in Ha. injection Ha as <-. exact Hb.
  - cbn [encode app] in *.
    destruct (encode_cp c) as [k|]; [|discriminate].
    destruct (encode a) as [x'|]; [|discriminate].
    injection Ha as <-. rewrite (IH x' eq_refl Hb). now rewrite app_assoc.
Qed.

Lemma decode_replace_bounded (n : nat) :
  forall bs, (List.length bs <= n)%nat -> exists t, decode Replace bs = Some t.
Proof.
  induction n as [|n IH]; intros bs Hlen.
  - destruct bs; [now exists [] | cbn in Hlen; lia].
  - destruct bs as [|b1 r1]; [now exists []|].
    cbn [decode]. cbv zeta. unfold emit. cbn [on_error].
    repeat match goal with
    | |- context [decode Replace ?r] =>
        let E := fresh in
        destruct (IH r) as [? E]; [cbn [List.length] in *; lia | rewrite E]
    | |- exists t, option_map _ (Some _) = Some t => eexists; reflexivity
    | |- context [if ?c then _ else _] => destruct c
    | |- context [match ?r with [] => _ | _ :: _ => _ end] => destruct r
    end.
Qed.

(** With [errors='replace'] decoding never raises. *)
Lemma decode_replace_total (bs : list byte) :
  exists t, decode Replace bs = Some t.
Proof. apply (decode_replace_bounded (List.length bs)). lia. Qed.

End Utf8Facts.

(** ** The pause/resume protocol *)

Module ProtocolFacts.

Lemma drain_paused_frame (r : Ready) (s : Session) (w : World) :
  let w' := drain_paused r s w in
  w_pid w' = w_pid w /\ w_status_hist w' = w_status_hist w /\
  status_json (w_dir w') = status_json (w_dir w) /\
  runner_pid (w_dir w') = runner_pid (w_dir w) /\
  pipe_mode (w_dir w') = pipe_mode (w_dir w) /\
  other_entries (w_dir w') = other_entries (w_dir w) /\
  w_cron_calls w' = w_cron_calls w /\ w_master_in w' = w_master_in w.
Proof.
  unfold drain_paused.
  destruct (master_fd s); [|cbn; tauto].
  destruct r as [|[data|]]; [tauto| |tauto].
  destruct (nonempty data); cbn; tauto.
Qed.

Lemma agent_writes_frame (a : option FileContent) (w : World) :
  let w' := agent_writes a w in
  w_pid w' = w_pid w /\ w_status_hist w' = w_status_hist w /\
  w_console w' = w_console w /\ output_log (w_dir w') = output_log (w_dir w).
Proof. destruct a; cbn; tauto. Qed.

Lemma status_seen_spec (ev : PauseEv) (s : Session) (w : World) :
  status_json (w_dir (agent_writes (pe_agent ev) (drain_paused (pe_ready ev) s w)))
  = status_seen ev w.
Proof.
  unfold status_seen. destruct (pe_agent ev); [reflexivity|].
  cbn [agent_writes]. apply (drain_paused_frame (pe_ready ev) s w).
Qed.

(** What the wait loop can have done when the script is over. *)
Lemma wait_for_ai_inv (evs : list PauseEv) (s : Session) :
  forall w,
    match wait_for_ai evs s w with
    | StillWaiting s' w' =>
        running s = true /\ s' = s /\
        w_pid w' = w_pid w /\ w_status_hist w' = w_status_hist w
    | Returned s' w' =>
        (running s = false /\ s' = s /\ w' = w) \/
        (running s = true /\ exists ev, In ev evs /\
           s' = resumed (pe_now ev) s /\
           w_pid w' = w_pid w /\
           w_status_hist w' = w_status_hist w ++
             [Malformed [];
              Holds (status_record s MONITORING None (Some RESUMED)
                       (pe_t_status ev) (w_pid w))])
    end.
Proof.
  induction evs as [|ev rest IH]; intros w; cbn [wait_for_ai];
    destruct (running s) eqn:R; cbn [negb]; auto.
  destruct (drain_paused_frame (pe_ready ev) s w) as (Hp1 & Hh1 & _).
  destruct (agent_writes_frame (pe_agent ev) (drain_paused (pe_ready ev) s w))
    as (Hp2 & Hh2 & _).
  set (w2 := agent_writes (pe_agent ev) (drain_paused (pe_ready ev) s w)) in *.
  assert (Hp : w_pid w2 = w_pid w) by congruence.
  assert (Hh : w_status_hist w2 = w_status_hist w) by congruence.
  destruct (ai_responded w2) as [[|]|].
  - right. split; [reflexivity|]. exists ev. cbn.
    rewrite Hp, Hh, <- app_assoc. repeat split; auto.
  - specialize (IH w2). destruct (wait_for_ai rest s w2).
    + destruct IH as [(? & _) | (_ & ev' & Hin & ? & ? & ?)]; [congruence|].
      right. split; [reflexivity|]. exists ev'. rewrite <- Hp, <- Hh.
      repeat split; auto. now right.
    + destruct IH as (_ & ? & ? & ?). repeat split; congruence.
  - specialize (IH w2). destruct (wait_for_ai rest s w2).
    + destruct IH as [(? & _) | (_ & ev' & Hin & ? & ? & ?)]; [congruence|].
      right. split; [reflexivity|]. exists ev'. rewrite <- Hp, <- Hh.
      repeat split; auto. now right.
    + destruct IH as (_ & ? & ? & ?). repeat split; congruence.
Qed.

Lemma echoed_app (a b : list ConsoleWrite) :
  echoed (a ++ b) = echoed a ++ echoed b.
Proof.
  induction a as [|[t|m] a IH]; cbn; [reflexivity| |exact IH].
  now rewrite IH, app_assoc.
Qed.

(** One drain attempt of the wait loop puts the text it takes at the end
    of the log and of the console. *)
Lemma drain_paused_output (r : Ready) (s : Session) (w : World) (fd : Z) :
  master_fd s = Some fd ->
  let w' := drain_paused r s w in
  log_text w' = log_text w ++ drained r /\
  echoed (w_console w') = echoed (w_console w) ++ drained r.
Proof.
  intros Hfd. unfold drain_paused, drained. rewrite Hfd.
  destruct r as [|[data|]]; cbn zeta; try (now rewrite !app_nil_r).
  destruct (nonempty data); [|now rewrite !app_nil_r].
  split.
  - unfold log_text, log_output. cbn. now destruct (output_log (w_dir w)).
  - cbn. rewrite echoed_app. cbn. now rewrite app_nil_r.
Qed.

(** The test of line 209 is [says_done] on the record as it is read. *)
Lemma ai_responded_iff (w : World) :
  ai_responded w = Some true <-> says_done (status_json (w_dir w)) = true.
Proof.
  unfold ai_responded, says_done.
  destruct (json_load (status_json (w_dir w))) as [data|]; [|split; discriminate].
  destruct (dict_get (py "state") data) as [v|]; [|split; discriminate].
  split; [now intros [= ->] | now intros ->].
Qed.

Lemma iterations_run_le (evs : list PauseEv) :
  forall c, (iterations_run evs c <= List.length evs)%nat.
Proof.
  induction evs as [|ev rest IH]; intros c; cbn [iterations_run List.length];
    [lia|].
  destruct (says_done _); [lia|]. apply le_n_S, IH.
Qed.

(** The wait loop logs and echoes the text of every iteration it runs, the
    one that reads the answer included, and of no other. *)
Lemma wait_for_ai_output (evs : list PauseEv) (s : Session) (fd : Z) :
  master_fd s = Some fd ->
  running s = true ->
  forall w,
    let n := iterations_run evs (status_json (w_dir w)) in
    let out := List.concat (map (fun ev => drained (pe_ready ev)) (firstn n evs)) in
    let r := wait_for_ai evs s w in
    log_text (waited_world r) = log_text w ++ out /\
    echoed (w_console (waited_world r)) = echoed (w_console w) ++ out /\
    match r with
    | StillWaiting _ _ => n = List.length evs
    | Returned _ _ => (0 < n)%nat
    end.
Proof.
  intros Hfd R. induction evs as [|ev rest IH]; intros w;
    cbn [wait_for_ai iterations_run]; rewrite R; cbn [negb].
  - cbn. now rewrite !app_nil_r.
  - destruct (drain_paused_output (pe_ready ev) s w fd Hfd) as [Hl1 He1].
    destruct (agent_writes_frame (pe_agent ev) (drain_paused (pe_ready ev) s w))
      as (_ & _ & Hc2 & Hl2).
    pose proof (status_seen_spec ev s w) as Hseen. unfold status_seen in Hseen.
    set (w2 := agent_writes (pe_agent ev) (drain_paused (pe_ready ev) s w)) in *.
    assert (Hl : log_text w2 = log_text w ++ drained (pe_ready ev)).
    { unfold log_text in *. now rewrite Hl2. }
    assert (He : echoed (w_console w2)
                 = echoed (w_console w) ++ drained (pe_ready ev)) by congruence.
    pose proof (ai_responded_iff w2) as Hdone.
    rewrite <- Hseen.
    destruct (ai_responded w2) as [[|]|].
    + rewrite (proj1 Hdone eq_refl).
      cbn [List.length firstn map List.concat waited_world update_status].
      rewrite app_nil_r. split; [|split; [|lia]].
      * rewrite <- Hl. reflexivity.
      * cbn. rewrite echoed_app. cbn. now rewrite app_nil_r.
    + destruct (says_done (status_json (w_dir w2))) eqn:D.
      { pose proof (proj2 Hdone eq_refl). discriminate. }
      destruct (IH w2) as (Hlog & Hecho & Hend). cbn zeta in *.
      cbn [List.length firstn map List.concat].
      rewrite Hlog, Hecho, Hl, He, <- !app_assoc.
      repeat split. destruct (wait_for_ai rest s w2); cbn [List.length]; lia.
    + destruct (says_done (status_json (w_dir w2))) eqn:D.
      { pose proof (proj2 Hdone eq_refl). discriminate. }
      destruct (IH w2) as (Hlog & Hecho & Hend). cbn zeta in *.
      cbn [List.length firstn map List.concat].
      rewrite Hlog, Hecho, Hl, He, <- !app_assoc.
      repeat split. destruct (wait_for_ai rest s w2); cbn [List.length]; lia.
Qed.

End ProtocolFacts.

(** ** The watchdog *)

Module WatchdogFacts.
Import ProtocolFacts.

Lemma written_since_app (w w' : World) (l : list FileContent) :
  w_status_hist w' = w_status_hist w ++ l -> written_since w w' = l.
Proof.
  intros H. unfold written_since. rewrite H.
  rewrite skipn_app, skipn_all, Nat.sub_diag. reflexivity.
Qed.

Lemma drain_frame (r : Ready) (t : Z) (s s1 : Session) (w w1 : World) :
  drain r t s w = Some (s1, w1) ->
  state s1 = state s /\ running s1 = running s /\ cron_id s1 = cron_id s /\
  w_pid w1 = w_pid w /\ w_status_hist w1 = w_status_hist w /\
  status_record s1 = status_record s.
Proof.
  unfold drain. destruct r as [|[data|]]; [| |discriminate].
  - intros [= <- <-]. tauto.
  - destruct (nonempty data); intros [= <- <-]; cbn; tauto.
Qed.

(** What a call of [trigger_ai] from MONITORING leaves behind. *)
Lemma trigger_ai_monitoring (reason : str) (env : TriggerEnv) (s : Session)
    (w : World) :
  state s = MONITORING ->
  let r := trigger_ai reason env s w in
  let paused := set_state WAITING_FOR_AI s in
  let rec := Holds (status_record s WAITING_FOR_AI (Some reason) None
                      (te_now env) (w_pid w)) in
  match r with
  | StillWaiting s' w' =>
      s' = paused /\ written_since w w' = [Malformed []; rec]
  | Returned s' w' =>
      (running s = false /\ s' = paused /\
       written_since w w' = [Malformed []; rec]) \/
      (exists ev, In ev (te_pause env) /\ s' = resumed (pe_now ev) s /\
         written_since w w' =
           [Malformed []; rec; Malformed [];
            Holds (status_record s MONITORING None (Some RESUMED)
                     (pe_t_status ev) (w_pid w))])
  end.
Proof.
  intros Hst. unfold trigger_ai. rewrite Hst. cbn [update_status].
  change (cron_id (set_state WAITING_FOR_AI s)) with (cron_id s).
  match goal with |- context [wait_for_ai ?e ?s0 ?w0] =>
    remember w0 as wp eqn:Ewp;
    assert (Hh : w_status_hist wp = w_status_hist w ++
      [Malformed [];
       Holds (status_record s WAITING_FOR_AI (Some reason) None (te_now env) (w_pid w))])
      by (subst wp;
          destruct (cron_id s) as [id|];
            [destruct (truthy id); [destruct (te_cmd_err env)|]|];
          cbn; try rewrite <- app_assoc; reflexivity);
    assert (Hp : w_pid wp = w_pid w)
      by (subst wp;
          destruct (cron_id s) as [id|];
            [destruct (truthy id); [destruct (te_cmd_err env)|]|];
          reflexivity);
    clear Ewp;
    pose proof (wait_for_ai_inv e s0 wp) as Hinv;
    destruct (wait_for_ai e s0 wp) as [s' w'|s' w']
  end.
  - destruct Hinv as [(R & -> & ->) | (R & ev & Hin & -> & Hp' & Hh')].
    + left. split; [exact R|]. split; [reflexivity|].
      now apply written_since_app.
    + right. exists ev. split; [exact Hin|]. split; [reflexivity|].
      apply written_since_app. rewrite Hh', Hh, Hp, <- app_assoc. reflexivity.
  - destruct Hinv as (_ & -> & _ & Hh').
    split; [reflexivity|]. apply written_since_app. congruence.
Qed.

Lemma written_since_same_start (w w1 w' : World) :
  w_status_hist w1 = w_status_hist w ->
  written_since w1 w' = written_since w w'.
Proof. unfold written_since. now intros ->. Qed.

Lemma io_wait_due_true (now : Z) (s : Session) :
  IO_WAIT_TIMEOUT < now - last_activity_time s ->
  last_log_chunk s <> [] ->
  endswith_newline (last_log_chunk s) = false ->
  io_wait_due now s = true.
Proof.
  intros Ht Hne Hnl. unfold io_wait_due.
  rewrite Hnl. apply Z.ltb_lt in Ht. rewrite Ht.
  destruct (last_log_chunk s); [contradiction | reflexivity].
Qed.

Lemma io_wait_due_empty (now : Z) (s : Session) :
  last_log_chunk s = [] -> io_wait_due now s = false.
Proof.
  intros H. unfold io_wait_due. rewrite H. cbn.
  now rewrite andb_false_r.
Qed.

Lemma announces_waiting (s : Session) (reason : str) (now pid : Z) :
  truthy reason = true ->
  announces (Holds (status_record s WAITING_FOR_AI (Some reason) None now pid))
    WAITING_FOR_AI reason.
Proof.
  intros H. split; cbn; [reflexivity|]. now rewrite H.
Qed.

(** The [if] branch of "Check timers". *)
Lemma check_timers_io_wait (now : Z) (env : TriggerEnv) (t_after : Z)
    (s : Session) (w : World) :
  state s = MONITORING ->
  io_wait_due now s = true ->
  let i := check_timers now env t_after s w in
  let rec := Holds (status_record s WAITING_FOR_AI (Some IO_WAIT) None
                      (te_now env) (w_pid w)) in
  (written_since w (iter_world i) = [Malformed []; rec] \/
   exists t, written_since w (iter_world i) =
     [Malformed []; rec; Malformed [];
      Holds (status_record s MONITORING None (Some RESUMED) t (w_pid w))]) /\
  match i with
  | Continue s' _ => last_log_chunk s' = []
  | Blocked s' _ => state s' = WAITING_FOR_AI
  | Broke _ _ => False
  end.
Proof.
  intros Hst Hio. unfold check_timers. rewrite Hio.
  pose proof (trigger_ai_monitoring IO_WAIT env s w Hst) as T. cbn zeta in T.
  destruct (trigger_ai IO_WAIT env s w) as [s' w'|s' w']; cbn.
  - split; [|reflexivity].
    destruct T as [(_ & _ & ->) | (ev & _ & _ & ->)]; [now left | right; eauto].
  - destruct T as [-> ->]. split; [now left | reflexivity].
Qed.

(** The [elif] branch of "Check timers". *)
Lemma check_timers_stall (now : Z) (env : TriggerEnv) (t_after : Z)
    (s : Session) (w : World) :
  state s = MONITORING ->
  io_wait_due now s = false ->
  stall_due now s = true ->
  let i := check_timers now env t_after s w in
  let rec := Holds (status_record s WAITING_FOR_AI (Some STALL) None
                      (te_now env) (w_pid w)) in
  (written_since w (iter_world i) = [Malformed []; rec] \/
   exists t, written_since w (iter_world i) =
     [Malformed []; rec; Malformed [];
      Holds (status_record s MONITORING None (Some RESUMED) t (w_pid w))]) /\
  match i with
  | Continue s' _ => last_activity_time s' = t_after
  | Blocked s' _ => state s' = WAITING_FOR_AI
  | Broke _ _ => False
  end.
Proof.
  intros Hst Hio Hstall. unfold check_timers. rewrite Hio, Hstall.
  pose proof (trigger_ai_monitoring STALL env s w Hst) as T. cbn zeta in T.
  destruct (trigger_ai STALL env s w) as [s' w'|s' w']; cbn.
  - split; [|reflexivity].
    destruct T as [(_ & _ & ->) | (ev & _ & _ & ->)]; [now left | right; eauto].
  - destruct T as [-> ->]. split; [now left | reflexivity].
Qed.

(** The watchdog check of every iteration of a running session is made in
    MONITORING: an iteration that starts there and runs to its end leaves
    the session there. *)
Lemma main_iter_keeps_monitoring (ev : MainEv) (s s' : Session) (w w' : World) :
  state s = MONITORING -> running s = true ->
  main_iter ev s w = Continue s' w' ->
  state s' = MONITORING /\ running s' = true.
Proof.
  intros Hst R. unfold main_iter.
  destruct (drain (me_ready ev) (me_t_activity ev) s w) as [[s1 w1]|] eqn:D;
    [|discriminate].
  destruct (drain_frame _ _ _ _ _ _ D) as (Hst1 & R1 & _).
  rewrite <- Hst1 in Hst. rewrite <- R1 in R. clear D Hst1 R1.
  unfold check_timers.
  destruct (io_wait_due (me_now ev) s1);
    [| destruct (stall_due (me_now ev) s1); [| intros [= <- <-]; auto ] ].
  - pose proof (trigger_ai_monitoring IO_WAIT (me_trigger ev) s1 w1 Hst) as T.
    cbn zeta in T.
    destruct (trigger_ai IO_WAIT (me_trigger ev) s1 w1); [|discriminate].
    intros [= <- <-].
    destruct T as [(R' & _) | (e & _ & -> & _)]; [congruence | auto].
  - pose proof (trigger_ai_monitoring STALL (me_trigger ev) s1 w1 Hst) as T.
    cbn zeta in T.
    destruct (trigger_ai STALL (me_trigger ev) s1 w1); [|discriminate].
    intros [= <- <-].
    destruct T as [(R' & _) | (e & _ & -> & _)]; [congruence | auto].
Qed.

End WatchdogFacts.

Module Watchdog.
Import WatchdogFacts.

(** Claim C1.  In a control-loop iteration that starts in MONITORING, if
    after the drain attempt more than IO_WAIT_TIMEOUT has passed since the
    activity clock and the last chunk is non-empty and does not end with a
    newline, then the status record is rewritten with state WAITING_FOR_AI
    and reason IO_WAIT (the first thing written in the iteration), the
    iteration never leaves by [break], while it waits the session is in
    WAITING_FOR_AI, and when it is over the last chunk is empty, so that
    the IO_WAIT condition is false whatever the time. *)
Theorem io_wait_transition (ev : MainEv) (s s1 : Session) (w w1 : World) :
  state s = MONITORING ->
  drain (me_ready ev) (me_t_activity ev) s w = Some (s1, w1) ->
  IO_WAIT_TIMEOUT < me_now ev - last_activity_time s1 ->
  last_log_chunk s1 <> [] ->
  endswith_newline (last_log_chunk s1) = false ->
  let i := main_iter ev s w in
  let rec := Holds (status_record s WAITING_FOR_AI (Some IO_WAIT) None
                      (te_now (me_trigger ev)) (w_pid w)) in
  announces rec WAITING_FOR_AI IO_WAIT /\
  (exists tail, written_since w (iter_world i) = Malformed [] :: rec :: tail) /\
  match i with
  | Continue s' _ => last_log_chunk s' = [] /\ forall now, io_wait_due now s' = false
  | Blocked s' _ => state s' = WAITING_FOR_AI
  | Broke _ _ => False
  end.
Proof.
  intros Hst Hd Ht Hne Hnl. cbn zeta.
  split; [now apply announces_waiting|].
  destruct (drain_frame _ _ _ _ _ _ Hd) as (Hst1 & _ & _ & Hp & Hh & Hrec).
  unfold main_iter. rewrite Hd.
  pose proof (check_timers_io_wait (me_now ev) (me_trigger ev) (me_t_after ev)
                s1 w1 (eq_trans Hst1 Hst) (io_wait_due_true _ _ Ht Hne Hnl)) as C.
  cbn zeta in C. rewrite Hrec, Hp, (written_since_same_start w w1 _ Hh) in C.
  destruct C as [Hw Hi]. split.
  - destruct Hw as [-> | [t ->]]; eauto.
  - destruct (check_timers _ _ _ s1 w1); auto using io_wait_due_empty.
Qed.

(** Claim C2.  In a control-loop iteration that starts in MONITORING and in
    which, after the drain attempt, more than STALL_TIMEOUT has passed since
    the activity clock: if the IO_WAIT condition does not hold, the status
    record is rewritten with state WAITING_FOR_AI and reason STALL and, when
    the iteration is over, the activity clock is the time read after the
    call; if the IO_WAIT condition holds too, the record written is the one
    with reason IO_WAIT and nothing written in the iteration carries the
    reason STALL. *)
Theorem stall_transition (ev : MainEv) (s s1 : Session) (w w1 : World) :
  state s = MONITORING ->
  drain (me_ready ev) (me_t_activity ev) s w = Some (s1, w1) ->
  STALL_TIMEOUT < me_now ev - last_activity_time s1 ->
  let i := main_iter ev s w in
  let rec reason := Holds (status_record s WAITING_FOR_AI (Some reason) None
                             (te_now (me_trigger ev)) (w_pid w)) in
  (io_wait_due (me_now ev) s1 = false ->
     announces (rec STALL) WAITING_FOR_AI STALL /\
     (exists tail,
        written_since w (iter_world i) = Malformed [] :: rec STALL :: tail) /\
     match i with
     | Continue s' _ => last_activity_time s' = me_t_after ev
     | Blocked s' _ => state s' = WAITING_FOR_AI
     | Broke _ _ => False
     end) /\
  (io_wait_due (me_now ev) s1 = true ->
     announces (rec IO_WAIT) WAITING_FOR_AI IO_WAIT /\
     (exists tail,
        written_since w (iter_world i) = Malformed [] :: rec IO_WAIT :: tail) /\
     Forall (fun c => field_of "reason" c <> Some (JStr STALL))
       (written_since w (iter_world i))).
Proof.
  intros Hst Hd Ht. cbn zeta.
  destruct (drain_frame _ _ _ _ _ _ Hd) as (Hst1 & _ & _ & Hp & Hh & Hrec).
  assert (Hstall : stall_due (me_now ev) s1 = true) by now apply Z.ltb_lt.
  unfold main_iter. rewrite Hd. split; intros Hio.
  - split; [now apply announces_waiting|].
    pose proof (check_timers_stall (me_now ev) (me_trigger ev) (me_t_after ev)
                  s1 w1 (eq_trans Hst1 Hst) Hio Hstall) as C.
    cbn zeta in C. rewrite Hrec, Hp, (written_since_same_start w w1 _ Hh) in C.
    destruct C as [Hw Hi]. split; [|exact Hi].
    destruct Hw as [-> | [t ->]]; eauto.
  - split; [now apply announces_waiting|].
    pose proof (check_timers_io_wait (me_now ev) (me_trigger ev) (me_t_after ev)
                  s1 w1 (eq_trans Hst1 Hst) Hio) as C.
    cbn zeta in C. rewrite Hrec, Hp, (written_since_same_start w w1 _ Hh) in C.
    destruct C as [Hw _].
    destruct Hw as [-> | [t ->]]; (split; [eauto|]);
      repeat constructor; cbn; discriminate.
Qed.

(** The prompt scenario: the hypotheses of [io_wait_transition] hold and the
    iteration is waiting for the agent. *)
Lemma io_wait_transition_witness :
  match main_iter sample_prompt_ev sample_session sample_world with
  | Continue s' _ => last_log_chunk s' = []
  | Blocked s' _ => state s' = WAITING_FOR_AI
  | Broke _ _ => False
  end.
Proof.
  destruct (io_wait_transition sample_prompt_ev sample_session
              (set_last_log_chunk (decode_replace sample_prompt)
                 (set_last_activity_time 1000 sample_session))
              sample_world
              (log_output (decode_replace sample_prompt)
                 (echo (decode_replace sample_prompt) sample_world))
              eq_refl eq_refl)
    as (_ & _ & H).
  - vm_compute. reflexivity.
  - vm_compute. discriminate.
  - vm_compute. reflexivity.
  - destruct (main_iter sample_prompt_ev sample_session sample_world);
      [exact (proj1 H) | exact H | exact H].
Defined.

(** Forty seconds of silence, without and with an unanswered prompt. *)
Lemma stall_transition_witness :
  (exists tail,
     written_since sample_world
       (iter_world (main_iter sample_silence_ev sample_session sample_world))
     = Malformed []
       :: Holds (status_record sample_session WAITING_FOR_AI (Some STALL) None
                   4001 100)
       :: tail) /\
  Forall (fun c => field_of "reason" c <> Some (JStr STALL))
    (written_since sample_world
       (iter_world (main_iter sample_silence_ev sample_prompted sample_world))).
Proof.
  split.
  - refine (proj1 (proj2 (proj1
      (stall_transition sample_silence_ev sample_session sample_session
         sample_world sample_world eq_refl eq_refl _) eq_refl))).
    vm_compute. reflexivity.
  - refine (proj2 (proj2 (proj2
      (stall_transition sample_silence_ev sample_prompted sample_prompted
         sample_world sample_world eq_refl eq_refl _) eq_refl))).
    vm_compute. reflexivity.
Defined.

End Watchdog.

Module Protocol.
Import ProtocolFacts WatchdogFacts.

(** Claim C8.  A trigger request made while the session is already in
    WAITING_FOR_AI returns at once with the session and the world as they
    were: no field changes, no status record is written, no force-run is
    issued, nothing is printed, and nothing of the script is consumed. *)
Theorem trigger_ai_reentrant (reason : str) (env : TriggerEnv) (s : Session)
    (w : World) :
  state s = WAITING_FOR_AI ->
  trigger_ai reason env s w = Returned s w /\
  written_since w (waited_world (trigger_ai reason env s w)) = [] /\
  w_cron_calls (waited_world (trigger_ai reason env s w)) = w_cron_calls w.
Proof.
  intros H. unfold trigger_ai. rewrite H. cbn.
  repeat split. unfold written_since. apply skipn_all.
Qed.

(** Claim C3.  If the session is paused (running, inside the wait loop) and
    the status record read in an iteration is a JSON object whose [state]
    is AI_DONE, then that same iteration (one poll of at most
    POLL_INTERVAL) ends the wait: the status record is rewritten with
    state MONITORING, the activity clock is the time read at that moment,
    the last chunk is empty, and the call returns.  For the watchdog check
    that follows, IO_WAIT cannot fire at any time, and STALL cannot fire
    as long as the check is made within STALL_TIMEOUT of the reset of the
    clock (by the protocol, or by the caller after a STALL).  The same holds
    for the whole next iteration of the control loop, new output included,
    when its two clock readings are no more than IO_WAIT_TIMEOUT apart:
    it does not pause and writes no status record. *)
Theorem resume_on_ai_done (ev : PauseEv) (rest : list PauseEv) (s : Session)
    (w : World) (data : Json) :
  running s = true ->
  status_seen ev w = Holds data ->
  dict_get (py "state") data = Some (JStr AI_DONE) ->
  exists w',
    wait_for_ai (ev :: rest) s w = Returned (resumed (pe_now ev) s) w' /\
    status_json (w_dir w') =
      Holds (status_record s MONITORING None (Some RESUMED) (pe_t_status ev) (w_pid w)) /\
    field_of "state" (status_json (w_dir w')) = Some (JStr (state_name MONITORING)) /\
    state (resumed (pe_now ev) s) = MONITORING /\
    last_activity_time (resumed (pe_now ev) s) = pe_now ev /\
    last_log_chunk (resumed (pe_now ev) s) = [] /\
    (forall now env t_after,
       now - pe_now ev <= STALL_TIMEOUT ->
       check_timers now env t_after (resumed (pe_now ev) s) w'
       = Continue (resumed (pe_now ev) s) w') /\
    (forall now env t_after t_reset,
       now - t_reset <= STALL_TIMEOUT ->
       check_timers now env t_after
         (set_last_activity_time t_reset (resumed (pe_now ev) s)) w'
       = Continue (set_last_activity_time t_reset (resumed (pe_now ev) s)) w') /\
    (forall next,
       me_now next - me_t_activity next <= IO_WAIT_TIMEOUT ->
       me_now next - pe_now ev <= STALL_TIMEOUT ->
       match main_iter next (resumed (pe_now ev) s) w' with
       | Continue s2 w2 | Broke s2 w2 =>
           state s2 = MONITORING /\ written_since w' w2 = []
       | Blocked _ _ => False
       end).
Proof.
  intros R Hseen Hstate.
  assert (Hok : ai_responded (agent_writes (pe_agent ev)
                                (drain_paused (pe_ready ev) s w)) = Some true).
  { unfold ai_responded. rewrite status_seen_spec, Hseen. cbn [json_load].
    rewrite Hstate. reflexivity. }
  destruct (drain_paused_frame (pe_ready ev) s w) as (Hp1 & _).
  destruct (agent_writes_frame (pe_agent ev) (drain_paused (pe_ready ev) s w))
    as (Hp2 & _).
  eexists. split.
  { cbn [wait_for_ai]. rewrite R. cbn [negb]. rewrite Hok. reflexivity. }
  assert (Hquiet : forall now env t_after t_reset w0,
            now - t_reset <= STALL_TIMEOUT ->
            check_timers now env t_after
              (set_last_activity_time t_reset (resumed (pe_now ev) s)) w0
            = Continue (set_last_activity_time t_reset (resumed (pe_now ev) s)) w0).
  { intros now env t_after t_reset w0 Hle. unfold check_timers.
    rewrite io_wait_due_empty by reflexivity.
    unfold stall_due. cbn [last_activity_time set_last_activity_time].
    apply Z.ltb_ge in Hle. now rewrite Hle. }
  cbn [update_status snd fst json_dump open_truncate put_status w_dir
       status_json set_status_json w_pid say].
  rewrite Hp2, Hp1. split; [reflexivity|]. split; [reflexivity|].
  split; [reflexivity|]. split; [reflexivity|]. split; [reflexivity|].
  split; [|split]; [| exact (fun now env t_after t_reset => Hquiet now env t_after t_reset _) |].
  - intros now env t_after Hle. apply (Hquiet now env t_after (pe_now ev) _ Hle).
  - intros next Hio Hst. unfold main_iter.
    match goal with |- context [drain ?r ?t ?s0 ?w0] =>
      destruct (drain r t s0 w0) as [[s1 w1]|] eqn:D; cbn beta iota
    end.
    2:{ split; [reflexivity|]. unfold written_since. apply skipn_all. }
    assert (Hw : written_since
                   (json_dump (status_record (set_state MONITORING s) MONITORING
                                 None (Some RESUMED) (pe_t_status ev) (w_pid w))
                      (open_truncate (say MsgAIFinished
                         (agent_writes (pe_agent ev)
                            (drain_paused (pe_ready ev) s w))))) w1 = []).
    { destruct (drain_frame _ _ _ _ _ _ D) as (_ & _ & _ & _ & Hh & _).
      unfold written_since. rewrite Hh. apply skipn_all. }
    assert (Hcalm : io_wait_due (me_now next) s1 = false /\
                    stall_due (me_now next) s1 = false /\
                    state s1 = MONITORING).
    { unfold drain in D. unfold io_wait_due, stall_due.
      destruct (me_ready next) as [|[chunk|]]; [| |discriminate].
      - injection D as <- <-. cbn. split; [now rewrite andb_false_r|].
        split; [now apply Z.ltb_ge | reflexivity].
      - destruct (nonempty chunk); injection D as <- <-; cbn.
        + replace (IO_WAIT_TIMEOUT <? me_now next - me_t_activity next) with false
            by (symmetry; now apply Z.ltb_ge).
          split; [reflexivity|]. split; [|reflexivity].
          apply Z.ltb_ge. unfold IO_WAIT_TIMEOUT, STALL_TIMEOUT in *. lia.
        + split; [now rewrite andb_false_r|].
          split; [now apply Z.ltb_ge | reflexivity]. }
    destruct Hcalm as (E1 & E2 & E3). unfold check_timers. rewrite E1, E2.
    split; [exact E3 | exact Hw].
Qed.

(** Claim C7.  While the session waits for the agent, a chunk taken out of
    the PTY has the same effect on the world as in the main drain loop (it
    is decoded, echoed and appended to the log in the same way); and over
    the whole wait nothing of the child's output is lost: the log and the
    console output are those of the entry followed by the texts drained in
    the iterations the loop runs, all of them, in order and nothing else.
    The iterations run are counted on the script alone by [iterations_run]:
    they go up to and including the one whose read of the status record
    says AI_DONE, so the chunk drained in that iteration is logged and
    echoed before the session resumes; when the wait is still on at the end
    of the script every iteration of the script has been run; a loop that
    is entered with [running] off runs none. *)
Theorem pause_output_logged (s : Session) (fd : Z) :
  master_fd s = Some fd ->
  (forall data t w,
     option_map snd (drain (Readable (Data data)) t s w)
     = Some (drain_paused (Readable (Data data)) s w)) /\
  (forall evs w,
     let n := if running s
              then iterations_run evs (status_json (w_dir w)) else O in
     let out := List.concat (map (fun ev => drained (pe_ready ev)) (firstn n evs)) in
     let r := wait_for_ai evs s w in
     (n <= List.length evs)%nat /\
     log_text (waited_world r) = log_text w ++ out /\
     echoed (w_console (waited_world r)) = echoed (w_console w) ++ out /\
     match r with
     | StillWaiting _ _ => running s = true /\ n = List.length evs
     | Returned _ _ => running s = false \/ (0 < n)%nat
     end).
Proof.
  intros Hfd. split.
  - intros data t w. unfold drain, drain_paused. rewrite Hfd.
    now destruct (nonempty data).
  - intros evs w. destruct (running s) eqn:R.
    + split; [apply iterations_run_le|].
      pose proof (wait_for_ai_output evs s fd Hfd R w) as H. cbn zeta in *.
      destruct H as (Hlog & Hecho & Hend). repeat split; auto.
      destruct (wait_for_ai evs s w); auto.
    + assert (E : wait_for_ai evs s w = Returned s w)
        by (destruct evs; cbn [wait_for_ai]; now rewrite R).
      cbn zeta. rewrite E. cbn. rewrite !app_nil_r.
      repeat split; auto with arith.
Qed.

(** Claim C10.  The drain inside the wait loop is restricted: a drain
    attempt changes nothing of the world but the console and the log (and
    has no access to the session), and the wait loop as a whole leaves the
    session as it was until the resume step: while it waits, and when it
    returns without a resume, the activity clock and the last chunk are
    those of the entry; after a resume the last chunk is empty and the
    activity clock is the time read at the resume, so that the IO_WAIT
    condition is false whatever was drained meanwhile. *)
Theorem pause_drain_restricted :
  (forall r s w,
     let w' := drain_paused r s w in
     w_pid w' = w_pid w /\ w_status_hist w' = w_status_hist w /\
     status_json (w_dir w') = status_json (w_dir w) /\
     runner_pid (w_dir w') = runner_pid (w_dir w) /\
     pipe_mode (w_dir w') = pipe_mode (w_dir w) /\
     other_entries (w_dir w') = other_entries (w_dir w) /\
     w_cron_calls w' = w_cron_calls w /\ w_master_in w' = w_master_in w) /\
  (forall evs s w,
     match wait_for_ai evs s w with
     | StillWaiting s' _ => s' = s
     | Returned s' _ =>
         s' = s \/
         exists ev, In ev evs /\ s' = resumed (pe_now ev) s /\
           last_activity_time s' = pe_now ev /\ last_log_chunk s' = [] /\
           forall now, io_wait_due now s' = false
     end).
Proof.
  split; [exact drain_paused_frame|].
  intros evs s w. pose proof (wait_for_ai_inv evs s w) as H.
  destruct (wait_for_ai evs s w) as [s' w'|s' w'].
  - destruct H as [(_ & -> & _) | (_ & ev & Hin & -> & _)]; [now left|].
    right. exists ev. repeat split; auto.
    intros now. now apply io_wait_due_empty.
  - tauto.
Qed.

(** A second trigger while the sample session is paused. *)
Lemma trigger_ai_reentrant_witness :
  trigger_ai STALL sample_trigger sample_paused sample_world
  = Returned sample_paused sample_world.
Proof.
  exact (proj1 (trigger_ai_reentrant STALL sample_trigger sample_paused
                  sample_world eq_refl)).
Defined.

(** The agent answers in the first iteration of the wait. *)
Lemma resume_on_ai_done_witness :
  exists w',
    wait_for_ai [sample_resume_ev; sample_partial_ev] sample_paused sample_world
    = Returned (resumed 5001 sample_paused) w' /\
    field_of "state" (status_json (w_dir w')) = Some (JStr (py "MONITORING")).
Proof.
  destruct (resume_on_ai_done sample_resume_ev [sample_partial_ev] sample_paused
              sample_world (JObj [(py "state", JStr AI_DONE)])
              eq_refl eq_refl eq_refl)
    as (w' & Hret & _ & Hstate & _).
  exists w'. split; [exact Hret | exact Hstate].
Defined.

(** Output arrives while the agent is half-way through its write, and again
    in the iteration that reads the answer; the third iteration is not run. *)
Lemma pause_output_logged_witness :
  log_text (waited_world
              (wait_for_ai [sample_partial_ev; sample_answer_ev; sample_partial_ev]
                 sample_paused sample_world))
  = py "old logy/n?y/n?".
Proof.
  destruct (proj2 (pause_output_logged sample_paused 5 eq_refl)
              [sample_partial_ev; sample_answer_ev; sample_partial_ev]
              sample_world)
    as (_ & Hlog & _).
  exact Hlog.
Defined.

End Protocol.

(** ** The status record *)

Module StatusRecord.
Import WatchdogFacts.

(** Claim C4, as stated, fails: the status record is not replaced
    atomically.  A reader can find the file empty while a record that was
    complete before is being rewritten. *)
Lemma status_write_not_atomic : ~ replaces_atomically.
Proof.
  intros H.
  specialize (H WAITING_FOR_AI (Some STALL) None 31000 sample_session sample_world).
  cbn zeta in H. unfold written_since in H. cbn in H.
  apply Forall_inv in H. destruct H as [H | H]; discriminate H.
Qed.

(** Claim C4, amended.  Every call of [update_status], whatever the state
    and the arguments, first cuts the status file down to nothing in place
    and then writes the whole new record: the file goes through exactly
    two contents, the empty file and the new record; at the end it holds
    the new record and the rest of the directory is as before. *)
Theorem update_status_truncates_then_writes (st : State) (reason info : option str)
    (now : Z) (s : Session) (w : World) :
  let w' := snd (update_status st reason info now s w) in
  let rec := Holds (status_record s st reason info now (w_pid w)) in
  written_since w w' = [Malformed []; rec] /\
  status_json (w_dir w') = rec /\
  field_of "state" rec = Some (JStr (state_name st)) /\
  fst (update_status st reason info now s w) = set_state st s /\
  output_log (w_dir w') = output_log (w_dir w) /\
  runner_pid (w_dir w') = runner_pid (w_dir w) /\
  pipe_mode (w_dir w') = pipe_mode (w_dir w) /\
  other_entries (w_dir w') = other_entries (w_dir w).
Proof.
  cbn. repeat split. apply written_since_app. cbn.
  now rewrite <- app_assoc.
Qed.

End StatusRecord.

(** ** The runner directory *)

Module Setup.

(** Claim C9.  Starting over an existing runner directory gives the same
    session and the same world as a first start, whatever the directory
    held: nothing of the old status record, log, pid file, pipe or other
    entries is left.  After the setup the directory holds the fresh status
    record (state MONITORING), the pid file and the pipe with mode 0o660
    (read and write for owner and group, nothing for others, whatever the
    umask), and no log file; the log is created by the first output. *)
Theorem setup_dirs_fresh_start (pid now umask : Z) (prior : RunnerDir)
    (s : Session) :
  setup_dirs pid now umask (Directory prior) s = setup_dirs pid now umask NoEntry s /\
  exists w',
    setup_dirs pid now umask (Directory prior) s
      = Some (set_state MONITORING s, w') /\
    w_dir w' = mkDir (Holds (status_record s MONITORING None (Some STARTING) now pid))
                 None (Some pid) (Some (6 * 64 + 6 * 8 + 0)) [] /\
    forall text, log_text (log_output text w') = text.
Proof.
  split; [reflexivity|]. eexists. split; [reflexivity|]. split; reflexivity.
Qed.

End Setup.

(** ** The input gate *)

Module GateFacts.
Import Utf8 Utf8Facts.

Lemma encode_split (a b : str) (z : list byte) :
  encode (a ++ b) = Some z ->
  exists x y, encode a = Some x /\ encode b = Some y /\ z = x ++ y.
Proof.
  revert z. induction a as [|c a IH]; intros z H.
  - exists [], z. auto.
  - cbn [app encode] in *.
    destruct (encode_cp c) as [k|]; [|discriminate].
    destruct (encode (a ++ b)) as [z'|]; [|discriminate].
    destruct (IH z' eq_refl) as (x & y & -> & -> & ->).
    injection H as <-. exists (k ++ x), y. now rewrite app_assoc.
Qed.

Lemma translate_no_cr (t : str) : ~ In CR t -> translate_newlines t = t.
Proof.
  induction t as [|c r IH]; intros H; [reflexivity|].
  cbn [translate_newlines].
  destruct (Z.eqb_spec c CR) as [->|_].
  - exfalso. apply H. now left.
  - rewrite IH; [reflexivity|]. intros Hin. apply H. now right.
Qed.

(** The inner loop hands a text over chunk by chunk: the bytes written
    are the UTF-8 form of the whole text. *)
Lemma serve_text (n : nat) (s : Session) (fd : Z) :
  (0 < n)%nat -> running s = true -> master_fd s = Some fd ->
  forall fuel t bs w,
    (List.length t <= fuel)%nat -> encode t = Some bs ->
    exists w',
      serve (map Got (chunks_fuel fuel n t) ++ [Got []]) s w = Closed w' /\
      w_master_in w' = w_master_in w ++ bs /\ w_sleeps w' = w_sleeps w.
Proof.
  intros Hn R Hfd. induction fuel as [|fuel IH]; intros t bs w Hlen Henc.
  - destruct t; [|cbn in Hlen; lia]. cbn in Henc. injection Henc as <-.
    exists w. cbn. rewrite R, app_nil_r. auto.
  - destruct t as [|c r].
    { cbn in Henc. injection Henc as <-.
      exists w. cbn. rewrite R, app_nil_r. auto. }
    cbn [chunks_fuel map app].
    rewrite <- (firstn_skipn n (c :: r)) in Henc.
    destruct (encode_split _ _ _ Henc) as (x & y & Hx & Hy & ->).
    assert (Hshort : (List.length (skipn n (c :: r)) <= fuel)%nat).
    { rewrite length_skipn. cbn [List.length] in *. lia. }
    destruct (IH _ _ (say (MsgInjected (firstn n (c :: r))) (os_write x w))
                Hshort Hy) as (w' & Hs & Hm & Hz).
    exists w'. cbn [serve]. rewrite R, Hfd, Hx. cbn [negb].
    destruct n as [|n']; [lia|]. cbn [firstn truthy] in *.
    rewrite Hs. cbn in Hm. rewrite Hm, Hz, <- app_assoc. auto.
Qed.

Lemma serve_writer (bs : list byte) (s : Session) (fd : Z) (w : World) :
  running s = true -> master_fd s = Some fd -> plain_utf8 bs ->
  exists w',
    serve (pipe_reads bs) s w = Closed w' /\
    w_master_in w' = w_master_in w ++ bs /\ w_sleeps w' = w_sleeps w.
Proof.
  intros R Hfd [Hdec Hcr]. unfold pipe_reads.
  destruct (decode Strict bs) as [t|] eqn:D; [|contradiction].
  rewrite (translate_no_cr t (decode_no_cr bs t D Hcr)).
  apply (serve_text READ_SIZE s fd); auto.
  - unfold READ_SIZE. lia.
  - now apply decode_encode.
Qed.

Lemma gate_serves_writers (bss : list (list byte)) (s : Session) (fd : Z) :
  running s = true -> master_fd s = Some fd -> Forall plain_utf8 bss ->
  forall w,
    exists w',
      input_gate_loop (map writer bss) s w = AwaitingWriter w' /\
      w_master_in w' = w_master_in w ++ List.concat bss /\
      w_sleeps w' = w_sleeps w.
Proof.
  intros R Hfd. induction 1 as [|bs bss Hbs _ IH]; intros w.
  - exists w. cbn. rewrite R, app_nil_r. auto.
  - destruct (serve_writer bs s fd w R Hfd Hbs) as (w1 & Hs & Hm & Hz).
    destruct (IH w1) as (w' & Hg & Hm' & Hz').
    exists w'. cbn [map input_gate_loop writer List.concat] in *.
    rewrite R, Hs. cbn [negb]. rewrite Hg, Hm', Hm, Hz', Hz, <- app_assoc. auto.
Qed.

End GateFacts.

Module InputGate.
Import GateFacts.

(** Claim C5, as stated, fails: the gate does not forward every byte
    sequence unchanged.  A single carriage return written to the pipe
    reaches the child as a line feed. *)
Lemma carriage_return_not_forwarded : ~ forwards_verbatim.
Proof.
  intros H.
  specialize (H [x0d] sample_session sample_world 5 eq_refl eq_refl).
  vm_compute in H. discriminate H.
Qed.

(** Claim C5, amended.  While the session runs and holds the PTY master,
    for every sequence of writers each of which writes UTF-8 text without a
    carriage return and disconnects, the bytes written to the PTY master
    are the bytes of the writers, unchanged, unframed and in order; no
    error pause occurs; and after the last writer has gone the gate is
    waiting for the next one, however many writers there were. *)
Theorem gate_forwards_plain_utf8 (bss : list (list byte)) (s : Session)
    (w : World) (fd : Z) :
  running s = true -> master_fd s = Some fd -> Forall plain_utf8 bss ->
  exists w',
    input_gate_thread (map writer bss) s w = AwaitingWriter w' /\
    w_master_in w' = w_master_in w ++ List.concat bss /\
    w_sleeps w' = w_sleeps w.
Proof.
  intros R Hfd Hall. unfold input_gate_thread.
  destruct (gate_serves_writers bss s fd R Hfd Hall
              (say (MsgListening (input_pipe s)) w)) as (w' & Hg & Hm & Hz).
  exists w'. auto.
Qed.

(** Two writers in a row, one sending [y], the next a newline. *)
Lemma gate_forwards_plain_utf8_witness :
  exists w',
    input_gate_thread (map writer [[x79]; [x0a]]) sample_session sample_world
    = AwaitingWriter w' /\
    w_master_in w' = [x79; x0a].
Proof.
  destruct (gate_forwards_plain_utf8 [[x79]; [x0a]] sample_session sample_world 5
              eq_refl eq_refl)
    as (w' & Hg & Hm & _).
  - repeat constructor; try (vm_compute; discriminate);
      intros [H | []]; discriminate H.
  - exists w'. split; [exact Hg | exact Hm].
Defined.

End InputGate.

(** ** Transient errors *)

Module Errors.
Import ProtocolFacts.

Lemma said_app (a b : list ConsoleWrite) : said (a ++ b) = said a ++ said b.
Proof.
  induction a as [|[t|m] a IH]; cbn; [reflexivity|exact IH|now rewrite IH].
Qed.

Lemma drain_paused_silent (r : Ready) (s : Session) (w : World) :
  said (w_console (drain_paused r s w)) = said (w_console w).
Proof.
  unfold drain_paused. destruct (master_fd s); [|reflexivity].
  destruct r as [|[data|]]; try reflexivity.
  destruct (nonempty data); [|reflexivity].
  cbn. rewrite said_app. cbn. apply app_nil_r.
Qed.

(** Claim C6, as stated, fails: a PTY read error in the control loop is
    not retried, it ends the loop although the child is alive. *)
Lemma pty_read_error_ends_loop : ~ transient_errors_retried.
Proof.
  intros (_ & _ & H).
  destruct (H sample_read_error [] sample_session sample_world eq_refl eq_refl)
    as (s' & w' & E).
  cbn in E. discriminate E.
Qed.

(** Claim C6, amended.  None of the transient errors leaves its component
    as an exception.  In the wait loop a failed read of the status record
    is passed over in silence and the record is read again in the next
    iteration, and a failed PTY read is passed over in silence.  In the
    input gate an error while opening or reading the pipe is printed,
    followed by a pause of POLL_INTERVAL and the next attempt to open the
    pipe.  In the control loop a failed PTY read ends the loop, without a
    message and with the session and the world as they were. *)
Theorem transient_errors_handled :
  (forall ev rest s w,
     running s = true -> read_fails (status_seen ev w) ->
     let w2 := agent_writes (pe_agent ev) (drain_paused (pe_ready ev) s w) in
     wait_for_ai (ev :: rest) s w = wait_for_ai rest s w2 /\
     said (w_console w2) = said (w_console w)) /\
  (forall s w fd,
     master_fd s = Some fd -> drain_paused (Readable OSError) s w = w) /\
  (forall e rest s w,
     running s = true ->
     input_gate_loop (OpenFailed e :: rest) s w
     = input_gate_loop rest s (sleep POLL_INTERVAL (say (MsgGateError e) w))) /\
  (forall e reads rest s w,
     running s = true ->
     input_gate_loop (Opened (Failed e :: reads) :: rest) s w
     = input_gate_loop rest s (sleep POLL_INTERVAL (say (MsgGateError e) w))) /\
  (forall ev rest s w,
     me_alive ev = true -> me_ready ev = Readable OSError ->
     main_loop (ev :: rest) s w = ReadFailed s w).
Proof.
  split; [|split; [|split; [|split]]].
  - intros ev rest s w R Hfail. cbn zeta. split.
    + cbn [wait_for_ai]. rewrite R. cbn [negb].
      assert (E : ai_responded
                    (agent_writes (pe_agent ev) (drain_paused (pe_ready ev) s w))
                  = None).
      { unfold ai_responded. rewrite status_seen_spec.
        destruct (status_seen ev w) as [| |[]]; cbn in *; auto; contradiction. }
      now rewrite E.
    + destruct (agent_writes_frame (pe_agent ev) (drain_paused (pe_ready ev) s w))
        as (_ & _ & -> & _).
      apply drain_paused_silent.
  - intros s w fd Hfd. unfold drain_paused. now rewrite Hfd.
  - intros e rest s w R. cbn [input_gate_loop]. unfold gate_error.
    now rewrite R.
  - intros e reads rest s w R. cbn [input_gate_loop serve]. unfold gate_error.
    now rewrite R.
  - intros ev rest s w Ha Hr. cbn [main_loop]. unfold main_iter.
    now rewrite Ha, Hr.
Qed.

(** Each kind of transient error on the sample session. *)
Lemma transient_errors_handled_witness :
  wait_for_ai [sample_partial_ev] sample_paused sample_world
  = wait_for_ai [] sample_paused
      (agent_writes (pe_agent sample_partial_ev)
         (drain_paused (pe_ready sample_partial_ev) sample_paused sample_world)) /\
  drain_paused (Readable OSError) sample_paused sample_world = sample_world /\
  input_gate_loop [OpenFailed (py "EIO")] sample_session sample_world
  = input_gate_loop [] sample_session
      (sleep POLL_INTERVAL (say (MsgGateError (py "EIO")) sample_world)) /\
  input_gate_loop [Opened [Failed (py "EIO")]] sample_session sample_world
  = input_gate_loop [] sample_session
      (sleep POLL_INTERVAL (say (MsgGateError (py "EIO")) sample_world)) /\
  main_loop [sample_read_error; sample_silence_ev] sample_session sample_world
  = ReadFailed sample_session sample_world.
Proof.
  destruct transient_errors_handled as (H1 & H2 & H3 & H4 & H5).
  split; [|split; [|split; [|split]]].
  - exact (proj1 (H1 sample_partial_ev [] sample_paused sample_world eq_refl I)).
  - exact (H2 sample_paused sample_world 5 eq_refl).
  - exact (H3 (py "EIO") [] sample_session sample_world eq_refl).
  - exact (H4 (py "EIO") [] [] sample_session sample_world eq_refl).
  - exact (H5 sample_read_error [sample_silence_ev] sample_session sample_world
             eq_refl eq_refl).
Defined.

End Errors.

(** * Further properties of the runner *)

(** ** Status record and log *)

Module RecordFacts.
Import ProtocolFacts WatchdogFacts.

(** Reading back what [update_status] wrote: every fixed field has the
    value of the call, and [reason] and [info] are there exactly when a
    non-empty text was given; a reader gets Python's [None] otherwise. *)
Theorem status_record_read_back (st : State) (reason info : option str)
    (now : Z) (s : Session) (w : World) :
  let c := status_json (w_dir (snd (update_status st reason info now s w))) in
  let given o := match o with
                 | Some t => if truthy t then JStr t else JNull
                 | None => JNull
                 end in
  field_of "state" c = Some (JStr (state_name st)) /\
  field_of "updated_at" c = Some (JNum now) /\
  field_of "runner_pid" c = Some (JNum (w_pid w)) /\
  field_of "child_pid" c
    = Some (match process s with Some p => JNum p | None => JNull end) /\
  field_of "cmd" c = Some (JStr (cmd s)) /\
  field_of "input_pipe" c = Some (JStr (input_pipe s)) /\
  field_of "reason" c = Some (given reason) /\
  field_of "info" c = Some (given info).
Proof.
  cbn zeta. repeat split; try reflexivity.
  - destruct reason as [r|]; [destruct r|]; destruct info as [i|];
      try destruct i; reflexivity.
  - destruct reason as [r|]; [destruct r|]; destruct info as [i|];
      try destruct i; reflexivity.
Qed.

Lemma log_output_text (text : str) (w : World) :
  log_text (log_output text w) = log_text w ++ text /\
  echoed (w_console (log_output text w)) = echoed (w_console w).
Proof.
  unfold log_text, log_output. cbn. now destruct (output_log (w_dir w)).
Qed.

(** What the wait loop adds to the log it adds to the console echo. *)
Lemma wait_for_ai_log_echo (evs : list PauseEv) (s : Session) :
  forall w, exists d,
    log_text (waited_world (wait_for_ai evs s w)) = log_text w ++ d /\
    echoed (w_console (waited_world (wait_for_ai evs s w)))
    = echoed (w_console w) ++ d.
Proof.
  induction evs as [|ev rest IH]; intros w; cbn [wait_for_ai];
    destruct (running s); cbn [negb];
    try (exists []; cbn; now rewrite !app_nil_r).
  assert (H1 : exists d1,
             log_text (drain_paused (pe_ready ev) s w) = log_text w ++ d1 /\
             echoed (w_console (drain_paused (pe_ready ev) s w))
             = echoed (w_console w) ++ d1).
  { destruct (master_fd s) as [fd|] eqn:Hfd.
    - exists (drained (pe_ready ev)).
      apply (drain_paused_output (pe_ready ev) s w fd Hfd).
    - exists []. unfold drain_paused. rewrite Hfd. cbn. now rewrite !app_nil_r. }
  destruct H1 as (d1 & Hl1 & He1).
  destruct (agent_writes_frame (pe_agent ev) (drain_paused (pe_ready ev) s w))
    as (_ & _ & Hc2 & Hl2).
  set (w2 := agent_writes (pe_agent ev) (drain_paused (pe_ready ev) s w)) in *.
  assert (Hl : log_text w2 = log_text w ++ d1)
    by (unfold log_text in *; now rewrite Hl2).
  assert (He : echoed (w_console w2) = echoed (w_console w) ++ d1) by congruence.
  destruct (ai_responded w2) as [[|]|].
  - exists d1. cbn. rewrite echoed_app. cbn. rewrite app_nil_r. split; auto.
  - destruct (IH w2) as (d & Hld & Hed). exists (d1 ++ d).
    rewrite Hld, Hed, Hl, He, !app_assoc. auto.
  - destruct (IH w2) as (d & Hld & Hed). exists (d1 ++ d).
    rewrite Hld, Hed, Hl, He, !app_assoc. auto.
Qed.

Lemma trigger_ai_log_echo (reason : str) (env : TriggerEnv) (s : Session)
    (w : World) :
  exists d,
    log_text (waited_world (trigger_ai reason env s w)) = log_text w ++ d /\
    echoed (w_console (waited_world (trigger_ai reason env s w)))
    = echoed (w_console w) ++ d.
Proof.
  unfold trigger_ai. destruct (state s).
  - cbn [update_status].
    match goal with |- context [wait_for_ai ?e ?s0 ?w0] =>
      destruct (wait_for_ai_log_echo e s0 w0) as (d & Hl & He);
      assert (Hl0 : log_text w0 = log_text w)
        by (change (cron_id (set_state WAITING_FOR_AI s)) with (cron_id s);
            destruct (cron_id s) as [id|];
              [destruct (truthy id); [destruct (te_cmd_err env)|]|];
            reflexivity);
      assert (He0 : echoed (w_console w0) = echoed (w_console w))
        by (change (cron_id (set_state WAITING_FOR_AI s)) with (cron_id s);
            destruct (cron_id s) as [id|];
              [destruct (truthy id); [destruct (te_cmd_err env)|]|];
            cbn; rewrite !echoed_app; cbn; now rewrite !app_nil_r)
    end.
    exists d. now rewrite Hl, He, Hl0, He0.
  - exists []. cbn. now rewrite !app_nil_r.
Qed.

Lemma main_iter_log_echo (ev : MainEv) (s : Session) (w : World) :
  exists d,
    log_text (iter_world (main_iter ev s w)) = log_text w ++ d /\
    echoed (w_console (iter_world (main_iter ev s w))) = echoed (w_console w) ++ d.
Proof.
  unfold main_iter.
  destruct (drain (me_ready ev) (me_t_activity ev) s w) as [[s1 w1]|] eqn:D.
  2:{ exists []. cbn. now rewrite !app_nil_r. }
  assert (H1 : exists d1, log_text w1 = log_text w ++ d1 /\
                          echoed (w_console w1) = echoed (w_console w) ++ d1).
  { unfold drain in D. destruct (me_ready ev) as [|[data|]]; [| |discriminate].
    - injection D as <- <-. exists []. now rewrite !app_nil_r.
    - destruct (nonempty data); injection D as <- <-.
      + exists (decode_replace data).
        destruct (log_output_text (decode_replace data)
                    (echo (decode_replace data) w)) as [-> ->].
        cbn. rewrite echoed_app. cbn. now rewrite app_nil_r.
      + exists []. now rewrite !app_nil_r. }
  destruct H1 as (d1 & Hl1 & He1). unfold check_timers.
  destruct (io_wait_due (me_now ev) s1).
  - destruct (trigger_ai_log_echo IO_WAIT (me_trigger ev) s1 w1) as (d & Hl & He).
    exists (d1 ++ d).
    destruct (trigger_ai IO_WAIT (me_trigger ev) s1 w1); cbn in *;
      rewrite Hl, He, Hl1, He1, !app_assoc; auto.
  - destruct (stall_due (me_now ev) s1).
    + destruct (trigger_ai_log_echo STALL (me_trigger ev) s1 w1) as (d & Hl & He).
      exists (d1 ++ d).
      destruct (trigger_ai STALL (me_trigger ev) s1 w1); cbn in *;
        rewrite Hl, He, Hl1, He1, !app_assoc; auto.
    + exists d1. auto.
Qed.

Lemma main_loop_log_echo (evs : list MainEv) (s : Session) (w : World) :
  exists d,
    log_text (loop_world (main_loop evs s w)) = log_text w ++ d /\
    echoed (w_console (loop_world (main_loop evs s w)))
    = echoed (w_console w) ++ d.
Proof.
  revert s w. induction evs as [|ev rest IH]; intros s w; cbn [main_loop].
  - exists []. cbn. now rewrite !app_nil_r.
  - destruct (me_alive ev); [|exists []; cbn; now rewrite !app_nil_r].
    destruct (main_iter_log_echo ev s w) as (d1 & Hl1 & He1).
    destruct (main_iter ev s w) as [s' w'|s' w'|s' w']; cbn in Hl1, He1.
    + destruct (IH s' w') as (d & Hl & He). exists (d1 ++ d).
      rewrite Hl, He, Hl1, He1, !app_assoc. auto.
    + exists d1. auto.
    + exists d1. auto.
Qed.

(** Over the whole control loop, pauses included, the log file and the
    console receive the same output of the child in the same order, after
    what they held before: nothing in the log is rewritten and nothing is
    echoed without being logged. *)
Theorem log_matches_console (evs : list MainEv) (s : Session) (w : World) :
  exists d,
    log_text (loop_world (main_loop evs s w)) = log_text w ++ d /\
    echoed (w_console (loop_world (main_loop evs s w)))
    = echoed (w_console w) ++ d.
Proof. exact (main_loop_log_echo evs s w). Qed.

End RecordFacts.

(** ** Triggers and the control loop *)

Module LoopFacts.
Import ProtocolFacts WatchdogFacts.

Lemma wait_for_ai_calls (evs : list PauseEv) (s : Session) :
  forall w,
    w_cron_calls (waited_world (wait_for_ai evs s w)) = w_cron_calls w /\
    w_master_in (waited_world (wait_for_ai evs s w)) = w_master_in w.
Proof.
  induction evs as [|ev rest IH]; intros w; cbn [wait_for_ai];
    destruct (running s); cbn [negb]; auto.
  destruct (drain_paused_frame (pe_ready ev) s w)
    as (_ & _ & _ & _ & _ & _ & Hc & Hm).
  set (w1 := drain_paused (pe_ready ev) s w) in *.
  assert (Hc2 : w_cron_calls (agent_writes (pe_agent ev) w1) = w_cron_calls w)
    by (destruct (pe_agent ev); exact Hc).
  assert (Hm2 : w_master_in (agent_writes (pe_agent ev) w1) = w_master_in w)
    by (destruct (pe_agent ev); exact Hm).
  destruct (ai_responded (agent_writes (pe_agent ev) w1)) as [[|]|].
  - cbn. auto.
  - destruct (IH (agent_writes (pe_agent ev) w1)) as [-> ->]. auto.
  - destruct (IH (agent_writes (pe_agent ev) w1)) as [-> ->]. auto.
Qed.

(** The world in which [trigger_ai] starts to wait. *)
Lemma trigger_ai_before_wait (reason : str) (env : TriggerEnv) (s : Session)
    (w : World) :
  state s = MONITORING ->
  exists w0,
    trigger_ai reason env s w
    = wait_for_ai (te_pause env) (set_state WAITING_FOR_AI s) w0 /\
    w_pid w0 = w_pid w /\
    w_status_hist w0 = w_status_hist w ++
      [Malformed [];
       Holds (status_record s WAITING_FOR_AI (Some reason) None (te_now env)
                (w_pid w))] /\
    w_cron_calls w0 = w_cron_calls w ++ force_run_calls s /\
    said (w_console w0)
    = said (w_console w) ++ [MsgTriggering reason]
      ++ match force_run_calls s with
         | [] => [MsgNoCronId]
         | _ => match te_cmd_err env with Some e => [MsgCmdError e] | None => [] end
         end
      ++ [MsgWaiting].
Proof.
  intros Hst. unfold trigger_ai. rewrite Hst. cbn [update_status].
  change (cron_id (set_state WAITING_FOR_AI s)) with (cron_id s).
  eexists. split; [reflexivity|]. unfold force_run_calls.
  destruct (cron_id s) as [id|];
    [destruct (truthy id); [destruct (te_cmd_err env)|]|];
    cbn; rewrite ?Errors.said_app, <- ?app_assoc, ?app_nil_r; cbn;
    repeat split; try reflexivity;
    rewrite ?Errors.said_app, <- ?app_assoc; reflexivity.
Qed.

Lemma wait_for_ai_said (evs : list PauseEv) (s : Session) :
  forall w, exists l,
    said (w_console (waited_world (wait_for_ai evs s w)))
    = said (w_console w) ++ l.
Proof.
  induction evs as [|ev rest IH]; intros w; cbn [wait_for_ai];
    destruct (running s); cbn [negb];
    try (exists []; cbn; now rewrite app_nil_r).
  assert (Hs : said (w_console (agent_writes (pe_agent ev)
                                  (drain_paused (pe_ready ev) s w)))
               = said (w_console w)).
  { destruct (agent_writes_frame (pe_agent ev) (drain_paused (pe_ready ev) s w))
      as (_ & _ & -> & _).
    apply Errors.drain_paused_silent. }
  set (w2 := agent_writes (pe_agent ev) (drain_paused (pe_ready ev) s w)) in *.
  destruct (ai_responded w2) as [[|]|].
  - exists [MsgAIFinished]. cbn. now rewrite Errors.said_app, Hs.
  - destruct (IH w2) as (l & ->). exists l. now rewrite Hs.
  - destruct (IH w2) as (l & ->). exists l. now rewrite Hs.
Qed.

(** The shape of one evaluation of the timers: what it leaves of the
    session and what it adds to the history of the status record. *)
Lemma check_timers_cases (now : Z) (env : TriggerEnv) (t_after : Z)
    (s : Session) (w : World) :
  let i := check_timers now env t_after s w in
  let s' := iter_session i in
  let w' := iter_world i in
  let waiting reason :=
    Holds (status_record s WAITING_FOR_AI (Some reason) None (te_now env) (w_pid w)) in
  (last_log_chunk s' = [] \/ last_log_chunk s' = last_log_chunk s) /\
  running s' = running s /\
  match i with Broke _ _ => False | _ => True end /\
  ((w_status_hist w' = w_status_hist w /\ state s' = state s /\
    (state s = MONITORING -> i = Continue s w)) \/
   (state s = MONITORING /\
    exists reason,
      (reason = IO_WAIT /\ io_wait_due now s = true \/
       reason = STALL /\ io_wait_due now s = false /\ stall_due now s = true) /\
      ((w_status_hist w' = w_status_hist w ++ [Malformed []; waiting reason] /\
        state s' = WAITING_FOR_AI /\
        (running s = false /\ (exists sc wc, i = Continue sc wc) \/
         running s = true /\ (exists sp wp, i = Blocked sp wp))) \/
       (exists t,
          w_status_hist w' = w_status_hist w ++
            [Malformed []; waiting reason; Malformed [];
             Holds (status_record s MONITORING None (Some RESUMED) t (w_pid w))] /\
          state s' = MONITORING /\ last_log_chunk s' = [] /\
          running s = true /\ (exists sc wc, i = Continue sc wc))))).
Proof.
  cbn zeta. unfold check_timers.
  assert (T : forall reason,
     state s = MONITORING ->
     let r := trigger_ai reason env s w in
     (running s = false /\ r = Returned (set_state WAITING_FOR_AI s) (waited_world r) /\
      w_status_hist (waited_world r) = w_status_hist w ++
        [Malformed [];
         Holds (status_record s WAITING_FOR_AI (Some reason) None (te_now env) (w_pid w))]) \/
     (running s = true /\ r = StillWaiting (set_state WAITING_FOR_AI s) (waited_world r) /\
      w_status_hist (waited_world r) = w_status_hist w ++
        [Malformed [];
         Holds (status_record s WAITING_FOR_AI (Some reason) None (te_now env) (w_pid w))]) \/
     (running s = true /\ exists ev,
        r = Returned (resumed (pe_now ev) s) (waited_world r) /\
        w_status_hist (waited_world r) = w_status_hist w ++
          [Malformed [];
           Holds (status_record s WAITING_FOR_AI (Some reason) None (te_now env) (w_pid w));
           Malformed [];
           Holds (status_record s MONITORING None (Some RESUMED) (pe_t_status ev) (w_pid w))])).
  { intros reason Hst. cbn zeta.
    destruct (trigger_ai_before_wait reason env s w Hst) as (w0 & -> & Hp & Hh & _).
    pose proof (wait_for_ai_inv (te_pause env) (set_state WAITING_FOR_AI s) w0) as I.
    destruct (wait_for_ai (te_pause env) (set_state WAITING_FOR_AI s) w0)
      as [sr wr|sr wr]; cbn [waited_world].
    - destruct I as [(R & -> & ->) | (R & ev & _ & -> & _ & Hh')].
      + left. auto.
      + right. right. split; [exact R|]. exists ev. split; [reflexivity|].
        rewrite Hh', Hh, Hp, <- app_assoc. reflexivity.
    - destruct I as (R & -> & _ & Hh'). right. left.
      split; [exact R|]. split; [reflexivity|]. congruence. }
  destruct (state s) eqn:Hst.
  - (* MONITORING *)
    destruct (io_wait_due now s) eqn:Hio; [|destruct (stall_due now s) eqn:Hsd].
    + destruct (T IO_WAIT eq_refl) as [(R & -> & Hh) | [(R & -> & Hh) | (R & ev & -> & Hh)]];
        cbn [iter_session iter_world].
      * split; [now left|]. split; [reflexivity|]. split; [exact I|]. right.
        split; [reflexivity|]. exists IO_WAIT. split; [now left|]. left.
        split; [exact Hh|]. split; [reflexivity|]. left. eauto.
      * split; [now right|]. split; [reflexivity|]. split; [exact I|]. right.
        split; [reflexivity|]. exists IO_WAIT. split; [now left|]. left.
        split; [exact Hh|]. split; [reflexivity|]. right. eauto.
      * split; [now left|]. split; [reflexivity|]. split; [exact I|]. right.
        split; [reflexivity|]. exists IO_WAIT. split; [now left|]. right.
        exists (pe_t_status ev). repeat split; eauto.
    + destruct (T STALL eq_refl) as [(R & -> & Hh) | [(R & -> & Hh) | (R & ev & -> & Hh)]];
        cbn [iter_session iter_world].
      * split; [now right|]. split; [reflexivity|]. split; [exact I|]. right.
        split; [reflexivity|]. exists STALL. split; [right; auto|]. left.
        split; [exact Hh|]. split; [reflexivity|]. left. eauto.
      * split; [now right|]. split; [reflexivity|]. split; [exact I|]. right.
        split; [reflexivity|]. exists STALL. split; [right; auto|]. left.
        split; [exact Hh|]. split; [reflexivity|]. right. eauto.
      * split; [now left|]. split; [reflexivity|]. split; [exact I|]. right.
        split; [reflexivity|]. exists STALL. split; [right; auto|]. right.
        exists (pe_t_status ev). repeat split; eauto.
    + cbn. split; [now right|]. split; [reflexivity|]. split; [exact I|].
      left. auto.
  - (* WAITING_FOR_AI: the trigger returns at once *)
    assert (E : forall reason, trigger_ai reason env s w = Returned s w)
      by (intros reason; unfold trigger_ai; now rewrite Hst).
    rewrite !E.
    destruct (io_wait_due now s); [|destruct (stall_due now s)]; cbn;
      (split; [auto|]); (split; [reflexivity|]); (split; [exact I|]);
      left; (split; [reflexivity|]); (split; [assumption|]); discriminate.
Qed.

End LoopFacts.

Module Loop.
Import ProtocolFacts WatchdogFacts LoopFacts.

(** A trigger from MONITORING calls the CLI exactly when a non-empty cron
    id is stored: then the one call is [cron run --force <id>]; without an
    id no call is made and the lack of an id is printed.  In both cases the
    status record is rewritten to WAITING_FOR_AI with the reason, and the
    wait loop adds no CLI call. *)
Theorem trigger_force_run (reason : str) (env : TriggerEnv) (s : Session)
    (w : World) :
  state s = MONITORING ->
  let w' := waited_world (trigger_ai reason env s w) in
  w_cron_calls w' = w_cron_calls w ++ force_run_calls s /\
  (force_run_calls s = [] -> In MsgNoCronId (said (w_console w'))) /\
  exists tail,
    written_since w w'
    = Malformed []
      :: Holds (status_record s WAITING_FOR_AI (Some reason) None (te_now env)
                  (w_pid w))
      :: tail.
Proof.
  intros Hst. cbn zeta.
  destruct (trigger_ai_before_wait reason env s w Hst)
    as (w0 & E & Hp & Hh & Hc & Hs).
  destruct (wait_for_ai_calls (te_pause env) (set_state WAITING_FOR_AI s) w0)
    as [Hc' _].
  destruct (wait_for_ai_said (te_pause env) (set_state WAITING_FOR_AI s) w0)
    as (l & Hs').
  rewrite <- E in Hc', Hs'.
  split; [congruence|]. split.
  - intros Hnone. rewrite Hs', Hs, Hnone. cbn.
    rewrite !in_app_iff. cbn. tauto.
  - pose proof (trigger_ai_monitoring reason env s w Hst) as T. cbn zeta in T.
    destruct (trigger_ai reason env s w) as [sr wr|sr wr]; cbn [waited_world].
    + destruct T as [(_ & _ & ->) | (ev & _ & _ & ->)]; eauto.
    + destruct T as [_ ->]. eauto.
Qed.

Lemma ai_responded_says_done (w : World) :
  ai_responded w = Some true -> says_done (status_json (w_dir w)) = true.
Proof.
  unfold ai_responded, says_done.
  destruct (json_load (status_json (w_dir w))) as [data|]; [|discriminate].
  destruct (dict_get (py "state") data); [|discriminate].
  now intros [= ->].
Qed.

(** The wait has no timeout of its own: as long as the session is running
    and nothing that reads as AI_DONE is in the status record, the loop
    goes through every iteration of the script and is still waiting, the
    session untouched.  It is paced by the poll of the PTY; only a session
    without a PTY sleeps, once per iteration. *)
Theorem wait_is_unbounded (evs : list PauseEv) (s : Session) (w : World) :
  running s = true ->
  says_done (status_json (w_dir w)) = false ->
  no_answer evs ->
  exists w',
    wait_for_ai evs s w = StillWaiting s w' /\
    w_sleeps w'
    = w_sleeps w ++ match master_fd s with
                    | Some _ => []
                    | None => repeat POLL_INTERVAL (List.length evs)
                    end.
Proof.
  intros R. revert w. induction evs as [|ev rest IH]; intros w Hno Hall;
    cbn [wait_for_ai]; rewrite R; cbn [negb].
  - exists w. split; [reflexivity|]. destruct (master_fd s); cbn;
      now rewrite app_nil_r.
  - inversion Hall as [|? ? Hev Hrest]; subst.
    destruct (drain_paused_frame (pe_ready ev) s w) as (_ & _ & Hst & _).
    set (w1 := drain_paused (pe_ready ev) s w) in *.
    assert (Hs1 : w_sleeps w1
                  = w_sleeps w ++ match master_fd s with
                                  | Some _ => []
                                  | None => [POLL_INTERVAL]
                                  end).
    { subst w1. unfold drain_paused. destruct (master_fd s).
      - destruct (pe_ready ev) as [|[data|]]; try destruct (nonempty data);
          cbn; now rewrite app_nil_r.
      - reflexivity. }
    set (w2 := agent_writes (pe_agent ev) w1).
    assert (Hno2 : says_done (status_json (w_dir w2)) = false).
    { subst w2. destruct (pe_agent ev); cbn; [exact Hev | congruence]. }
    assert (Hs2 : w_sleeps w2 = w_sleeps w1)
      by (subst w2; now destruct (pe_agent ev)).
    destruct (ai_responded w2) as [[|]|] eqn:E.
    + apply ai_responded_says_done in E. congruence.
    + destruct (IH w2 Hno2 Hrest) as (w' & -> & Hs').
      exists w'. split; [reflexivity|]. rewrite Hs', Hs2, Hs1.
      destruct (master_fd s); cbn; now rewrite <- app_assoc.
    + destruct (IH w2 Hno2 Hrest) as (w' & -> & Hs').
      exists w'. split; [reflexivity|]. rewrite Hs', Hs2, Hs1.
      destruct (master_fd s); cbn; now rewrite <- app_assoc.
Qed.

Lemma main_iter_split (ev : MainEv) (s : Session) (w : World) :
  main_iter ev s w = Broke s w \/
  exists s1 w1,
    drain (me_ready ev) (me_t_activity ev) s w = Some (s1, w1) /\
    main_iter ev s w
    = check_timers (me_now ev) (me_trigger ev) (me_t_after ev) s1 w1.
Proof.
  unfold main_iter.
  destruct (drain (me_ready ev) (me_t_activity ev) s w) as [[s1 w1]|];
    [right; eauto | now left].
Qed.

Lemma main_loop_monitoring (evs : list MainEv) (s : Session) (w : World) :
  state s = MONITORING -> running s = true ->
  match main_loop evs s w with
  | Paused s' _ => state s' = WAITING_FOR_AI /\ running s' = true
  | ChildExited s' _ | ReadFailed s' _ | Looping s' _ =>
      state s' = MONITORING /\ running s' = true
  end.
Proof.
  revert s w. induction evs as [|ev rest IH]; intros s w Hst R;
    cbn [main_loop]; [auto|].
  destruct (me_alive ev); [|auto].
  destruct (main_iter ev s w) as [s' w'|s' w'|s' w'] eqn:E.
  - destruct (main_iter_keeps_monitoring ev s s' w w' Hst R E). now apply IH.
  - destruct (main_iter_split ev s w) as [B | (s1 & w1 & D & C)].
    + rewrite E in B. injection B as -> ->. auto.
    + rewrite E in C.
      pose proof (check_timers_cases (me_now ev) (me_trigger ev) (me_t_after ev)
                    s1 w1) as (_ & _ & F & _).
      rewrite <- C in F. contradiction.
  - destruct (main_iter_split ev s w) as [B | (s1 & w1 & D & C)];
      [rewrite E in B; discriminate|].
    destruct (drain_frame _ _ _ _ _ _ D) as (Hst1 & R1 & _).
    pose proof (check_timers_cases (me_now ev) (me_trigger ev) (me_t_after ev)
                  s1 w1) as (_ & Hr & _ & H).
    cbn zeta in Hr, H. rewrite <- C, E in Hr, H. cbn [iter_session] in Hr, H.
    split; [|congruence].
    destruct H as [(_ & _ & Hc) | (_ & reason & _ & [(_ & Hw & _) | (t & _ & _ & _ & _ & sc & wc & Hk)])].
    + assert (Hm : state s1 = MONITORING) by congruence.
      specialize (Hc Hm). discriminate Hc.
    + exact Hw.
    + discriminate Hk.
Qed.

(** In a running session the control loop makes every check of the timers
    in MONITORING, so the guard of [trigger_ai] against a second trigger
    is never taken from the loop: whenever the loop is between iterations
    or has been left, the session is in MONITORING, and it is in
    WAITING_FOR_AI exactly while the loop is inside [trigger_ai]. *)
Theorem loop_keeps_monitoring (evs : list MainEv) (s : Session) (w : World) :
  state s = MONITORING -> running s = true ->
  match main_loop evs s w with
  | Paused s' _ => state s' = WAITING_FOR_AI /\ running s' = true
  | ChildExited s' _ | ReadFailed s' _ | Looping s' _ =>
      state s' = MONITORING /\ running s' = true
  end.
Proof. exact (main_loop_monitoring evs s w). Qed.

Lemma last_two {A} (l : list A) (a b d : A) : last (l ++ [a; b]) d = b.
Proof.
  change [a; b] with ([a] ++ [b]). rewrite app_assoc. apply last_last.
Qed.

Lemma last_four {A} (l : list A) (a b c e d : A) :
  last (l ++ [a; b; c; e]) d = e.
Proof.
  change [a; b; c; e] with ([a; b; c] ++ [e]). rewrite app_assoc.
  apply last_last.
Qed.

Lemma main_iter_in_sync (ev : MainEv) (s : Session) (w : World) :
  in_sync s w ->
  in_sync (iter_session (main_iter ev s w)) (iter_world (main_iter ev s w)).
Proof.
  intros Hsync.
  destruct (main_iter_split ev s w) as [-> | (s1 & w1 & D & ->)]; [exact Hsync|].
  destruct (drain_frame _ _ _ _ _ _ D) as (Hst1 & _ & _ & _ & Hh & _).
  assert (Hsync1 : in_sync s1 w1)
    by (unfold in_sync, announced_state in *; now rewrite Hh, Hst1).
  pose proof (check_timers_cases (me_now ev) (me_trigger ev) (me_t_after ev) s1 w1)
    as (_ & _ & _ & H).
  cbn zeta in H. unfold in_sync, announced_state in *.
  destruct H as [(Hh' & Hs' & _) |
                 (_ & reason & _ & [(Hh' & Hs' & _) | (t & Hh' & Hs' & _)])];
    rewrite Hh', Hs'.
  - exact Hsync1.
  - rewrite last_two. reflexivity.
  - rewrite last_four. reflexivity.
Qed.

Lemma main_loop_in_sync (evs : list MainEv) (s : Session) (w : World) :
  in_sync s w ->
  in_sync (loop_session (main_loop evs s w)) (loop_world (main_loop evs s w)).
Proof.
  revert s w. induction evs as [|ev rest IH]; intros s w Hsync;
    cbn [main_loop]; [exact Hsync|].
  destruct (me_alive ev); [|exact Hsync].
  pose proof (main_iter_in_sync ev s w Hsync) as H.
  destruct (main_iter ev s w) as [s' w'|s' w'|s' w']; cbn in H; auto.
Qed.

(** The state the runner holds in memory and the state in the last status
    record it wrote agree whenever the control loop is observed: between
    iterations, while it waits for the agent, and when the loop is left. *)
Theorem status_record_in_sync (evs : list MainEv) (s : Session) (w : World) :
  in_sync s w ->
  in_sync (loop_session (main_loop evs s w)) (loop_world (main_loop evs s w)).
Proof. exact (main_loop_in_sync evs s w). Qed.

Lemma silent_drain (ev : MainEv) (s s1 : Session) (w w1 : World) :
  drained (me_ready ev) = [] -> last_log_chunk s = [] ->
  drain (me_ready ev) (me_t_activity ev) s w = Some (s1, w1) ->
  last_log_chunk s1 = [] /\ w_status_hist w1 = w_status_hist w.
Proof.
  unfold drained, drain. intros Hd Hc.
  destruct (me_ready ev) as [|[data|]]; [| |discriminate].
  - now intros [= <- <-].
  - destruct (nonempty data); intros [= <- <-]; auto.
Qed.

Lemma silent_loop_hist (evs : list MainEv) :
  forall s w,
    last_log_chunk s = [] -> silent evs ->
    exists l,
      w_status_hist (loop_world (main_loop evs s w)) = w_status_hist w ++ l /\
      Forall (fun c => field_of "reason" c <> Some (JStr IO_WAIT)) l.
Proof.
  induction evs as [|ev rest IH]; intros s w Hc Hs; cbn [main_loop].
  - exists []. cbn. now rewrite app_nil_r.
  - inversion Hs as [|? ? Hev Hrest]; subst.
    destruct (me_alive ev); [|exists []; cbn; now rewrite app_nil_r].
    destruct (main_iter_split ev s w) as [-> | (s1 & w1 & D & ->)].
    { exists []. cbn. now rewrite app_nil_r. }
    destruct (silent_drain ev s s1 w w1 Hev Hc D) as [Hc1 Hh1].
    pose proof (check_timers_cases (me_now ev) (me_trigger ev) (me_t_after ev) s1 w1)
      as (Hchunk & _ & _ & H).
    cbn zeta in Hchunk, H.
    assert (Hc' : last_log_chunk (iter_session (check_timers (me_now ev)
                    (me_trigger ev) (me_t_after ev) s1 w1)) = [])
      by (destruct Hchunk; congruence).
    assert (Hl : exists l1,
               w_status_hist (iter_world (check_timers (me_now ev) (me_trigger ev)
                                            (me_t_after ev) s1 w1))
               = w_status_hist w ++ l1 /\
               Forall (fun c => field_of "reason" c <> Some (JStr IO_WAIT)) l1).
    { destruct H as [(Hh' & _) | (_ & reason & Hr & Hcase)].
      - exists []. rewrite Hh', Hh1, app_nil_r. auto.
      - destruct Hr as [[_ Hio] | (-> & _ & _)].
        { rewrite io_wait_due_empty in Hio by exact Hc1. discriminate. }
        destruct Hcase as [(Hh' & _) | (t & Hh' & _)]; rewrite Hh', Hh1;
          eexists; (split; [reflexivity|]);
          repeat constructor; cbn; discriminate. }
    destruct Hl as (l1 & Hh' & Hall).
    destruct (check_timers (me_now ev) (me_trigger ev) (me_t_after ev) s1 w1)
      as [s' w'|s' w'|s' w']; cbn [iter_session iter_world loop_world] in *.
    + destruct (IH s' w' Hc' Hrest) as (l2 & Hh2 & Hall2).
      exists (l1 ++ l2). rewrite Hh2, Hh', <- app_assoc.
      split; [reflexivity | now apply Forall_app].
    + eauto.
    + eauto.
Qed.

(** IO_WAIT fires at most once for a chunk: once the last chunk is empty
    (at the start, and after every IO_WAIT), no status record with the
    reason IO_WAIT is written as long as the child prints nothing, however
    many iterations and STALL pauses go by. *)
Theorem io_wait_once_per_chunk (evs : list MainEv) (s : Session) (w : World) :
  last_log_chunk s = [] -> silent evs ->
  Forall (fun c => field_of "reason" c <> Some (JStr IO_WAIT))
    (written_since w (loop_world (main_loop evs s w))).
Proof.
  intros Hc Hs. destruct (silent_loop_hist evs s w Hc Hs) as (l & Hh & Hall).
  now rewrite (written_since_app _ _ _ Hh).
Qed.

(** An iteration in which the PTY has nothing to read changes nothing at
    all (no field, no file, no print) exactly when neither timer is due. *)
Theorem quiet_iteration_iff (ev : MainEv) (s : Session) (w : World) :
  state s = MONITORING -> me_ready ev = NotReadable ->
  (main_iter ev s w = Continue s w <->
   io_wait_due (me_now ev) s = false /\ stall_due (me_now ev) s = false).
Proof.
  intros Hst Hr. unfold main_iter, drain. rewrite Hr.
  pose proof (check_timers_cases (me_now ev) (me_trigger ev) (me_t_after ev) s w)
    as (_ & _ & _ & H).
  cbn zeta in H. split.
  - intros E. rewrite E in H. cbn [iter_session iter_world] in H.
    destruct H as [(_ & _ & _) | (_ & reason & _ & [(Hh & _) | (t & Hh & _)])].
    + unfold check_timers in E.
      destruct (io_wait_due (me_now ev) s) eqn:Hio.
      { pose proof (check_timers_io_wait (me_now ev) (me_trigger ev)
                      (me_t_after ev) s w Hst Hio) as (Hw & _).
        cbn zeta in Hw. unfold check_timers in Hw. rewrite Hio, E in Hw.
        cbn [iter_world] in Hw. unfold written_since in Hw.
        rewrite skipn_all in Hw. destruct Hw as [Hw | [t Hw]]; discriminate Hw. }
      destruct (stall_due (me_now ev) s) eqn:Hsd; [|auto].
      pose proof (check_timers_stall (me_now ev) (me_trigger ev)
                    (me_t_after ev) s w Hst Hio Hsd) as (Hw & _).
      cbn zeta in Hw. unfold check_timers in Hw. rewrite Hio, Hsd, E in Hw.
      cbn [iter_world] in Hw. unfold written_since in Hw.
      rewrite skipn_all in Hw. destruct Hw as [Hw | [t Hw]]; discriminate Hw.
    + apply (f_equal (@List.length FileContent)) in Hh.
      rewrite length_app in Hh. cbn in Hh. lia.
    + apply (f_equal (@List.length FileContent)) in Hh.
      rewrite length_app in Hh. cbn in Hh. lia.
  - intros [Hio Hsd]. unfold check_timers. now rewrite Hio, Hsd.
Qed.

(** A STALL trigger of the registered sample session. *)
Lemma trigger_force_run_witness :
  w_cron_calls (waited_world
                  (trigger_ai STALL sample_trigger sample_session sample_world))
  = [force_run (py "j1")].
Proof.
  exact (proj1 (trigger_force_run STALL sample_trigger sample_session
                  sample_world eq_refl)).
Defined.

(** The agent leaves an empty file: the runner keeps waiting. *)
Lemma wait_is_unbounded_witness :
  exists w',
    wait_for_ai [sample_partial_ev] sample_paused sample_world
    = StillWaiting sample_paused w'.
Proof.
  assert (Hno : no_answer [sample_partial_ev])
    by (repeat constructor).
  destruct (wait_is_unbounded [sample_partial_ev] sample_paused sample_world
              eq_refl eq_refl Hno)
    as (w' & H & _).
  exists w'. exact H.
Defined.

(** Forty seconds of silence, then the prompt: the loop is inside the
    first trigger. *)
Lemma loop_keeps_monitoring_witness :
  match main_loop [sample_silence_ev; sample_prompt_ev] sample_session sample_world with
  | Paused s' _ => state s' = WAITING_FOR_AI /\ running s' = true
  | ChildExited s' _ | ReadFailed s' _ | Looping s' _ =>
      state s' = MONITORING /\ running s' = true
  end.
Proof.
  exact (loop_keeps_monitoring [sample_silence_ev; sample_prompt_ev]
           sample_session sample_world eq_refl eq_refl).
Defined.

(** The sample session after its start-up record. *)
Lemma status_record_in_sync_witness :
  in_sync (loop_session (main_loop [sample_silence_ev] sample_session sample_started))
          (loop_world (main_loop [sample_silence_ev] sample_session sample_started)).
Proof.
  exact (status_record_in_sync [sample_silence_ev] sample_session sample_started
           eq_refl).
Defined.

(** Silence from the start: only STALL can be written. *)
Lemma io_wait_once_per_chunk_witness :
  Forall (fun c => field_of "reason" c <> Some (JStr IO_WAIT))
    (written_since sample_world
       (loop_world (main_loop [sample_silence_ev; sample_quiet_ev]
                      sample_session sample_world))).
Proof.
  assert (Hs : silent [sample_silence_ev; sample_quiet_ev])
    by (repeat constructor).
  exact (io_wait_once_per_chunk [sample_silence_ev; sample_quiet_ev]
           sample_session sample_world eq_refl Hs).
Defined.

(** Half a second of silence changes nothing. *)
Lemma quiet_iteration_iff_witness :
  main_iter sample_quiet_ev sample_session sample_world
  = Continue sample_session sample_world.
Proof.
  exact (proj2 (quiet_iteration_iff sample_quiet_ev sample_session sample_world
                  eq_refl eq_refl)
               (conj eq_refl eq_refl)).
Defined.

End Loop.

(** ** More on the input gate *)

Module Gate.
Import Utf8 Utf8Facts GateFacts.

Lemma serve_without_pty (reads : list ReadRes) (s : Session) (w : World) :
  master_fd s = None ->
  serve reads s w = Closed w \/ serve reads s w = Reading w \/
  exists e, serve reads s w = Raised e w.
Proof.
  intros Hfd. induction reads as [|[data|e] rest IH]; cbn [serve];
    destruct (running s); cbn [negb]; auto.
  - rewrite Hfd. destruct (truthy data); auto.
  - right. right. eauto.
Qed.

Lemma gate_loop_without_pty (conns : list Connection) (s : Session) :
  master_fd s = None ->
  forall w, exists errs,
    w_master_in (gate_world (input_gate_loop conns s w)) = w_master_in w /\
    said (w_console (gate_world (input_gate_loop conns s w)))
    = said (w_console w) ++ errs /\
    Forall is_gate_error errs.
Proof.
  intros Hfd. induction conns as [|[reads|e] rest IH]; intros w;
    cbn [input_gate_loop]; destruct (running s) eqn:R; cbn [negb];
    try (exists []; cbn; rewrite app_nil_r; now auto).
  - destruct (serve_without_pty reads s w Hfd) as [-> | [-> | [e ->]]].
    + apply IH.
    + exists []. cbn. rewrite app_nil_r. auto.
    + unfold gate_error. rewrite R.
      destruct (IH (sleep POLL_INTERVAL (say (MsgGateError e) w)))
        as (errs & Hm & Hs & Hall).
      exists (MsgGateError e :: errs). rewrite Hm, Hs. cbn.
      rewrite Errors.said_app, <- app_assoc. cbn.
      repeat split; auto. constructor; [now exists e | exact Hall].
  - unfold gate_error. rewrite R.
    destruct (IH (sleep POLL_INTERVAL (say (MsgGateError e) w)))
      as (errs & Hm & Hs & Hall).
    exists (MsgGateError e :: errs). rewrite Hm, Hs. cbn.
    rewrite Errors.said_app, <- app_assoc. cbn.
    repeat split; auto. constructor; [now exists e | exact Hall].
Qed.

(** A session without a PTY master throws the injected input away: whatever
    the writers send, nothing is written, no injection is reported, and the
    gate goes on reading; the only lines it prints after its greeting are
    error reports. *)
Theorem gate_drops_without_pty (conns : list Connection) (s : Session)
    (w : World) :
  master_fd s = None ->
  let w' := gate_world (input_gate_thread conns s w) in
  w_master_in w' = w_master_in w /\
  exists errs,
    said (w_console w')
    = said (w_console w) ++ MsgListening (input_pipe s) :: errs /\
    Forall is_gate_error errs.
Proof.
  intros Hfd. cbn zeta. unfold input_gate_thread.
  destruct (gate_loop_without_pty conns s Hfd (say (MsgListening (input_pipe s)) w))
    as (errs & Hm & Hs & Hall).
  split; [exact Hm|]. exists errs. split; [|exact Hall].
  rewrite Hs. cbn. rewrite Errors.said_app, <- app_assoc. reflexivity.
Qed.

Lemma serve_frame (reads : list ReadRes) (s : Session) :
  forall w,
    let w' := match serve reads s w with
              | Closed x | Raised _ x | Reading x => x
              end in
    w_pid w' = w_pid w /\ w_dir w' = w_dir w /\
    w_status_hist w' = w_status_hist w /\ w_cron_calls w' = w_cron_calls w /\
    echoed (w_console w') = echoed (w_console w).
Proof.
  induction reads as [|[data|e] rest IH]; intros w; cbn [serve];
    destruct (running s); cbn [negb]; try (cbn; tauto).
  destruct (truthy data); [|cbn; tauto].
  destruct (master_fd s); [|apply IH].
  destruct (encode data) as [bs|]; [|cbn; tauto].
  destruct (IH (say (MsgInjected data) (os_write bs w))) as (H1 & H2 & H3 & H4 & H5).
  cbn zeta in *. rewrite H1, H2, H3, H4, H5. cbn.
  rewrite ProtocolFacts.echoed_app. cbn. rewrite app_nil_r. tauto.
Qed.

(** The gate only ever writes to the PTY master and prints lines of its
    own: whatever comes through the pipe, the runner directory (status
    record, log, pid file, pipe), the history of the status record and the
    CLI calls are as they were, and nothing is added to the echoed output
    of the child. *)
Theorem gate_touches_nothing_else (conns : list Connection) (s : Session)
    (w : World) :
  let w' := gate_world (input_gate_thread conns s w) in
  w_pid w' = w_pid w /\ w_dir w' = w_dir w /\
  w_status_hist w' = w_status_hist w /\ w_cron_calls w' = w_cron_calls w /\
  echoed (w_console w') = echoed (w_console w).
Proof.
  cbn zeta. unfold input_gate_thread.
  assert (G : forall w0,
             let w' := gate_world (input_gate_loop conns s w0) in
             w_pid w' = w_pid w0 /\ w_dir w' = w_dir w0 /\
             w_status_hist w' = w_status_hist w0 /\
             w_cron_calls w' = w_cron_calls w0 /\
             echoed (w_console w') = echoed (w_console w0)).
  { induction conns as [|[reads|e] rest IH]; intros w0; cbn [input_gate_loop];
      destruct (running s) eqn:R; cbn [negb]; try (cbn; tauto).
    - pose proof (serve_frame reads s w0) as F. cbn zeta in F.
      destruct (serve reads s w0) as [x|e x|x].
      + destruct (IH x) as (H1 & H2 & H3 & H4 & H5). cbn zeta in *.
        destruct F as (F1 & F2 & F3 & F4 & F5). repeat split; congruence.
      + unfold gate_error. rewrite R.
        destruct (IH (sleep POLL_INTERVAL (say (MsgGateError e) x)))
          as (H1 & H2 & H3 & H4 & H5). cbn zeta in *.
        destruct F as (F1 & F2 & F3 & F4 & F5).
        rewrite H1, H2, H3, H4, H5. cbn.
        rewrite ProtocolFacts.echoed_app. cbn. rewrite app_nil_r. tauto.
      + exact F.
    - unfold gate_error. rewrite R.
      destruct (IH (sleep POLL_INTERVAL (say (MsgGateError e) w0)))
        as (H1 & H2 & H3 & H4 & H5). cbn zeta in *.
      rewrite H1, H2, H3, H4, H5. cbn.
      rewrite ProtocolFacts.echoed_app. cbn. rewrite app_nil_r. tauto. }
  destruct (G (say (MsgListening (input_pipe s)) w)) as (H1 & H2 & H3 & H4 & H5).
  cbn zeta in *. rewrite H1, H2, H3, H4, H5. cbn.
  rewrite ProtocolFacts.echoed_app. cbn. rewrite app_nil_r. tauto.
Qed.

Lemma byte_is_cr (v : Z) : 0 <= v < 256 -> byte_of v = x0d -> v = CR.
Proof.
  intros Hr H. apply (f_equal Zb) in H. rewrite Zb_byte_of in H by exact Hr.
  exact H.
Qed.

Lemma some_inj {A} (a b : A) : Some a = Some b -> a = b.
Proof. congruence. Qed.

Lemma encode_cp_cr (c : codepoint) (k : list byte) :
  encode_cp c = Some k -> In x0d k -> c = CR.
Proof.
  assert (Hcr : forall v, 0 <= v < 256 -> 128 <= v -> byte_of v <> x0d).
  { intros v Hr Hv H. apply byte_is_cr in H; [|exact Hr].
    change CR with 13 in H. lia. }
  unfold encode_cp.
  destruct (c <? 0) eqn:E0; [discriminate|].
  destruct (c <? 0x80) eqn:E1; bool_to_Z.
  { intros Hk Hin. apply some_inj in Hk. subst k. destruct Hin as [H | []].
    apply byte_is_cr; [lia | exact H]. }
  destruct (c <? 0x800) eqn:E2; bool_to_Z.
  { intros Hk Hin. apply some_inj in Hk. subst k. exfalso.
    destruct Hin as [H | [H | []]]; revert H; apply Hcr;
      Z.div_mod_to_equations; lia. }
  destruct (c <? 0x10000) eqn:E3; bool_to_Z.
  { destruct ((0xD800 <=? c) && (c <? 0xE000))%bool; [discriminate|].
    intros Hk Hin. apply some_inj in Hk. subst k. exfalso.
    destruct Hin as [H | [H | [H | []]]]; revert H; apply Hcr;
      Z.div_mod_to_equations; lia. }
  destruct (c <? 0x110000) eqn:E4; [|discriminate]; bool_to_Z.
  intros Hk Hin. apply some_inj in Hk. subst k. exfalso.
  destruct Hin as [H | [H | [H | [H | []]]]]; revert H; apply Hcr;
    Z.div_mod_to_equations; lia.
Qed.

Lemma encode_no_cr (t : str) :
  forall out, encode t = Some out -> ~ In CR t -> ~ In x0d out.
Proof.
  induction t as [|c r IH]; intros out H Hno Hin.
  - cbn in H. injection H as <-. destruct Hin.
  - cbn [encode] in H.
    destruct (encode_cp c) as [k|] eqn:K; [|discriminate].
    destruct (encode r) as [b|] eqn:B; [|discriminate].
    injection H as <-. apply in_app_or in Hin. destruct Hin as [Hin | Hin].
    + apply Hno. left. exact (encode_cp_cr c k K Hin).
    + apply (IH b eq_refl); [|exact Hin]. intros Hr. apply Hno. now right.
Qed.

Lemma encode_all (t : str) :
  (exists out, encode t = Some out) <->
  Forall (fun c => encode_cp c <> None) t.
Proof.
  induction t as [|c r IH]; cbn [encode].
  - split; [constructor | now exists []].
  - split.
    + intros [out H].
      destruct (encode_cp c) as [k|] eqn:K; [|discriminate].
      destruct (encode r) as [b|] eqn:B; [|discriminate].
      constructor; [rewrite K; discriminate | apply IH; now exists b].
    + intros H. inversion H as [|? ? Hc Hr]; subst.
      apply IH in Hr. destruct Hr as [b ->].
      destruct (encode_cp c) as [k|]; [eauto | contradiction].
Qed.

Lemma translate_bounded (P : codepoint -> Prop) (n : nat) :
  P LF ->
  forall t, (List.length t <= n)%nat ->
    ~ In CR (translate_newlines t) /\
    (Forall P t -> Forall P (translate_newlines t)).
Proof.
  intros Hlf. induction n as [|n IH]; intros t Hlen.
  - destruct t; [|cbn in Hlen; lia]. cbn. split; [tauto | auto].
  - destruct t as [|c r]; [cbn; split; [tauto | auto]|].
    cbn [translate_newlines List.length] in *.
    destruct (Z.eqb_spec c CR) as [->|Hc].
    + destruct r as [|c' r'].
      * split; [intros [H | []]; discriminate H | intros _; repeat constructor; exact Hlf].
      * cbn [List.length] in Hlen.
        destruct (c' =? LF).
        -- destruct (IH r' ltac:(lia)) as [H1 H2]. split.
           ++ intros [H | H]; [discriminate H | exact (H1 H)].
           ++ intros H. inversion H as [|? ? _ Hr]; subst.
              inversion Hr as [|? ? _ Hr']; subst.
              constructor; [exact Hlf | exact (H2 Hr')].
        -- destruct (IH (c' :: r') ltac:(cbn; lia)) as [H1 H2]. split.
           ++ intros [H | H]; [discriminate H | exact (H1 H)].
           ++ intros H. inversion H as [|? ? _ Hr]; subst.
              constructor; [exact Hlf | exact (H2 Hr)].
    + destruct (IH r ltac:(lia)) as [H1 H2]. split.
      * intros [H | H]; [now apply Hc | exact (H1 H)].
      * intros H. inversion H as [|? ? Hh Hr]; subst.
        constructor; [exact Hh | exact (H2 Hr)].
Qed.

(** For bytes that are UTF-8 the gate's output is defined and free of
    carriage returns. *)
Lemma forwarded_spec (bs : list byte) (t : str) :
  decode Strict bs = Some t ->
  encode (translate_newlines t) = Some (forwarded bs) /\
  ~ In x0d (forwarded bs).
Proof.
  intros D. unfold forwarded. rewrite D.
  destruct (translate_bounded (fun c => encode_cp c <> None) (List.length t)
              ltac:(cbn; discriminate) t (le_n _)) as [Hno Hall].
  assert (He : exists out, encode (translate_newlines t) = Some out).
  { apply encode_all, Hall, encode_all. exists bs. now apply decode_encode. }
  destruct He as [out He]. rewrite He. split; [reflexivity|].
  exact (encode_no_cr _ out He Hno).
Qed.

Lemma gate_serves_text (bss : list (list byte)) (s : Session) (fd : Z) :
  running s = true -> master_fd s = Some fd ->
  Forall (fun bs => decode Strict bs <> None) bss ->
  forall w,
    exists w',
      input_gate_loop (map writer bss) s w = AwaitingWriter w' /\
      w_master_in w' = w_master_in w ++ List.concat (map forwarded bss).
Proof.
  intros R Hfd. induction 1 as [|bs bss Hbs _ IH]; intros w.
  - exists w. cbn. rewrite R, app_nil_r. auto.
  - destruct (decode Strict bs) as [t|] eqn:D; [|contradiction].
    destruct (forwarded_spec bs t D) as [He _].
    destruct (serve_text READ_SIZE s fd ltac:(unfold READ_SIZE; lia) R Hfd
                (List.length (translate_newlines t)) (translate_newlines t)
                (forwarded bs) w (le_n _) He) as (w1 & Hs & Hm & _).
    destruct (IH w1) as (w' & Hg & Hm').
    assert (Hp : serve (pipe_reads bs) s w = Closed w1)
      by (unfold pipe_reads; rewrite D; exact Hs).
    exists w'. cbn [map input_gate_loop writer List.concat] in *.
    rewrite R, Hp. cbn [negb]. rewrite Hg, Hm', Hm, <- app_assoc. auto.
Qed.

(** Carriage returns never reach the child through the gate.  While the
    session runs and holds the PTY master, for writers that send UTF-8
    text the bytes written to the master are, writer after writer, the
    text with every CR LF and every lone CR turned into LF, encoded again;
    no byte 0x0D is among them. *)
Theorem gate_translates_cr (bss : list (list byte)) (s : Session)
    (w : World) (fd : Z) :
  running s = true -> master_fd s = Some fd ->
  Forall (fun bs => decode Strict bs <> None) bss ->
  exists w',
    input_gate_thread (map writer bss) s w = AwaitingWriter w' /\
    w_master_in w' = w_master_in w ++ List.concat (map forwarded bss) /\
    ~ In x0d (List.concat (map forwarded bss)).
Proof.
  intros R Hfd Hall. unfold input_gate_thread.
  destruct (gate_serves_text bss s fd R Hfd Hall
              (say (MsgListening (input_pipe s)) w)) as (w' & Hg & Hm).
  exists w'. split; [exact Hg|]. split; [exact Hm|].
  intros Hin. apply in_concat in Hin. destruct Hin as (x & Hx & Hin).
  apply in_map_iff in Hx. destruct Hx as (bs & <- & Hbs).
  rewrite Forall_forall in Hall. specialize (Hall bs Hbs).
  destruct (decode Strict bs) as [t|] eqn:D; [|contradiction].
  exact (proj2 (forwarded_spec bs t D) Hin).
Qed.

(** A writer sends [y] before the PTY exists. *)
Lemma gate_drops_without_pty_witness :
  w_master_in (gate_world (input_gate_thread [writer [x79]] sample_no_pty
                             sample_world))
  = [].
Proof.
  exact (proj1 (gate_drops_without_pty [writer [x79]] sample_no_pty sample_world
                  eq_refl)).
Defined.

(** One writer sends a line ended by CR LF, the next a lone CR. *)
Lemma gate_translates_cr_witness :
  exists w',
    input_gate_thread (map writer [[x61; x0d; x0a; x62]; [x0d]]) sample_session
      sample_world
    = AwaitingWriter w' /\
    w_master_in w' = [x61; x0a; x62; x0a].
Proof.
  destruct (gate_translates_cr [[x61; x0d; x0a; x62]; [x0d]] sample_session
              sample_world 5 eq_refl eq_refl)
    as (w' & Hg & Hm & _).
  - repeat constructor; vm_compute; discriminate.
  - exists w'. split; [exact Hg | exact Hm].
Defined.

End Gate.

(** ** Shutdown *)

Module ShutdownFacts.

(** What [cleanup] does not touch, and what it adds. *)
Lemma cleanup_frame (env : CleanupEnv) (s : Session) (h : Host) :
  let s' := fst (cleanup env s h) in
  let w := h_world h in
  let w' := h_world (snd (cleanup env s h)) in
  s' = set_running false s /\
  w_pid w' = w_pid w /\
  status_json (w_dir w') = status_json (w_dir w) /\
  output_log (w_dir w') = output_log (w_dir w) /\
  runner_pid (w_dir w') = runner_pid (w_dir w) /\
  other_entries (w_dir w') = other_entries (w_dir w) /\
  w_status_hist w' = w_status_hist w /\
  w_master_in w' = w_master_in w /\
  echoed (w_console w') = echoed (w_console w) /\
  pipe_mode (w_dir w')
  = (if ce_unlink_raises env then pipe_mode (w_dir w) else None) /\
  w_cron_calls w' = w_cron_calls w ++ deregister_calls s /\
  last (h_notes (snd (cleanup env s h))) NoteKilling = NoteDone.
Proof.
  cbn zeta. unfold cleanup, deregister_calls.
  change (process (set_running false s)) with (process s).
  change (cron_id (set_running false s)) with (cron_id s).
  cbn [fst snd].
  destruct (process s) as [child|]; [destruct (ce_alive env);
      [destruct (ce_kill_raises env)|]|];
    (destruct (cron_id s) as [id|]; [destruct (truthy id);
        [destruct (ce_rm_err env)|]|]);
    cbn;
    destruct (pipe_mode (w_dir (h_world h))) eqn:P;
    destruct (ce_unlink_raises env); cbn;
    rewrite ?ProtocolFacts.echoed_app, ?app_nil_r, ?last_last; cbn;
    rewrite ?app_nil_r; repeat split; auto.
Qed.

End ShutdownFacts.

Module Shutdown.
Import ShutdownFacts.

(** [cleanup] ends the session and keeps its records: the liveness flag
    is cleared and nothing else of the session changes; the status record,
    the log, the pid file and any other entry of the runner directory are
    left as they are, the pipe is removed (unless the removal itself
    fails); the only CLI call is the removal of the registered job, made
    exactly when a non-empty cron id is stored; the last line printed is
    the closing one. *)
Theorem cleanup_keeps_records (env : CleanupEnv) (s : Session) (h : Host) :
  let s' := fst (cleanup env s h) in
  let w := h_world h in
  let w' := h_world (snd (cleanup env s h)) in
  s' = set_running false s /\
  status_json (w_dir w') = status_json (w_dir w) /\
  output_log (w_dir w') = output_log (w_dir w) /\
  runner_pid (w_dir w') = runner_pid (w_dir w) /\
  other_entries (w_dir w') = other_entries (w_dir w) /\
  w_status_hist w' = w_status_hist w /\
  pipe_mode (w_dir w')
  = (if ce_unlink_raises env then pipe_mode (w_dir w) else None) /\
  w_cron_calls w' = w_cron_calls w ++ deregister_calls s /\
  last (h_notes (snd (cleanup env s h))) NoteKilling = NoteDone.
Proof.
  pose proof (cleanup_frame env s h) as H. cbn zeta in *. tauto.
Qed.

(** The child's process group is signalled exactly when the child exists
    and is still alive, and at most once; a failure of the signal is
    swallowed. *)
Theorem cleanup_signals_live_child (env : CleanupEnv) (s : Session) (h : Host) :
  h_sigterm (snd (cleanup env s h))
  = h_sigterm h ++
    match process s with
    | Some child =>
      if ce_alive env && negb (ce_kill_raises env) then [child] else []
    | None => []
    end.
Proof.
  unfold cleanup.
  change (process (set_running false s)) with (process s).
  change (cron_id (set_running false s)) with (cron_id s).
  cbn [snd].
  destruct (process s) as [child|]; [destruct (ce_alive env);
      [destruct (ce_kill_raises env)|]|];
    (destruct (cron_id s) as [id|]; [destruct (truthy id);
        [destruct (ce_rm_err env)|]|]);
    cbn;
    destruct (pipe_mode (w_dir (h_world h)));
    destruct (ce_unlink_raises env); cbn; now rewrite ?app_nil_r.
Qed.

(** Once [cleanup] has run, every loop of the session stops at its next
    check of the liveness flag: the wait for the agent returns at once
    with nothing changed, and the input gate neither opens the pipe again
    nor forwards anything. *)
Theorem cleanup_stops_loops (env : CleanupEnv) (s : Session) (h : Host) :
  let s' := fst (cleanup env s h) in
  (forall evs w, wait_for_ai evs s' w = Returned s' w) /\
  (forall conns w, input_gate_loop conns s' w = Stopped w) /\
  (forall reads w, serve reads s' w = Closed w).
Proof.
  cbn zeta. unfold cleanup. cbn [fst].
  repeat split; intros [|x l] w; reflexivity.
Qed.

End Shutdown.

(** ** Registration with the scheduler *)

Module RegistrationFacts.

Lemma remove_old_effects (name : str) (rm_err : str -> option str)
    (jobs : list Json) :
  forall h,
    let h' := snd (remove_old name rm_err jobs h) in
    w_cron_calls (h_world h')
    = w_cron_calls (h_world h) ++ map cron_rm (stale_ids name jobs) /\
    w_pid (h_world h') = w_pid (h_world h) /\
    w_dir (h_world h') = w_dir (h_world h) /\
    w_status_hist (h_world h') = w_status_hist (h_world h) /\
    h_sigterm h' = h_sigterm h.
Proof.
  induction jobs as [|job rest IH]; intros h; cbn [remove_old stale_ids].
  - cbn. rewrite app_nil_r. auto.
  - destruct job as [| | | | |kv]; try (cbn; rewrite app_nil_r; now auto).
    cbv zeta.
    destruct (eq_str match lookup (py "name") kv with
                     | Some v => v
                     | None => JNull
                     end name); [|apply IH].
    match goal with |- context [remove_old name rm_err rest ?h0] =>
      destruct (IH h0) as (Hc & Hp & Hd & Hh & Hs)
    end.
    cbn zeta in *. rewrite Hc, Hp, Hd, Hh, Hs. clear Hc Hp Hd Hh Hs.
    destruct (id_of kv) as [| | |id| |]; cbn; rewrite ?app_nil_r; auto.
    destruct (rm_err id); cbn; rewrite <- app_assoc; auto.
Qed.

Lemma cron_cleanup_effects (env : CronEnv) (s : Session) (h : Host) :
  let h' := cron_cleanup env s h in
  w_cron_calls (h_world h')
  = w_cron_calls (h_world h)
    ++ cron_list :: map cron_rm (stale_ids (cron_name s) (listed (sc_list env))) /\
  w_pid (h_world h') = w_pid (h_world h) /\
  w_dir (h_world h') = w_dir (h_world h) /\
  w_status_hist (h_world h') = w_status_hist (h_world h) /\
  h_sigterm h' = h_sigterm h.
Proof.
  cbn zeta. unfold cron_cleanup, listed.
  destruct (sc_list env) as [e|out]; [cbn; now auto|].
  cbn [cli_err cli_output].
  destruct out as [|raw|v]; cbn [out_truthy json_loads].
  - cbn. auto.
  - destruct (truthy raw); cbn; auto.
  - destruct (jobs_of v) as [jobs|]; [|cbn; now auto].
    destruct (iterate jobs) as [l|]; [|cbn; now auto].
    match goal with |- context [remove_old ?n ?r l ?h0] =>
      pose proof (remove_old_effects n r l h0) as H;
      destruct (remove_old n r l h0) as [raised h2]
    end.
    cbn zeta in H. cbn [snd] in H. destruct H as (Hc & Hp & Hd & Hh & Hs).
    assert (G : w_cron_calls (h_world h2)
                = w_cron_calls (h_world h)
                  ++ cron_list :: map cron_rm (stale_ids (cron_name s) l))
      by (rewrite Hc; cbn; now rewrite <- app_assoc).
    destruct raised; cbn; rewrite ?G, ?Hp, ?Hd, ?Hh, ?Hs; auto.
Qed.

(** The calls of a whole registration. *)
Lemma setup_cron_effects (env : CronEnv) (s : Session) (h : Host) (child : Z) :
  process s = Some child ->
  exists c h',
    setup_cron env s h = CronDone c h' /\
    w_cron_calls (h_world h')
    = w_cron_calls (h_world h)
      ++ cron_list :: map cron_rm (stale_ids (cron_name s) (listed (sc_list env)))
      ++ [add_cmd s (full_payload s child (w_pid (h_world h)))] /\
    w_dir (h_world h') = w_dir (h_world h) /\
    w_status_hist (h_world h') = w_status_hist (h_world h) /\
    h_sigterm h' = h_sigterm h.
Proof.
  intros Hp. unfold setup_cron. rewrite Hp.
  destruct (cron_cleanup_effects env s (note (NoteSettingUp (cron_name s)) h))
    as (Hc & Hpid & Hd & Hh & Hs).
  cbn zeta in *.
  set (h1 := cron_cleanup env s (note (NoteSettingUp (cron_name s)) h)) in *.
  cbn [h_world note] in Hc, Hpid, Hd, Hh, Hs.
  rewrite Hpid. fold (full_payload s child (w_pid (h_world h))).
  match goal with |- context [let (c, h3) := ?X in _] =>
    assert (F : w_cron_calls (h_world (snd X))
                = w_cron_calls (h_world h)
                  ++ cron_list :: map cron_rm
                       (stale_ids (cron_name s) (listed (sc_list env)))
                  ++ [add_cmd s (full_payload s child (w_pid (h_world h)))] /\
                w_dir (h_world (snd X)) = w_dir (h_world h) /\
                w_status_hist (h_world (snd X)) = w_status_hist (h_world h) /\
                h_sigterm (snd X) = h_sigterm h);
    [| destruct X as [c h3]; cbn [snd] in F ]
  end.
  { destruct (sc_add env) as [e|out]; cbn [cli_err cli_output].
    - cbn. rewrite Hc, Hd, Hh, Hs, <- app_assoc. auto.
    - assert (B : forall hx, h_world hx = run_openclaw_cmd
                    (add_cmd s (full_payload s child (w_pid (h_world h))))
                    None (h_world h1) ->
                  h_sigterm hx = h_sigterm h1 ->
                  w_cron_calls (h_world hx)
                  = w_cron_calls (h_world h)
                    ++ cron_list :: map cron_rm
                         (stale_ids (cron_name s) (listed (sc_list env)))
                    ++ [add_cmd s (full_payload s child (w_pid (h_world h)))] /\
                  w_dir (h_world hx) = w_dir (h_world h) /\
                  w_status_hist (h_world hx) = w_status_hist (h_world h) /\
                  h_sigterm hx = h_sigterm h).
      { intros hx -> ->. cbn. rewrite Hc, Hd, Hh, Hs, <- app_assoc. auto. }
      destruct out as [|raw|v]; cbn [out_truthy json_loads snd].
      + now apply B.
      + destruct (truthy raw); now apply B.
      + destruct v; now apply B. }
  exists c. eexists. split; [reflexivity|].
  destruct F as (F1 & F2 & F3 & F4).
  destruct (no_cron_id s c); cbn; auto.
Qed.

Lemma stale_ids_listed (name : str) (jobs : list Json) (js : list Job) :
  Forall2 lists_job jobs js ->
  stale_ids name jobs
  = map job_id (filter (fun j => str_eqb (job_name j) name) js).
Proof.
  induction 1 as [|v j jobs js (kv & -> & Hid & Hname & Hne) _ IH];
    [reflexivity|].
  cbn [stale_ids filter]. rewrite Hname. cbn [eq_str].
  destruct (str_eqb (job_name j) name); [|exact IH].
  assert (Ht : truthy (job_id j) = true)
    by (destruct (job_id j); [contradiction | reflexivity]).
  unfold id_of, py_or. rewrite Hid. cbn [json_truthy]. rewrite Ht.
  cbn [map]. now rewrite IH.
Qed.

End RegistrationFacts.

Module Registration.
Import RegistrationFacts.

(** [setup_cron] removes the jobs that carry its own name before it adds
    the new one.  When the scheduler lists jobs (objects with a text id
    and a text name, in a plain array or under the key [jobs]), the calls
    are, in this order: the listing, one [cron rm <id>] for each listed
    job whose name is the session's cron name and for no other job, and
    the [cron add] with that name, the interval 5m and the payload. *)
Theorem setup_cron_dedupes (env : CronEnv) (s : Session) (h : Host)
    (child : Z) (js : list Job) :
  process s = Some child ->
  Forall2 lists_job (listed (sc_list env)) js ->
  exists c h',
    setup_cron env s h = CronDone c h' /\
    w_cron_calls (h_world h')
    = w_cron_calls (h_world h)
      ++ cron_list
         :: map (fun j => cron_rm (job_id j))
              (filter (fun j => str_eqb (job_name j) (cron_name s)) js)
      ++ [add_cmd s (full_payload s child (w_pid (h_world h)))].
Proof.
  intros Hp Hjobs.
  destruct (setup_cron_effects env s h child Hp) as (c & h' & E & Hc & _).
  exists c, h'. split; [exact E|].
  rewrite Hc, (stale_ids_listed _ _ _ Hjobs), map_map. reflexivity.
Qed.

(** The registration does not depend on the listing: whatever [cron list]
    does (it raises, prints nothing, prints something that is not JSON or
    JSON of another shape), [setup_cron] completes, and its calls are the
    listing first, then only removals, then the one [cron add], last.  It
    touches neither the runner directory nor the status record, and sends
    no signal. *)
Theorem setup_cron_always_adds (env : CronEnv) (s : Session) (h : Host)
    (child : Z) :
  process s = Some child ->
  exists c h' ids,
    setup_cron env s h = CronDone c h' /\
    w_cron_calls (h_world h')
    = w_cron_calls (h_world h)
      ++ cron_list :: map cron_rm ids
      ++ [add_cmd s (full_payload s child (w_pid (h_world h)))] /\
    w_dir (h_world h') = w_dir (h_world h) /\
    w_status_hist (h_world h') = w_status_hist (h_world h) /\
    h_sigterm h' = h_sigterm h.
Proof.
  intros Hp.
  destruct (setup_cron_effects env s h child Hp) as (c & h' & E & H).
  exists c, h', (stale_ids (cron_name s) (listed (sc_list env))). auto.
Qed.

(** The id that the scheduler returns is the id the runner uses from then
    on.  If [cron add] prints a JSON object with a non-empty text under
    [id], or without [id] and with such a text under [jobId], then
    [setup_cron] stores that text and reports the job as created; every
    later trigger from MONITORING makes the call [cron run --force <id>],
    and [cleanup] makes the call [cron rm <id>]. *)
Theorem registration_id_used (env : CronEnv) (s : Session) (h : Host)
    (child : Z) (kv : list (str * Json)) (id : str) :
  process s = Some child ->
  sc_add env = CliDone (OutJson (JObj kv)) ->
  lookup (py "id") kv = Some (JStr id) \/
  lookup (py "id") kv = None /\ lookup (py "jobId") kv = Some (JStr id) ->
  truthy id = true ->
  exists h',
    setup_cron env s h = CronDone (Assigned (JStr id)) h' /\
    last (h_notes h') NoteDone = NoteCronCreated (JStr id) /\
    store_cron_id (Assigned (JStr id)) s = Some (set_cron_id (Some id) s) /\
    (forall reason tenv w,
       state s = MONITORING ->
       w_cron_calls (waited_world
                       (trigger_ai reason tenv (set_cron_id (Some id) s) w))
       = w_cron_calls w ++ [force_run id]) /\
    (forall cenv hh,
       w_cron_calls (h_world (snd (cleanup cenv (set_cron_id (Some id) s) hh)))
       = w_cron_calls (h_world hh) ++ [cron_rm id]).
Proof.
  intros Hp Hadd Hid Ht.
  assert (Hv : id_of kv = JStr id).
  { unfold id_of, py_or.
    destruct Hid as [-> | [-> ->]]; cbn [json_truthy]; now rewrite ?Ht. }
  eexists. split; [|split; [|split; [reflexivity|split]]].
  - unfold setup_cron. rewrite Hp, Hadd. cbn [cli_err cli_output out_truthy json_loads].
    rewrite Hv. cbn [no_cron_id json_truthy]. rewrite Ht. reflexivity.
  - cbn. apply last_last.
  - intros reason tenv w Hst.
    destruct (LoopFacts.trigger_ai_before_wait reason tenv
                (set_cron_id (Some id) s) w Hst) as (w0 & E & _ & _ & Hc & _).
    rewrite E.
    destruct (LoopFacts.wait_for_ai_calls (te_pause tenv)
                (set_state WAITING_FOR_AI (set_cron_id (Some id) s)) w0) as [-> _].
    rewrite Hc. unfold force_run_calls. cbn [cron_id set_cron_id]. now rewrite Ht.
  - intros cenv hh.
    pose proof (ShutdownFacts.cleanup_frame cenv (set_cron_id (Some id) s) hh) as F.
    cbn zeta in F. destruct F as (_ & _ & _ & _ & _ & _ & _ & _ & _ & _ & -> & _).
    unfold deregister_calls. cbn [cron_id set_cron_id]. now rewrite Ht.
Qed.

(** Without an id the runner goes on in a degraded way.  When the session
    has no cron id and [cron add] gives none (it raises, prints nothing or
    something that is not a JSON object, or an object without a true [id]
    and [jobId]), [setup_cron] still completes, its last line is the
    warning, and with what it stores no trigger and no cleanup makes a CLI
    call. *)
Theorem registration_failure_degrades (env : CronEnv) (s : Session) (h : Host)
    (child : Z) :
  process s = Some child ->
  cron_id s = None ->
  no_id_in (sc_add env) ->
  exists c h' s',
    setup_cron env s h = CronDone c h' /\
    last (h_notes h') NoteDone = NoteCronWarning /\
    store_cron_id c s = Some s' /\
    force_run_calls s' = [] /\
    deregister_calls s' = [].
Proof.
  intros Hp Hc Hno. unfold setup_cron. rewrite Hp.
  assert (Hf : force_run_calls s = [] /\ deregister_calls s = [])
    by (unfold force_run_calls, deregister_calls; now rewrite Hc).
  assert (K : forall hx,
            exists c h' s',
              CronDone Kept (if no_cron_id s Kept then note NoteCronWarning hx else hx)
              = CronDone c h' /\
              last (h_notes h') NoteDone = NoteCronWarning /\
              store_cron_id c s = Some s' /\
              force_run_calls s' = [] /\ deregister_calls s' = []).
  { intros hx. exists Kept. eexists. exists s.
    split; [reflexivity|]. cbn [no_cron_id]. rewrite Hc. cbn.
    rewrite last_last. tauto. }
  destruct (sc_add env) as [e|out]; cbn [cli_err cli_output]; [apply K|].
  destruct out as [|raw|v]; cbn [out_truthy json_loads]; [apply K| |].
  - destruct (truthy raw); apply K.
  - destruct v as [| | | | |kv]; try apply K.
    cbn in Hno. cbn [no_cron_id]. rewrite Hno. cbn [negb].
    destruct (id_of kv) as [| | |id| |] eqn:V;
      (eexists; eexists; eexists; split; [reflexivity|];
       split; [cbn; apply last_last|]);
      cbn [store_cron_id]; rewrite ?Hno;
      (split; [reflexivity|]);
      unfold force_run_calls, deregister_calls; cbn [cron_id set_cron_id];
      try tauto.
    cbn in Hno. now rewrite Hno.
Qed.

(** The sample listing holds one stale job. *)
Lemma setup_cron_dedupes_witness :
  exists c h',
    setup_cron sample_cron sample_session sample_host = CronDone c h' /\
    w_cron_calls (h_world h')
    = [cron_list; cron_rm (py "old1");
       add_cmd sample_session (full_payload sample_session 4242 100)].
Proof.
  destruct (setup_cron_dedupes sample_cron sample_session sample_host 4242
              sample_jobs eq_refl)
    as (c & h' & E & Hc).
  - repeat constructor; eexists; (split; [reflexivity|]);
      repeat split; try reflexivity; discriminate.
  - exists c, h'. split; [exact E | exact Hc].
Defined.

(** The CLI is missing altogether. *)
Lemma setup_cron_always_adds_witness :
  exists c h' ids,
    setup_cron sample_cron_broken sample_session sample_host = CronDone c h' /\
    w_cron_calls (h_world h')
    = cron_list :: map cron_rm ids
      ++ [add_cmd sample_session (full_payload sample_session 4242 100)].
Proof.
  destruct (setup_cron_always_adds sample_cron_broken sample_session sample_host
              4242 eq_refl)
    as (c & h' & ids & E & Hc & _).
  exists c, h', ids. split; [exact E | exact Hc].
Defined.

(** The scheduler answers with a [jobId]. *)
Lemma registration_id_used_witness :
  exists h',
    setup_cron sample_cron sample_session sample_host
    = CronDone (Assigned (JStr (py "j2"))) h'.
Proof.
  destruct (registration_id_used sample_cron sample_session sample_host 4242
              [(py "jobId", JStr (py "j2"))] (py "j2")
              eq_refl eq_refl (or_intror (conj eq_refl eq_refl)) eq_refl)
    as (h' & E & _).
  exists h'. exact E.
Defined.

(** No CLI, no id. *)
Lemma registration_failure_degrades_witness :
  exists c h',
    setup_cron sample_cron_broken sample_unregistered sample_host = CronDone c h' /\
    last (h_notes h') NoteDone = NoteCronWarning.
Proof.
  destruct (registration_failure_degrades sample_cron_broken sample_unregistered
              sample_host 4242 eq_refl eq_refl I)
    as (c & h' & s' & E & Hl & _).
  exists c, h'. split; [exact E | exact Hl].
Defined.

End Registration.

(** ** The whole run *)

Module LifecycleFacts.
Import ProtocolFacts WatchdogFacts LoopFacts.

Lemma same_fixtures_refl (w : World) : same_fixtures w w.
Proof. unfold same_fixtures. auto. Qed.

Lemma same_fixtures_trans (a b c : World) :
  same_fixtures a b -> same_fixtures b c -> same_fixtures a c.
Proof.
  unfold same_fixtures. intros (H1 & H2 & H3 & H4) (K1 & K2 & K3 & K4).
  repeat split; congruence.
Qed.

Lemma wait_for_ai_fixtures (evs : list PauseEv) (s : Session) :
  forall w, same_fixtures w (waited_world (wait_for_ai evs s w)).
Proof.
  induction evs as [|ev rest IH]; intros w; cbn [wait_for_ai];
    destruct (running s); cbn [negb]; try apply same_fixtures_refl.
  assert (F : same_fixtures w (agent_writes (pe_agent ev)
                                 (drain_paused (pe_ready ev) s w))).
  { destruct (drain_paused_frame (pe_ready ev) s w)
      as (H1 & _ & _ & H2 & H3 & H4 & _).
    unfold same_fixtures. destruct (pe_agent ev); cbn; auto. }
  set (w2 := agent_writes (pe_agent ev) (drain_paused (pe_ready ev) s w)) in *.
  destruct (ai_responded w2) as [[|]|].
  - cbn. exact F.
  - exact (same_fixtures_trans _ _ _ F (IH w2)).
  - exact (same_fixtures_trans _ _ _ F (IH w2)).
Qed.

Lemma trigger_ai_fixtures (reason : str) (env : TriggerEnv) (s : Session)
    (w : World) :
  same_fixtures w (waited_world (trigger_ai reason env s w)).
Proof.
  unfold trigger_ai. destruct (state s); [|apply same_fixtures_refl].
  cbn [update_status].
  match goal with |- context [wait_for_ai ?e ?s0 ?w0] =>
    apply (same_fixtures_trans _ w0); [|apply wait_for_ai_fixtures]
  end.
  change (cron_id (set_state WAITING_FOR_AI s)) with (cron_id s).
  unfold same_fixtures.
  destruct (cron_id s) as [id|];
    [destruct (truthy id); [destruct (te_cmd_err env)|]|]; cbn; auto.
Qed.

Lemma main_iter_fixtures (ev : MainEv) (s : Session) (w : World) :
  same_fixtures w (iter_world (main_iter ev s w)).
Proof.
  unfold main_iter.
  destruct (drain (me_ready ev) (me_t_activity ev) s w) as [[s1 w1]|] eqn:D;
    [|apply same_fixtures_refl].
  assert (F : same_fixtures w w1).
  { unfold drain in D. destruct (me_ready ev) as [|[data|]]; [| |discriminate].
    - injection D as <- <-. apply same_fixtures_refl.
    - destruct (nonempty data); injection D as <- <-;
        [unfold same_fixtures; cbn; auto | apply same_fixtures_refl]. }
  apply (same_fixtures_trans _ _ _ F). unfold check_timers.
  destruct (io_wait_due (me_now ev) s1).
  - pose proof (trigger_ai_fixtures IO_WAIT (me_trigger ev) s1 w1) as T.
    now destruct (trigger_ai IO_WAIT (me_trigger ev) s1 w1).
  - destruct (stall_due (me_now ev) s1); [|apply same_fixtures_refl].
    pose proof (trigger_ai_fixtures STALL (me_trigger ev) s1 w1) as T.
    now destruct (trigger_ai STALL (me_trigger ev) s1 w1).
Qed.

Lemma main_loop_fixtures (evs : list MainEv) :
  forall s w, same_fixtures w (loop_world (main_loop evs s w)).
Proof.
  induction evs as [|ev rest IH]; intros s w; cbn [main_loop];
    [apply same_fixtures_refl|].
  destruct (me_alive ev); [|apply same_fixtures_refl].
  pose proof (main_iter_fixtures ev s w) as F.
  destruct (main_iter ev s w) as [s' w'|s' w'|s' w']; cbn in F; auto.
  exact (same_fixtures_trans _ _ _ F (IH s' w')).
Qed.

(** [run] up to its loop. *)
Lemma startup_spec (env : RunEnv) (s : Session) :
  match startup env s with
  | Aborted at_step None => at_step = InSetupDirs
  | Aborted at_step (Some (s', h')) =>
    re_raises env = Some at_step /\
    s' = set_state MONITORING
           (match at_step with
            | InPopen => set_master_fd (Some (re_master env)) s
            | _ => s
            end) /\
    h_notes h' = match at_step with
                 | InPopen => [NoteStarting (cmd s)]
                 | _ => []
                 end /\
    h_sigterm h' = [] /\
    h_world h' = set_up env s
  | Entered s0 h0 =>
    re_raises env = None /\
    re_disk env <> NotADirectory /\
    s0 = started env s /\
    h_notes h0 = [NoteStarting (cmd s); NoteMonitoring (re_child env)] /\
    h_sigterm h0 = [] /\
    h_world h0
    = mkWorld (re_pid env)
        (mkDir (Holds (status_record (started env s) MONITORING None
                         (Some STARTED) (re_t_started env) (re_pid env)))
               None (Some (re_pid env)) (Some 432) [])
        [Malformed [];
         Holds (status_record s MONITORING None (Some STARTING)
                  (re_t_setup env) (re_pid env));
         Malformed [];
         Holds (status_record (started env s) MONITORING None (Some STARTED)
                  (re_t_started env) (re_pid env))]
        [] [] [] []
  end.
Proof.
  unfold startup, setup_dirs, set_up.
  destruct (re_raises env) as [[| |]|]; destruct (re_disk env); cbn;
    repeat split; auto; discriminate.
Qed.

End LifecycleFacts.

Module Lifecycle.
Import LifecycleFacts.

(** A start-up of [run] that completes starts from scratch and announces
    the child.  When [run] reaches its loop, no call of the start-up has
    raised and nothing but a directory lay at the runner path; the session
    enters the loop in MONITORING with the PTY master and the child set,
    the activity clock at the time read last and the status record written
    twice, first by [setup_dirs] and then again after the spawn, now with
    the pid of the child and the note "Process started"; the directory
    holds that record, the pid file and the pipe with mode 0o660, and no
    log yet. *)
Theorem run_startup_records (env : RunEnv) (s s0 : Session) (h0 : Host) :
  startup env s = Entered s0 h0 ->
  re_raises env = None /\ re_disk env <> NotADirectory /\
  state s0 = MONITORING /\ master_fd s0 = Some (re_master env) /\
  process s0 = Some (re_child env) /\
  last_activity_time s0 = re_t_loop env /\
  last_log_chunk s0 = last_log_chunk s /\
  let c := status_json (w_dir (h_world h0)) in
  field_of "state" c = Some (JStr (state_name MONITORING)) /\
  field_of "child_pid" c = Some (JNum (re_child env)) /\
  field_of "info" c = Some (JStr STARTED) /\
  field_of "reason" c = Some JNull /\
  List.length (w_status_hist (h_world h0)) = 4%nat /\
  output_log (w_dir (h_world h0)) = None /\
  runner_pid (w_dir (h_world h0)) = Some (re_pid env) /\
  pipe_mode (w_dir (h_world h0)) = Some (6 * 64 + 6 * 8 + 0).
Proof.
  intros E. pose proof (startup_spec env s) as H. rewrite E in H.
  destruct H as (Hr & Hd & -> & _ & _ & Hw).
  split; [exact Hr|]. split; [exact Hd|].
  rewrite Hw. cbn. repeat split; reflexivity.
Qed.

(** From the start of [run] to wherever it stands (in the loop, waiting
    for the agent, or after [cleanup]) the log file holds exactly the
    output of the child that was echoed on the console, in the same order. *)
Theorem run_log_is_console (env : RunEnv) (s : Session) :
  match run_world (run env s) with
  | Some w => log_text w = echoed (w_console w)
  | None => True
  end.
Proof.
  unfold run. pose proof (startup_spec env s) as H.
  destruct (startup env s) as [s0 h0|at_step behind]; [|exact I].
  destruct H as (_ & _ & _ & _ & _ & Hw).
  destruct (RecordFacts.main_loop_log_echo (re_events env) s0 (h_world h0))
    as (d & Hl & He).
  assert (L0 : log_text (h_world h0) = []) by (rewrite Hw; reflexivity).
  assert (E0 : echoed (w_console (h_world h0)) = []) by (rewrite Hw; reflexivity).
  rewrite L0 in Hl. rewrite E0 in He. cbn [app] in Hl, He. clear Hw L0 E0.
  assert (C : forall s1 w1 h,
             h_world h = w1 ->
             log_text w1 = echoed (w_console w1) ->
             let (s2, h2) := cleanup (re_cleanup env) s1 h in
             log_text (h_world h2) = echoed (w_console (h_world h2))).
  { intros s1 w1 h Hh Hw1.
    pose proof (ShutdownFacts.cleanup_frame (re_cleanup env) s1 h) as F.
    destruct (cleanup (re_cleanup env) s1 h) as [s2 h2].
    cbn zeta in F. cbn [fst snd] in F. rewrite Hh in F.
    destruct F as (_ & _ & _ & Hlog & _ & _ & _ & _ & Hecho & _).
    unfold log_text in *. rewrite Hlog, Hecho. exact Hw1. }
  destruct (main_loop (re_events env) s0 (h_world h0)) as [s1 w1|s1 w1|s1 w1|s1 w1];
    cbn [loop_world] in Hl, He.
  - specialize (C s1 w1 (set_world w1 h0) eq_refl ltac:(congruence)).
    now destruct (cleanup (re_cleanup env) s1 (set_world w1 h0)).
  - specialize (C s1 w1 (set_world w1 h0) eq_refl ltac:(congruence)).
    now destruct (cleanup (re_cleanup env) s1 (set_world w1 h0)).
  - destruct (re_interrupt env); [|cbn [run_world loop_world]; congruence].
    specialize (C s1 w1 (note NoteInterrupted (set_world w1 h0)) eq_refl
                  ltac:(congruence)).
    now destruct (cleanup (re_cleanup env) s1 (note NoteInterrupted (set_world w1 h0))).
  - destruct (re_interrupt env); [|cbn [run_world loop_world]; congruence].
    specialize (C s1 w1 (note NoteInterrupted (set_world w1 h0)) eq_refl
                  ltac:(congruence)).
    now destruct (cleanup (re_cleanup env) s1 (note NoteInterrupted (set_world w1 h0))).
Qed.

(** How [run] stands for a session that is running.  While it is in its
    loop (no interrupt has come) the pid file and the pipe are in place and
    the last status record written announces the state of the session.
    When the loop has been left, by the exit of the child, by a failed read
    of the PTY or by an interrupt, [cleanup] has run: the liveness flag is
    cleared, the pipe is removed (unless the removal fails), the closing
    line is printed last; the pid file is still there, and the last status
    record written still announces the state in which the session left the
    loop: the record does not tell that the runner has gone.  That state is
    MONITORING, except after an interrupt during a pause, where it is
    WAITING_FOR_AI.  When an exception of [pty.openpty] or of the spawn has
    left [run] before the loop, nothing is cleaned up: no child is set, the
    pid file and the pipe stay, and the status record still announces
    MONITORING. *)
Theorem run_ends_clean (env : RunEnv) (s : Session) :
  running s = true ->
  match run env s with
  | RunFailed _ None => True
  | RunFailed _ (Some (s', h')) =>
      running s' = true /\ process s' = process s /\
      in_sync s' (h_world h') /\ state s' = MONITORING /\
      runner_pid (w_dir (h_world h')) = Some (re_pid env) /\
      pipe_mode (w_dir (h_world h')) = Some 432 /\
      ~ In NoteDone (h_notes h')
  | RunOver s' h' =>
      running s' = false /\
      (state s' = MONITORING \/
       (state s' = WAITING_FOR_AI /\ re_interrupt env = true)) /\
      in_sync s' (h_world h') /\
      runner_pid (w_dir (h_world h')) = Some (re_pid env) /\
      pipe_mode (w_dir (h_world h'))
      = (if ce_unlink_raises (re_cleanup env) then Some 432 else None) /\
      last (h_notes h') NoteKilling = NoteDone
  | RunGoing l _ =>
      re_interrupt env = false /\
      running (loop_session l) = true /\
      in_sync (loop_session l) (loop_world l) /\
      runner_pid (w_dir (loop_world l)) = Some (re_pid env) /\
      pipe_mode (w_dir (loop_world l)) = Some 432
  end.
Proof.
  intros R. unfold run. pose proof (startup_spec env s) as H.
  destruct (startup env s) as [s0 h0|at_step [[s' h']|]]; [| |exact I].
  2:{ destruct H as (_ & -> & Hn & _ & Hw). rewrite Hw, Hn.
      destruct at_step; cbn; repeat split; auto; intros [K|K];
        try discriminate K; exact K. }
  destruct H as (_ & _ & Hs0 & _ & _ & Hw).
  assert (Hst : state s0 = MONITORING) by (subst s0; reflexivity).
  assert (Hr : running s0 = true) by (subst s0; exact R).
  assert (Hsync : in_sync s0 (h_world h0))
    by (rewrite Hw; subst s0; reflexivity).
  pose proof (Loop.main_loop_monitoring (re_events env) s0 (h_world h0) Hst Hr) as M.
  pose proof (Loop.main_loop_in_sync (re_events env) s0 (h_world h0) Hsync) as S.
  pose proof (main_loop_fixtures (re_events env) s0 (h_world h0)) as F.
  assert (P0 : runner_pid (w_dir (h_world h0)) = Some (re_pid env))
    by (rewrite Hw; reflexivity).
  assert (M0 : pipe_mode (w_dir (h_world h0)) = Some 432)
    by (rewrite Hw; reflexivity).
  destruct F as (_ & Fp & Fm & _). rewrite P0 in Fp. rewrite M0 in Fm.
  clear Hw P0 M0.
  assert (C : forall s1 w1 h,
             h_world h = w1 ->
             in_sync s1 w1 -> runner_pid (w_dir w1) = Some (re_pid env) ->
             pipe_mode (w_dir w1) = Some 432 ->
             let (s2, h2) := cleanup (re_cleanup env) s1 h in
             running s2 = false /\ state s2 = state s1 /\
             in_sync s2 (h_world h2) /\
             runner_pid (w_dir (h_world h2)) = Some (re_pid env) /\
             pipe_mode (w_dir (h_world h2))
             = (if ce_unlink_raises (re_cleanup env) then Some 432 else None) /\
             last (h_notes h2) NoteKilling = NoteDone).
  { intros s1 w1 h Hh Hs Hp Hm.
    pose proof (ShutdownFacts.cleanup_frame (re_cleanup env) s1 h) as K.
    destruct (cleanup (re_cleanup env) s1 h) as [s2 h2].
    cbn zeta in K. cbn [fst snd] in K. rewrite Hh in K.
    destruct K as (-> & _ & _ & _ & Cp & _ & Ch & _ & _ & Cm & _ & Cl).
    unfold in_sync, announced_state in *. rewrite Ch, Cp, Cm, Hm.
    cbn [running state set_running]. repeat split; auto. }
  destruct (main_loop (re_events env) s0 (h_world h0)) as [s1 w1|s1 w1|s1 w1|s1 w1];
    cbn [loop_session loop_world] in *; destruct M as [Ms Mr].
  - specialize (C s1 w1 (set_world w1 h0) eq_refl S Fp Fm).
    destruct (cleanup (re_cleanup env) s1 (set_world w1 h0)) as [s2 h2].
    destruct C as (C1 & C2 & C3 & C4 & C5 & C6).
    repeat split; auto. left. congruence.
  - specialize (C s1 w1 (set_world w1 h0) eq_refl S Fp Fm).
    destruct (cleanup (re_cleanup env) s1 (set_world w1 h0)) as [s2 h2].
    destruct C as (C1 & C2 & C3 & C4 & C5 & C6).
    repeat split; auto. left. congruence.
  - destruct (re_interrupt env) eqn:I; [|repeat split; auto].
    specialize (C s1 w1 (note NoteInterrupted (set_world w1 h0)) eq_refl S Fp Fm).
    destruct (cleanup (re_cleanup env) s1 (note NoteInterrupted (set_world w1 h0)))
      as [s2 h2].
    destruct C as (C1 & C2 & C3 & C4 & C5 & C6).
    repeat split; auto. right. split; [congruence | reflexivity].
  - destruct (re_interrupt env) eqn:I; [|repeat split; auto].
    specialize (C s1 w1 (note NoteInterrupted (set_world w1 h0)) eq_refl S Fp Fm).
    destruct (cleanup (re_cleanup env) s1 (note NoteInterrupted (set_world w1 h0)))
      as [s2 h2].
    destruct C as (C1 & C2 & C3 & C4 & C5 & C6).
    repeat split; auto. left. congruence.
Qed.

(** A first start on a free path. *)
Lemma run_startup_records_witness :
  exists s0 h0,
    startup sample_run sample_session = Entered s0 h0 /\
    process s0 = Some 4242 /\
    field_of "info" (status_json (w_dir (h_world h0))) = Some (JStr STARTED).
Proof.
  eexists. eexists. split; [reflexivity|].
  pose proof (run_startup_records sample_run sample_session _ _ eq_refl) as H.
  destruct H as (_ & _ & _ & _ & Hp & _ & _ & _ & _ & Hi & _).
  split; [exact Hp | exact Hi].
Defined.

(** Ctrl-C while the sample session waits for the agent: [cleanup] runs and
    the session stays in WAITING_FOR_AI, as the status record says. *)
Lemma run_ends_clean_witness :
  match run sample_interrupted sample_session with
  | RunOver s' h' =>
      running s' = false /\ state s' = WAITING_FOR_AI /\
      in_sync s' (h_world h') /\ pipe_mode (w_dir (h_world h')) = None
  | _ => False
  end.
Proof.
  pose proof (run_ends_clean sample_interrupted sample_session eq_refl) as H.
  destruct (run sample_interrupted sample_session) as [a l|s' h'|l h] eqn:E.
  - vm_compute in E. discriminate E.
  - destruct H as (H1 & _ & H3 & _ & H5 & _).
    repeat split; [exact H1 | | exact H3 | exact H5].
    vm_compute in E. injection E as <- _. reflexivity.
  - vm_compute in E. discriminate E.
Defined.

End Lifecycle.
